(** * Paginated REST client: a shallow embedding of [api_client.py]

    The development follows the layout of the Python module:

    - [Py]          the Python values and primitives the client relies on
                    (JSON-like data, truthiness, [dict] operations, the
                    exceptions that can escape);
    - [RateLimiter] the class of the same name, over a modelled clock
                    that reads in binary64 as [time.time()] does;
    - [Urllib]      the interface of [urllib.parse] as the client uses it,
                    with a small executable model for concrete runs;
    - [Client]      [PaginatedAPIClient]: [_make_request],
                    [_find_data_array], [get_paginated_data] and the
                    request building of [get_paginated_data_by_url].

    Numbers are integers ([Z]) in JSON data; clock readings, rates and
    intervals are Python floats, that is binary64 ([PrimFloat.float])
    with its rounding. *)

From Stdlib Require Import String Ascii List ZArith Bool Lia.
From Stdlib Require Floats.
Import ListNotations.

Set Warnings "-inexact-float".

Local Open Scope string_scope.
Local Open Scope Z_scope.

(* ================================================================== *)
(** * Python values and primitives *)
(* ================================================================== *)

Module Py.

(** What [response.json()] returns, and what request parameters hold.
    A [dict] keeps insertion order, so it is an association list. *)
#[warnings="-register-all"] Inductive json : Type :=
| JNull
| JBool (b : bool)
| JNum (n : Z)
| JStr (s : string)
| JList (l : list json)
| JDict (d : list (string * json)).

(** Exceptions that can leave the client. *)
Inductive exn : Type :=
| RequestException (msg : string)
| ValueError
| KeyError
| AttributeError
| TypeError
| ZeroDivisionError.

(** Computations that may raise. *)
Definition result (A : Type) : Type := (exn + A)%type.

Definition ret {A} (a : A) : result A := inr a.
Definition raise {A} (e : exn) : result A := inl e.

Definition bind {A B} (m : result A) (k : A -> result B) : result B :=
  match m with
  | inl e => inl e
  | inr a => k a
  end.

Declare Scope py_scope.
Delimit Scope py_scope with py.
Notation "x <- m ;; k" := (bind m (fun x => k))
  (at level 100, m at next level, right associativity) : py_scope.

(** Python truthiness, [bool(v)]. *)
Definition str_truthy (s : string) : bool :=
  negb (String.eqb s "").

Definition truthy (v : json) : bool :=
  match v with
  | JNull => false
  | JBool b => b
  | JNum n => negb (n =? 0)
  | JStr s => str_truthy s
  | JList l => match l with [] => false | _ => true end
  | JDict d => match d with [] => false | _ => true end
  end.

(** An [Optional[str]] argument used as a condition. *)
Definition opt_str_truthy (o : option string) : bool :=
  match o with
  | Some s => str_truthy s
  | None => false
  end.

(** An [Optional[int]] argument used as a condition: [None] and [0] are
    both false. *)
Definition opt_int_truthy (o : option Z) : bool :=
  match o with
  | Some n => negb (n =? 0)
  | None => false
  end.

(** ** Dictionaries *)

Definition dict : Type := list (string * json).

Fixpoint dict_get (d : dict) (k : string) : option json :=
  match d with
  | [] => None
  | (k', v) :: d' => if String.eqb k' k then Some v else dict_get d' k
  end.

Definition dict_mem (d : dict) (k : string) : bool :=
  match dict_get d k with Some _ => true | None => false end.

(** [d[k] = v]: the value of an existing key is replaced where it stands,
    a new key goes last. *)
Fixpoint dict_set (d : dict) (k : string) (v : json) : dict :=
  match d with
  | [] => [(k, v)]
  | (k', v') :: d' =>
      if String.eqb k' k then (k', v) :: d' else (k', v') :: dict_set d' k v
  end.

(** [d.update(e)] *)
Definition dict_update (d e : dict) : dict :=
  fold_left (fun acc kv => dict_set acc (fst kv) (snd kv)) e d.

Definition dict_values (d : dict) : list json := map snd d.

(** ** Sequences *)

Definition is_list (v : json) : bool :=
  match v with JList _ => true | _ => false end.

Fixpoint chars (s : string) : list json :=
  match s with
  | EmptyString => []
  | String c s' => JStr (String c EmptyString) :: chars s'
  end.

(** The elements [list.extend(v)] appends: a list gives its elements, a
    string its characters, a dict its keys; other values are not
    iterable. *)
Definition iterate (v : json) : result (list json) :=
  match v with
  | JList l => ret l
  | JStr s => ret (chars s)
  | JDict d => ret (map (fun kv => JStr (fst kv)) d)
  | JNull | JBool _ | JNum _ => raise TypeError
  end.

(** [len(v)] *)
Definition len (v : json) : result Z :=
  match v with
  | JList l => ret (Z.of_nat (List.length l))
  | JStr s => ret (Z.of_nat (String.length s))
  | JDict d => ret (Z.of_nat (List.length d))
  | JNull | JBool _ | JNum _ => raise TypeError
  end.

(** [s in t] for two strings: substring test. *)
Definition str_contains (t s : string) : bool :=
  match String.index 0 s t with Some _ => true | None => false end.

(** [k in v] where [k] is a string. *)
Definition contains_str (v : json) (k : string) : result bool :=
  match v with
  | JDict d => ret (dict_mem d k)
  | JList l =>
      ret (existsb (fun e => match e with
                             | JStr s => String.eqb s k
                             | _ => false
                             end) l)
  | JStr t => ret (str_contains t k)
  | JNull | JBool _ | JNum _ => raise TypeError
  end.

(** [k in v] where [k] is [None]. *)
Definition contains_none (v : json) : result bool :=
  match v with
  | JDict _ => ret false
  | JList l =>
      ret (existsb (fun e => match e with JNull => true | _ => false end) l)
  | JStr _ | JNull | JBool _ | JNum _ => raise TypeError
  end.

(** [v[k]] for a string key. *)
Definition subscript (v : json) (k : string) : result json :=
  match v with
  | JDict d => match dict_get d k with
               | Some x => ret x
               | None => raise KeyError
               end
  | _ => raise TypeError
  end.

(** [v.get(k, default)]: only a dict has the method. *)
Definition get_default (v : json) (k : string) (default : json) : result json :=
  match v with
  | JDict d => match dict_get d k with
               | Some x => ret x
               | None => ret default
               end
  | _ => raise AttributeError
  end.

(** [n >= v] for an integer [n]: [bool] is a subtype of [int]; other
    types do not compare with an integer. *)
Definition int_ge (n : Z) (v : json) : result bool :=
  match v with
  | JNum m => ret (m <=? n)
  | JBool b => ret ((if b then 1 else 0) <=? n)
  | _ => raise TypeError
  end.

(** [s.startswith(p)] and [s.rstrip(c)] *)
Definition startswith (s p : string) : bool := String.prefix p s.

Fixpoint rstrip (c : ascii) (s : string) : string :=
  match s with
  | EmptyString => EmptyString
  | String a s' =>
      match rstrip c s' with
      | EmptyString => if Ascii.eqb a c then EmptyString else String a EmptyString
      | r => String a r
      end
  end.

(** [s.split(c, 1)] when [c] occurs: the text before and after its first
    occurrence. *)
Fixpoint cut (c : ascii) (s : string) : option (string * string) :=
  match s with
  | EmptyString => None
  | String a s' =>
      if Ascii.eqb a c then Some (EmptyString, s')
      else match cut c s' with
           | Some (l, r) => Some (String a l, r)
           | None => None
           end
  end.

(** [s.split(c)] *)
Fixpoint split (c : ascii) (s : string) : list string :=
  match s with
  | EmptyString => [EmptyString]
  | String a s' =>
      if Ascii.eqb a c then EmptyString :: split c s'
      else match split c s' with
           | [] => [String a EmptyString]
           | x :: xs => String a x :: xs
           end
  end.

(** [sep.join(l)] *)
Fixpoint join (sep : string) (l : list string) : string :=
  match l with
  | [] => EmptyString
  | [x] => x
  | x :: xs => x ++ sep ++ join sep xs
  end.

End Py.

(* ================================================================== *)
(** * [class RateLimiter] *)
(* ================================================================== *)

Module RateLimiter.
Import Py.
Import PrimFloat.
Local Open Scope float_scope.

(** The clock the limiter reads and sleeps on, in binary64 as
    [time.time()] gives it.  [sleeps] logs the arguments of the calls to
    [time.sleep], oldest first. *)
Record Clock : Type := mkClock {
  now : float;
  sleeps : list float
}.

(** [time.time()] *)
Definition time_time (c : Clock) : float := now c.

(** [time.sleep(d)] for a duration the platform accepts (it refuses
    those of centuries): the next reading is the sum of the reading and
    [d], rounded as every float sum is.  Nothing but sleeping moves the
    modelled clock. *)
Definition time_sleep (d : float) (c : Clock) : Clock :=
  {| now := now c + d; sleeps := (sleeps c ++ [d])%list |}.

Record t : Type := mkLimiter {
  calls_per_second : float;
  min_interval : float;
  last_call_time : float
}.

(** [RateLimiter.__init__]: the division raises on a zero rate, of
    either sign. *)
Definition __init__ (calls_per_second : float) : result t :=
  if calls_per_second =? 0 then raise ZeroDivisionError
  else ret {| calls_per_second := calls_per_second;
              min_interval := 1 / calls_per_second;
              last_call_time := 0 |}.

(** [RateLimiter.wait_if_needed] *)
Definition wait_if_needed (self : t) (c : Clock) : t * Clock :=
  let current_time := time_time c in
  let time_since_last_call := current_time - last_call_time self in
  let c1 :=
    if time_since_last_call <? min_interval self then
      let sleep_time := min_interval self - time_since_last_call in
      time_sleep sleep_time c
    else c in
  ({| calls_per_second := calls_per_second self;
      min_interval := min_interval self;
      last_call_time := time_time c1 |}, c1).




End RateLimiter.

(* ================================================================== *)
(** * [urllib.parse] *)
(* ================================================================== *)

Module Urllib.
Import Py.

(** The six-way split of [urlparse], without the [params] part, which
    the client does not read. *)
Record ParseResult : Type := mkParse {
  scheme : string;
  netloc : string;
  path : string;
  query : string;
  fragment : string
}.

(** The three library functions the client calls.  The client is
    verified against this interface; [model] below is one executable
    reading of it, used to run the client on concrete URLs. *)
Class Api : Type := {
  urlparse : string -> ParseResult;
  urljoin : string -> string -> string;
  parse_qs : string -> list (string * list string)
}.

(** ** An executable model

    [urlparse], [urljoin] and [parse_qs] as CPython 3.11 defines them,
    on the strings of this development, which hold code points below
    256.  Two things have no image here.  [urlsplit] raises
    [ValueError] for an authority with square brackets that do not
    enclose an IP literal; the model splits such a URL like any other.
    Percent-decoding can yield code points beyond U+00FF, the
    replacement character U+FFFD among them, which a [string] cannot
    hold; the model writes [?] for each of them. *)

Definition in_range (lo hi : nat) (c : ascii) : bool :=
  let n := nat_of_ascii c in (lo <=? n)%nat && (n <=? hi)%nat.

Definition is_alpha (c : ascii) : bool :=
  in_range 65 90 c || in_range 97 122 c.

Definition is_scheme_char (c : ascii) : bool :=
  is_alpha c || in_range 48 57 c
  || Ascii.eqb c "+" || Ascii.eqb c "-" || Ascii.eqb c ".".

Definition lower_char (c : ascii) : ascii :=
  if in_range 65 90 c then ascii_of_nat (nat_of_ascii c + 32) else c.

Fixpoint lower (s : string) : string :=
  match s with
  | EmptyString => EmptyString
  | String a s' => String (lower_char a) (lower s')
  end.

Fixpoint forallb_str (p : ascii -> bool) (s : string) : bool :=
  match s with
  | EmptyString => true
  | String a s' => p a && forallb_str p s'
  end.

Fixpoint existsb_str (p : ascii -> bool) (s : string) : bool :=
  match s with
  | EmptyString => false
  | String a s' => p a || existsb_str p s'
  end.

Fixpoint filter_str (p : ascii -> bool) (s : string) : string :=
  match s with
  | EmptyString => EmptyString
  | String a s' => if p a then String a (filter_str p s') else filter_str p s'
  end.

Definition nonempty (s : string) : bool := negb (String.eqb s "").

Definition mem (s : string) (l : list string) : bool :=
  existsb (String.eqb s) l.

Definition uses_relative : list string :=
  [""; "ftp"; "http"; "gopher"; "nntp"; "imap"; "wais"; "file"; "https";
   "shttp"; "mms"; "prospero"; "rtsp"; "rtspu"; "sftp"; "svn"; "svn+ssh";
   "ws"; "wss"].

Definition uses_netloc : list string :=
  [""; "ftp"; "http"; "gopher"; "nntp"; "telnet"; "imap"; "wais"; "file";
   "mms"; "https"; "shttp"; "snews"; "prospero"; "rtsp"; "rtspu"; "rsync";
   "svn"; "svn+ssh"; "sftp"; "nfs"; "git"; "git+ssh"; "ws"; "wss"].

Definition uses_params : list string :=
  [""; "ftp"; "hdl"; "prospero"; "http"; "imap"; "https"; "shttp"; "rtsp";
   "rtspu"; "sip"; "sips"; "mms"; "sftp"; "tel"].

(** [_WHATWG_C0_CONTROL_OR_SPACE] and [_UNSAFE_URL_BYTES_TO_REMOVE] *)
Definition c0_or_space (c : ascii) : bool := (nat_of_ascii c <=? 32)%nat.

Definition unsafe (c : ascii) : bool :=
  let n := nat_of_ascii c in ((n =? 9) || (n =? 10) || (n =? 13))%nat.

Fixpoint lstrip_c0 (s : string) : string :=
  match s with
  | EmptyString => EmptyString
  | String a s' => if c0_or_space a then lstrip_c0 s' else s
  end.

Fixpoint rstrip_c0 (s : string) : string :=
  match s with
  | EmptyString => EmptyString
  | String a s' =>
      match rstrip_c0 s' with
      | EmptyString =>
          if c0_or_space a then EmptyString else String a EmptyString
      | r => String a r
      end
  end.

Definition remove_unsafe (s : string) : string :=
  filter_str (fun c => negb (unsafe c)) s.

(** The leading [scheme:] of a URL, if it has one. *)
Definition split_scheme (url : string) : string * string :=
  match cut ":" url with
  | Some (String a pre, rest) =>
      if is_alpha a && forallb_str is_scheme_char pre
      then (lower (String a pre), rest)
      else (EmptyString, url)
  | _ => (EmptyString, url)
  end.

(** [_splitnetloc]: the authority after [//], up to the first of [/],
    [?], [#]. *)
Fixpoint split_netloc (s : string) : string * string :=
  match s with
  | EmptyString => (EmptyString, EmptyString)
  | String a s' =>
      if Ascii.eqb a "/" || Ascii.eqb a "?" || Ascii.eqb a "#"
      then (EmptyString, s)
      else let (n, r) := split_netloc s' in (String a n, r)
  end.

(** [urlsplit(url, scheme)] *)
Definition model_urlsplit (url default_scheme : string) : ParseResult :=
  let url := remove_unsafe (lstrip_c0 url) in
  let default_scheme :=
    remove_unsafe (rstrip_c0 (lstrip_c0 default_scheme)) in
  let (sch, url1) := split_scheme url in
  let sch := if String.eqb sch "" then default_scheme else sch in
  let (net, url2) :=
    match url1 with
    | String "/" (String "/" r) => split_netloc r
    | _ => (EmptyString, url1)
    end in
  let (url3, frag) :=
    match cut "#" url2 with
    | Some (l, r) => (l, r)
    | None => (url2, EmptyString)
    end in
  let (url4, qry) :=
    match cut "?" url3 with
    | Some (l, r) => (l, r)
    | None => (url3, EmptyString)
    end in
  {| scheme := sch; netloc := net; path := url4; query := qry;
     fragment := frag |}.

(** The text before the last [c], and the text from it on. *)
Fixpoint rcut (c : ascii) (s : string) : option (string * string) :=
  match s with
  | EmptyString => None
  | String a s' =>
      match rcut c s' with
      | Some (l, r) => Some (String a l, r)
      | None => if Ascii.eqb a c then Some (EmptyString, s) else None
      end
  end.

(** [_splitparams]: the parameters of the last path segment. *)
Definition splitparams (url : string) : string * string :=
  match rcut "/" url with
  | Some (before, last_segment) =>
      match cut ";" last_segment with
      | Some (l, r) => (before ++ l, r)
      | None => (url, EmptyString)
      end
  | None =>
      match cut ";" url with
      | Some (l, r) => (l, r)
      | None => (url, EmptyString)
      end
  end.

(** [urlparse(url, scheme)]: the split, and the [params] part, which the
    client does not read. *)
Definition model_urlparse_with (url default_scheme : string)
  : ParseResult * string :=
  let r := model_urlsplit url default_scheme in
  if mem (scheme r) uses_params
     && existsb_str (Ascii.eqb ";") (path r)
  then
    let (p, params) := splitparams (path r) in
    ({| scheme := scheme r; netloc := netloc r; path := p;
        query := query r; fragment := fragment r |}, params)
  else (r, EmptyString).

Definition model_urlparse (url : string) : ParseResult :=
  fst (model_urlparse_with url "").

(** [urlunparse] *)
Definition model_urlunparse (p : ParseResult) (params : string) : string :=
  let url := if nonempty params then path p ++ ";" ++ params else path p in
  let url :=
    if nonempty (netloc p)
       || (nonempty (scheme p) && mem (scheme p) uses_netloc
           && negb (String.prefix "//" url))
    then
      let url :=
        if nonempty url && negb (String.prefix "/" url) then "/" ++ url
        else url in
      "//" ++ netloc p ++ url
    else url in
  let url := if nonempty (scheme p) then scheme p ++ ":" ++ url else url in
  let url := if nonempty (query p) then url ++ "?" ++ query p else url in
  if nonempty (fragment p) then url ++ "#" ++ fragment p else url.

(** Removal of dot segments, as the loop of [urljoin] does it. *)
Fixpoint resolve (segments resolved : list string) : list string :=
  match segments with
  | [] => resolved
  | seg :: rest =>
      if String.eqb seg ".." then resolve rest (removelast resolved)
      else if String.eqb seg "." then resolve rest resolved
      else resolve rest (resolved ++ [seg])%list
  end.

(** [segments[1:-1] = filter(None, segments[1:-1])] *)
Definition drop_inner_empty (segments : list string) : list string :=
  match segments with
  | [] => []
  | first :: rest =>
      match rev rest with
      | [] => [first]
      | final :: inner_rev =>
          (first :: filter nonempty (rev inner_rev) ++ [final])%list
      end
  end.

Definition model_urljoin (base url : string) : string :=
  if String.eqb base "" then url
  else if String.eqb url "" then base
  else
    let (b, bparams) := model_urlparse_with base "" in
    let (u, params) := model_urlparse_with url (scheme b) in
    if negb (String.eqb (scheme u) (scheme b))
       || negb (mem (scheme u) uses_relative)
    then url
    else if mem (scheme u) uses_netloc && nonempty (netloc u)
    then model_urlunparse u params
    else
      let net := if mem (scheme u) uses_netloc then netloc b else netloc u in
      if String.eqb (path u) "" && String.eqb params "" then
        model_urlunparse
          {| scheme := scheme u; netloc := net; path := path b;
             query := if String.eqb (query u) "" then query b else query u;
             fragment := fragment u |}
          bparams
      else
        let base_parts := split "/" (path b) in
        let base_parts :=
          if nonempty (last base_parts "") then removelast base_parts
          else base_parts in
        let segments :=
          if String.prefix "/" (path u) then split "/" (path u)
          else drop_inner_empty (base_parts ++ split "/" (path u))%list in
        let resolved := resolve segments [] in
        let resolved :=
          let final := last segments "" in
          if String.eqb final "." || String.eqb final ".."
          then (resolved ++ [""])%list else resolved in
        let joined := join "/" resolved in
        model_urlunparse
          {| scheme := scheme u; netloc := net;
             path := if String.eqb joined "" then "/" else joined;
             query := query u; fragment := fragment u |}
          params.

(** ** Percent-decoding *)

Definition hex_value (c : ascii) : option N :=
  let n := N_of_ascii c in
  if in_range 48 57 c then Some (n - 48)%N
  else if in_range 65 70 c then Some (n - 55)%N
  else if in_range 97 102 c then Some (n - 87)%N
  else None.

(** [s.replace('+', ' ')] *)
Fixpoint plus_to_space (s : string) : string :=
  match s with
  | EmptyString => EmptyString
  | String a s' =>
      String (if Ascii.eqb a "+" then " "%char else a) (plus_to_space s')
  end.

(** What [unquote] decodes: the bytes of the ASCII text, [%xx] read as
    the byte [xx], and between them the characters that are not ASCII,
    which stay as they are. *)
Inductive Token : Type :=
| Byte (b : N)
| Verbatim (c : ascii).

Fixpoint unquote_to_bytes (s : string) : list Token :=
  match s with
  | EmptyString => []
  | String c s1 =>
      if Ascii.eqb c "%" then
        match s1 with
        | String h (String l s2) =>
            match hex_value h, hex_value l with
            | Some a, Some b => Byte (16 * a + b)%N :: unquote_to_bytes s2
            | _, _ => Byte 37 :: unquote_to_bytes s1
            end
        | _ => Byte 37 :: unquote_to_bytes s1
        end
      else if (N_of_ascii c <? 128)%N
      then Byte (N_of_ascii c) :: unquote_to_bytes s1
      else Verbatim c :: unquote_to_bytes s1
  end.

(** A byte of a sequence, when it lies between [lo] and [hi]. *)
Definition continuation (lo hi : N) (t : Token) : option N :=
  match t with
  | Byte b => if ((lo <=? b) && (b <=? hi))%N then Some b else None
  | Verbatim _ => None
  end.

(** The range of the second byte after the lead byte [b]. *)
Definition second_range (b : N) : N * N :=
  if (b =? 224)%N then (160, 191)%N
  else if (b =? 237)%N then (128, 159)%N
  else if (b =? 240)%N then (144, 191)%N
  else if (b =? 244)%N then (128, 143)%N
  else (128, 191)%N.

Definition replacement : N := 65533.

(** [bytes.decode('utf-8', 'replace')]: the code points of the
    well-formed sequences, and U+FFFD for every maximal part of an
    ill-formed one. *)
Fixpoint decode_utf8 (ts : list Token) : list N :=
  match ts with
  | [] => []
  | Verbatim c :: r0 => N_of_ascii c :: decode_utf8 r0
  | Byte b0 :: r0 =>
      if (b0 <? 128)%N then b0 :: decode_utf8 r0
      else if ((194 <=? b0) && (b0 <=? 223))%N then
        match r0 with
        | t1 :: r1 =>
            match continuation 128 191 t1 with
            | Some b1 =>
                ((b0 - 192) * 64 + (b1 - 128))%N :: decode_utf8 r1
            | None => replacement :: decode_utf8 r0
            end
        | [] => [replacement]
        end
      else if ((224 <=? b0) && (b0 <=? 239))%N then
        match r0 with
        | t1 :: r1 =>
            match continuation (fst (second_range b0))
                    (snd (second_range b0)) t1 with
            | Some b1 =>
                match r1 with
                | t2 :: r2 =>
                    match continuation 128 191 t2 with
                    | Some b2 =>
                        ((b0 - 224) * 4096 + (b1 - 128) * 64
                         + (b2 - 128))%N :: decode_utf8 r2
                    | None => replacement :: decode_utf8 r1
                    end
                | [] => [replacement]
                end
            | None => replacement :: decode_utf8 r0
            end
        | [] => [replacement]
        end
      else if ((240 <=? b0) && (b0 <=? 244))%N then
        match r0 with
        | t1 :: r1 =>
            match continuation (fst (second_range b0))
                    (snd (second_range b0)) t1 with
            | Some b1 =>
                match r1 with
                | t2 :: r2 =>
                    match continuation 128 191 t2 with
                    | Some b2 =>
                        match r2 with
                        | t3 :: r3 =>
                            match continuation 128 191 t3 with
                            | Some b3 =>
                                ((b0 - 240) * 262144 + (b1 - 128) * 4096
                                 + (b2 - 128) * 64 + (b3 - 128))%N
                                :: decode_utf8 r3
                            | None => replacement :: decode_utf8 r2
                            end
                        | [] => [replacement]
                        end
                    | None => replacement :: decode_utf8 r1
                    end
                | [] => [replacement]
                end
            | None => replacement :: decode_utf8 r0
            end
        | [] => [replacement]
        end
      else replacement :: decode_utf8 r0
  end.

(** The string of these code points, with [?] for those it cannot
    hold. *)
Definition of_code_points (l : list N) : string :=
  string_of_list_ascii
    (map (fun n => if (n <? 256)%N then ascii_of_N n else "?"%char) l).

(** [unquote(s.replace('+', ' '))] *)
Definition unquote_plus (s : string) : string :=
  of_code_points (decode_utf8 (unquote_to_bytes (plus_to_space s))).

Fixpoint add_value (d : list (string * list string)) (k v : string)
  : list (string * list string) :=
  match d with
  | [] => [(k, [v])]
  | (k', vs) :: d' =>
      if String.eqb k' k then (k', (vs ++ [v])%list) :: d'
      else (k', vs) :: add_value d' k v
  end.

Definition model_parse_qs (qs : string) : list (string * list string) :=
  fold_left
    (fun d name_value =>
       match cut "=" name_value with
       | Some (name, value) =>
           if nonempty value
           then add_value d (unquote_plus name) (unquote_plus value)
           else d
       | None => d
       end)
    (split "&" qs) [].

Definition model : Api := {|
  urlparse := model_urlparse;
  urljoin := model_urljoin;
  parse_qs := model_parse_qs
|}.

End Urllib.

(* ================================================================== *)
(** * [class PaginatedAPIClient] *)
(* ================================================================== *)

Module Client.
Import Py.
Local Open Scope py_scope.

(** The arguments [_make_request] hands to [session.request]. *)
Record Request : Type := mkRequest {
  method : string;
  url : string;
  params : dict
}.

(** What one exchange produces, seen from [get_paginated_data]:
    [session.request] or [raise_for_status] raises, or [response.json()]
    raises, or the body is parsed. *)
Inductive Response : Type :=
| RequestFailed (msg : string)
| BodyNotJson
| Body (data : json).

(** The keyword arguments of [get_paginated_data]. *)
Record Config : Type := mkConfig {
  endpoint : string;
  page_size : Z;
  max_pages : option Z;
  pagination_type : string;
  page_param : string;
  size_param : string;
  offset_param : string;
  data_key : option string;
  next_page_key : option string;
  total_key : option string;
  custom_params : option dict;
  stop_condition : option (json -> bool);
  start_page : Z
}.

(** The signature's defaults. *)
Definition default_config (endpoint : string) : Config := {|
  endpoint := endpoint;
  page_size := 100;
  max_pages := None;
  pagination_type := "offset";
  page_param := "page";
  size_param := "page_size";
  offset_param := "offset";
  data_key := None;
  next_page_key := Some "next";
  total_key := Some "total";
  custom_params := None;
  stop_condition := None;
  start_page := 1
|}.

(** The local variables of [get_paginated_data]; [None] is [JNull] for
    [cursor] and [total_items].  [st_endpoint] is the parameter
    [endpoint], which the URL branch reassigns. *)
Record State : Type := mkState {
  all_data : list json;
  page : Z;
  offset : Z;
  cursor : json;
  next_url : option string;
  total_items : json;
  pages_retrieved : Z;
  st_endpoint : string
}.

(** The message logged just before a [break]. *)
Inductive Stop : Type :=
| NoMoreItems           (* "No more items found, stopping pagination" *)
| MaxPagesReached       (* "Reached maximum pages limit" *)
| StopConditionMet      (* "Stop condition met" *)
| PartialPage           (* "Received partial page, assuming last page" *)
| NoNextCursor          (* "No next cursor found, stopping" *)
| AllItemsRetrieved.    (* "Retrieved all available items" *)

(** How one pass through the loop body ends. *)
Inductive Ctl : Type :=
| Break (why : Stop) (st : State)
| Continue (st : State).

(** How a call ends; [OutOfFuel] stands for a loop still running. *)
Inductive Outcome : Type :=
| Returned (data : list json) (why : Stop)
| Raised (e : exn)
| OutOfFuel.

(** [dict] arguments used as conditions. *)
Definition opt_dict_truthy (o : option dict) : bool :=
  match o with
  | Some (_ :: _) => true
  | _ => false
  end.

Definition opt_dict (o : option dict) : dict :=
  match o with Some d => d | None => [] end.

(** [{k: v[0] if len(v) == 1 else v for k, v in url_params.items()}] *)
Definition single_values (url_params : list (string * list string)) : dict :=
  fold_left
    (fun acc kv =>
       dict_set acc (fst kv)
         match snd kv with
         | [x] => JStr x
         | v => JList (map JStr v)
         end)
    url_params [].

(** [_find_data_array]: the probe of the common keys ... *)
Definition common_keys : list string :=
  ["results"; "data"; "items"; "records"; "rows"; "entries"].

Fixpoint find_common (keys : list string) (response_data : json)
  : result (option json) :=
  match keys with
  | [] => ret None
  | key :: keys' =>
      has <- contains_str response_data key ;;
      if has then
        v <- subscript response_data key ;;
        if is_list v then ret (Some v) else find_common keys' response_data
      else find_common keys' response_data
  end.

(** ... and [response_data.values()]. *)
Definition values (v : json) : result (list json) :=
  match v with
  | JDict d => ret (dict_values d)
  | _ => raise AttributeError
  end.

Definition _find_data_array (response_data : json) : result json :=
  found <- find_common common_keys response_data ;;
  match found with
  | Some v => ret v
  | None =>
      vs <- values response_data ;;
      match find is_list vs with
      | Some v => ret v
      | None => ret (JList [])
      end
  end.

(** "Extract items from response", the same code in [get_paginated_data]
    and in [get_paginated_data_by_url]. *)
Definition extract_items (data_key : option string) (data : json)
  : result json :=
  match data_key with
  | Some k =>
      if str_truthy k then get_default data k (JList [])
      else if is_list data then ret data
      else _find_data_array data
  | None =>
      if is_list data then ret data
      else _find_data_array data
  end.

(** [next_page_key in data] and [data[next_page_key]] for an
    [Optional[str]] key. *)
Definition contains_key (data : json) (k : option string) : result bool :=
  match k with
  | Some s => contains_str data s
  | None => contains_none data
  end.

Definition subscript_key (data : json) (k : option string) : result json :=
  match k with
  | Some s => subscript data s
  | None => match data with
            | JDict _ => raise KeyError
            | _ => raise TypeError
            end
  end.

(** [next_page_key in data and data[next_page_key]]: the value when it is
    there and truthy. *)
Definition truthy_entry (data : json) (k : option string)
  : result (option json) :=
  has <- contains_key data k ;;
  if has then
    v <- subscript_key data k ;;
    ret (if truthy v then Some v else None)
  else ret None.

(** [data.get(key)] for an [Optional[str]] key. *)
Definition get_key (data : json) (k : option string) : result json :=
  match k with
  | Some s => get_default data s JNull
  | None => match data with
            | JDict _ => ret JNull
            | _ => raise AttributeError
            end
  end.

Definition is_none (v : json) : bool :=
  match v with JNull => true | _ => false end.

Definition is_absolute (s : string) : bool :=
  startswith s "http://" || startswith s "https://".

Section Engine.

Context {U : Urllib.Api}.

(** The network behind [session.request]: any state, any behaviour. *)
Variable W : Type.
Variable session_request : Request -> W -> Response * W.

(** What the client mutates outside its own locals: its rate limiter,
    the clock and the network. *)
Record World : Type := mkWorld {
  limiter : RateLimiter.t;
  clock : RateLimiter.Clock;
  net : W
}.

(** [self.base_url], already stripped by [__init__]. *)
Variable base_url : string.

(** [_make_request]: wait on the limiter, join the URL, send. *)
Definition _make_request (method endpoint : string) (params : dict) (w : World)
  : Request * Response * World :=
  let (rl, clk) := RateLimiter.wait_if_needed (limiter w) (clock w) in
  let url := Urllib.urljoin base_url endpoint in
  let req := {| method := method; url := url; params := params |} in
  let (resp, n) := session_request req (net w) in
  (req, resp, {| limiter := rl; clock := clk; net := n |}).

Variable cfg : Config.

(** [get_paginated_data], before the loop. *)
Definition initial_state : State := {|
  all_data := [];
  page := if String.eqb (pagination_type cfg) "page"
             || String.eqb (pagination_type cfg) "url"
          then start_page cfg else 0;
  offset := 0;
  cursor := JNull;
  next_url := None;
  total_items := JNull;
  pages_retrieved := 0;
  st_endpoint := endpoint cfg
|}.

(** "Build request parameters": the endpoint and the parameters of the
    next request. *)
Definition build_request (st : State) : string * dict :=
  let params :=
    if opt_dict_truthy (custom_params cfg) then opt_dict (custom_params cfg)
    else [] in
  let ptype := pagination_type cfg in
  if String.eqb ptype "url" && opt_str_truthy (next_url st) then
    let parsed_url := Urllib.urlparse (match next_url st with
                                       | Some s => s
                                       | None => ""
                                       end) in
    let endpoint := Urllib.path parsed_url in
    let url_params := Urllib.parse_qs (Urllib.query parsed_url) in
    let params := single_values url_params in
    let params :=
      if opt_dict_truthy (custom_params cfg)
      then dict_update params (opt_dict (custom_params cfg))
      else params in
    (endpoint, params)
  else if String.eqb ptype "page" then
    (st_endpoint st,
     dict_set (dict_set params (page_param cfg) (JNum (page st)))
              (size_param cfg) (JNum (page_size cfg)))
  else if String.eqb ptype "offset" then
    (st_endpoint st,
     dict_set (dict_set params (offset_param cfg) (JNum (offset st)))
              (size_param cfg) (JNum (page_size cfg)))
  else if String.eqb ptype "cursor" && truthy (cursor st) then
    (st_endpoint st,
     dict_set (dict_set params "cursor" (cursor st))
              (size_param cfg) (JNum (page_size cfg)))
  else if String.eqb ptype "cursor" && negb (truthy (cursor st)) then
    (st_endpoint st, dict_set params (size_param cfg) (JNum (page_size cfg)))
  else if String.eqb ptype "url" then
    (st_endpoint st,
     dict_set (dict_set params (page_param cfg) (JNum (page st)))
              (size_param cfg) (JNum (page_size cfg)))
  else (st_endpoint st, params).

(** Assignments to the locals. *)
Definition add_page (elems : list json) (st : State) : State :=
  {| all_data := all_data st ++ elems; page := page st; offset := offset st;
     cursor := cursor st; next_url := next_url st;
     total_items := total_items st;
     pages_retrieved := pages_retrieved st + 1;
     st_endpoint := st_endpoint st |}.

Definition set_total_items (v : json) (st : State) : State :=
  {| all_data := all_data st; page := page st; offset := offset st;
     cursor := cursor st; next_url := next_url st; total_items := v;
     pages_retrieved := pages_retrieved st; st_endpoint := st_endpoint st |}.

Definition set_next_url (s : string) (st : State) : State :=
  {| all_data := all_data st; page := page st; offset := offset st;
     cursor := cursor st; next_url := Some s; total_items := total_items st;
     pages_retrieved := pages_retrieved st; st_endpoint := st_endpoint st |}.

Definition set_cursor (v : json) (st : State) : State :=
  {| all_data := all_data st; page := page st; offset := offset st;
     cursor := v; next_url := next_url st; total_items := total_items st;
     pages_retrieved := pages_retrieved st; st_endpoint := st_endpoint st |}.

Definition set_page (n : Z) (st : State) : State :=
  {| all_data := all_data st; page := n; offset := offset st;
     cursor := cursor st; next_url := next_url st;
     total_items := total_items st;
     pages_retrieved := pages_retrieved st; st_endpoint := st_endpoint st |}.

Definition set_offset (n : Z) (st : State) : State :=
  {| all_data := all_data st; page := page st; offset := n;
     cursor := cursor st; next_url := next_url st;
     total_items := total_items st;
     pages_retrieved := pages_retrieved st; st_endpoint := st_endpoint st |}.

Definition set_endpoint (e : string) (st : State) : State :=
  {| all_data := all_data st; page := page st; offset := offset st;
     cursor := cursor st; next_url := next_url st;
     total_items := total_items st;
     pages_retrieved := pages_retrieved st; st_endpoint := e |}.

(** "Prepare for next iteration based on pagination type" *)
Definition prepare_next (items data : json) (st : State) : result Ctl :=
  let ptype := pagination_type cfg in
  if String.eqb ptype "url" then
    next <- truthy_entry data (next_page_key cfg) ;;
    match next with
    | Some v =>
        match v with
        | JStr s =>
            if is_absolute s then ret (Continue (set_next_url s st))
            else ret (Continue (set_next_url (Urllib.urljoin base_url s) st))
        | _ => raise AttributeError
        end
    | None =>
        n <- len items ;;
        if n <? page_size cfg then ret (Break PartialPage st)
        else ret (Continue (set_page (page st + 1) st))
    end
  else if String.eqb ptype "cursor" then
    next <- truthy_entry data (next_page_key cfg) ;;
    match next with
    | Some v => ret (Continue (set_cursor v st))
    | None => ret (Break NoNextCursor st)
    end
  else if String.eqb ptype "page" then
    n <- len items ;;
    if n <? page_size cfg then ret (Break PartialPage st)
    else ret (Continue (set_page (page st + 1) st))
  else if String.eqb ptype "offset" then
    n <- len items ;;
    if n <? page_size cfg then ret (Break PartialPage st)
    else
      let st := set_offset (offset st + n) st in
      if truthy (total_items st) then
        reached <- int_ge (offset st) (total_items st) ;;
        if reached then ret (Break AllItemsRetrieved st)
        else ret (Continue st)
      else ret (Continue st)
  else ret (Continue st).

(** "Get total count if available" *)
Definition record_total (data : json) (st : State) : result State :=
  if opt_str_truthy (total_key cfg) && is_none (total_items st) then
    v <- get_key data (total_key cfg) ;;
    ret (set_total_items v st)
  else ret st.

(** The loop body after [data = response.json()]. *)
Definition process_page (data : json) (st : State) : result Ctl :=
  items <- extract_items (data_key cfg) data ;;
  if negb (truthy items) then ret (Break NoMoreItems st)
  else
    elems <- iterate items ;;
    let st := add_page elems st in
    st <- record_total data st ;;
    if opt_int_truthy (max_pages cfg)
       && (match max_pages cfg with
           | Some m => m <=? pages_retrieved st
           | None => false
           end)
    then ret (Break MaxPagesReached st)
    else if match stop_condition cfg with
            | Some f => f data
            | None => false
            end
    then ret (Break StopConditionMet st)
    else prepare_next items data st.

(** A call and what it did on the network, oldest exchange first. *)
Record Run : Type := mkRun {
  outcome : Outcome;
  exchanges : list (Request * Response);
  world : World
}.

Definition after (x : Request * Response) (r : Run) : Run :=
  {| outcome := outcome r; exchanges := x :: exchanges r; world := world r |}.

(** [while True: ...], with [fuel] bounding the number of passes. *)
Fixpoint loop (fuel : nat) (st : State) (w : World) : Run :=
  match fuel with
  | O => {| outcome := OutOfFuel; exchanges := []; world := w |}
  | S fuel' =>
      let (endpoint, params) := build_request st in
      let st := set_endpoint endpoint st in
      let '(req, resp, w1) := _make_request "GET" endpoint params w in
      after (req, resp)
        match resp with
        | RequestFailed msg =>
            {| outcome := Raised (RequestException msg);
               exchanges := []; world := w1 |}
        | BodyNotJson =>
            {| outcome := Raised ValueError; exchanges := []; world := w1 |}
        | Body data =>
            match process_page data st with
            | inl e => {| outcome := Raised e; exchanges := []; world := w1 |}
            | inr (Break why st') =>
                {| outcome := Returned (all_data st') why;
                   exchanges := []; world := w1 |}
            | inr (Continue st') => loop fuel' st' w1
            end
        end
  end.

Definition get_paginated_data (fuel : nat) (w : World) : Run :=
  loop fuel initial_state w.

(** [get_paginated_data_by_url], "Parse URL to separate endpoint and
    parameters": the endpoint and the parameters sent for
    [current_url]. *)
Definition by_url_request (current_url : string) : string * dict :=
  let parsed := Urllib.urlparse current_url in
  if negb (String.eqb (Urllib.netloc parsed) "") then
    (Urllib.path parsed,
     single_values (Urllib.parse_qs (Urllib.query parsed)))
  else
    let endpoint := hd "" (split "?" current_url) in
    if str_contains current_url "?" then
      (endpoint,
       single_values (Urllib.parse_qs (nth 1 (split "?" current_url) "")))
    else (endpoint, []).

(** [get_paginated_data_by_url], "Get next URL": the new value of
    [current_url]. *)
Definition by_url_next (data : json) (next_page_key : option string)
  : result json :=
  current_url <- get_key data next_page_key ;;
  if truthy current_url then
    match current_url with
    | JStr s =>
        if is_absolute s then ret current_url
        else ret (JStr (Urllib.urljoin base_url s))
    | _ => raise AttributeError
    end
  else ret current_url.

End Engine.

(** ** Reading a run *)

Definition requests {W : Type} (r : Run W) : list Request :=
  map fst (exchanges W r).

Definition responses {W : Type} (r : Run W) : list Response :=
  map snd (exchanges W r).

(** The items one fetched page holds: the elements of what the
    extraction finds in its body (none for an empty page). *)
Definition page_elems (data_key : option string) (resp : Response)
  : list json :=
  match resp with
  | Body data =>
      match extract_items data_key data with
      | inr items =>
          if truthy items then
            match iterate items with
            | inr elems => elems
            | inl _ => []
            end
          else []
      | inl _ => []
      end
  | RequestFailed _ | BodyNotJson => []
  end.


Definition ctl_state (c : Ctl) : State :=
  match c with
  | Break _ st => st
  | Continue st => st
  end.


(** ** Requests and endpoints of the strategies *)

Section Endpoints.

Context {U : Urllib.Api}.
Variable W : Type.
Variable session_request : Request -> W -> Response * W.
Variable base_url : string.
Variable cfg : Config.

(** The request of the offset strategy at offset [o]: the static
    parameters, then [params[offset_param] = o], then
    [params[size_param] = page_size]. *)
Definition offset_request (o : Z) : Request :=
  {| method := "GET";
     url := Urllib.urljoin base_url (endpoint cfg);
     params :=
       dict_set (dict_set (opt_dict (custom_params cfg)) (offset_param cfg)
                          (JNum o))
                (size_param cfg) (JNum (page_size cfg)) |}.

(** An endpoint that serves the items [db] by offset, in pages of
    [page_size]: to a request that carries offset [o] and size
    [page_size] it answers, in any state, with a body from which the
    [page_size] items of [db] from position [o] on are extracted (fewer
    when [db] ends), and in which the total, if given at all, is the
    number of items of [db]. *)
Definition serves_by_offset (db : list json) : Prop :=
  forall (req : Request) (n : W) (o : nat),
    dict_get (params req) (offset_param cfg) = Some (JNum (Z.of_nat o)) ->
    dict_get (params req) (size_param cfg) = Some (JNum (page_size cfg)) ->
    exists body n',
      session_request req n = (Body body, n')
      /\ extract_items (data_key cfg) body
         = inr (JList (firstn (Z.to_nat (page_size cfg)) (skipn o db)))
      /\ (opt_str_truthy (total_key cfg) = true ->
          get_key body (total_key cfg) = inr JNull
          \/ get_key body (total_key cfg)
             = inr (JNum (Z.of_nat (List.length db)))).

(** The two requests of a cursor run: without a cursor, and with the
    cursor [tok]. *)
Definition first_cursor_request : Request :=
  {| method := "GET";
     url := Urllib.urljoin base_url (endpoint cfg);
     params := dict_set (opt_dict (custom_params cfg))
                        (size_param cfg) (JNum (page_size cfg)) |}.

Definition cursor_request (tok : json) : Request :=
  {| method := "GET";
     url := Urllib.urljoin base_url (endpoint cfg);
     params :=
       dict_set (dict_set (opt_dict (custom_params cfg)) "cursor" tok)
                (size_param cfg) (JNum (page_size cfg)) |}.

(** The request of the page strategy for page [n]. *)
Definition page_request (n : Z) : Request :=
  {| method := "GET";
     url := Urllib.urljoin base_url (endpoint cfg);
     params :=
       dict_set (dict_set (opt_dict (custom_params cfg)) (page_param cfg)
                          (JNum n))
                (size_param cfg) (JNum (page_size cfg)) |}.


End Endpoints.

(** The same call with another [pagination_type]. *)
Definition with_pagination_type (t : string) (cfg : Config) : Config := {|
  endpoint := endpoint cfg;
  page_size := page_size cfg;
  max_pages := max_pages cfg;
  pagination_type := t;
  page_param := page_param cfg;
  size_param := size_param cfg;
  offset_param := offset_param cfg;
  data_key := data_key cfg;
  next_page_key := next_page_key cfg;
  total_key := total_key cfg;
  custom_params := custom_params cfg;
  stop_condition := stop_condition cfg;
  start_page := start_page cfg
|}.

(** ** [get_paginated_data_by_url] *)

Section ByUrl.

Context {U : Urllib.Api}.
Variable W : Type.
Variable session_request : Request -> W -> Response * W.
Variable base_url : string.

(** The keyword arguments after [start_url]. *)
Variable data_key : option string.
Variable next_page_key : option string.
Variable max_pages : option Z.
Variable stop_condition : option (json -> bool).

(** The locals of [get_paginated_data_by_url]; [current_url] holds what
    [data.get(next_page_key)] gave, a string or not. *)
Record UrlState : Type := mkUrlState {
  url_all_data : list json;
  current_url : json;
  url_pages_retrieved : Z
}.

(** How its loop ends: the [while] condition fails on [current_url] or
    on [max_pages], or one of the two [break]s is taken. *)
Inductive UrlStop : Type :=
| NoNextUrl
| PageLimit
| NoItems               (* "No items found in response, stopping" *)
| ConditionMet.         (* "Stop condition met" *)

Inductive UrlCtl : Type :=
| UrlBreak (why : UrlStop) (st : UrlState)
| UrlContinue (st : UrlState).

Inductive UrlOutcome : Type :=
| UrlReturned (data : list json) (why : UrlStop)
| UrlRaised (e : exn)
| UrlOutOfFuel.

Record UrlRun : Type := mkUrlRun {
  url_outcome : UrlOutcome;
  url_exchanges : list (Request * Response);
  url_world : World W
}.

Definition url_after (x : Request * Response) (r : UrlRun) : UrlRun :=
  {| url_outcome := url_outcome r; url_exchanges := x :: url_exchanges r;
     url_world := url_world r |}.

(** [while current_url and (max_pages is None or pages_retrieved <
    max_pages)] *)
Definition url_limit_open (st : UrlState) : bool :=
  match max_pages with
  | None => true
  | Some m => url_pages_retrieved st <? m
  end.

(** The loop body after [data = response.json()]. *)
Definition by_url_page (data : json) (st : UrlState) : result UrlCtl :=
  items <- extract_items data_key data ;;
  if negb (truthy items) then ret (UrlBreak NoItems st)
  else
    elems <- iterate items ;;
    let st := {| url_all_data := url_all_data st ++ elems;
                 current_url := current_url st;
                 url_pages_retrieved := url_pages_retrieved st + 1 |} in
    if match stop_condition with
       | Some f => f data
       | None => false
       end
    then ret (UrlBreak ConditionMet st)
    else
      next <- by_url_next base_url data next_page_key ;;
      ret (UrlContinue {| url_all_data := url_all_data st;
                          current_url := next;
                          url_pages_retrieved := url_pages_retrieved st |}).

(** The loop; [fuel] bounds the number of passes through the body.
    [urlparse] of a value that is not a string raises. *)
Fixpoint by_url_loop (fuel : nat) (st : UrlState) (w : World W) : UrlRun :=
  if negb (truthy (current_url st)) then
    {| url_outcome := UrlReturned (url_all_data st) NoNextUrl;
       url_exchanges := []; url_world := w |}
  else if negb (url_limit_open st) then
    {| url_outcome := UrlReturned (url_all_data st) PageLimit;
       url_exchanges := []; url_world := w |}
  else
    match fuel with
    | O => {| url_outcome := UrlOutOfFuel; url_exchanges := [];
              url_world := w |}
    | S fuel' =>
        match current_url st with
        | JStr s =>
            let (endpoint, params) := by_url_request s in
            let '(req, resp, w1) :=
              _make_request W session_request base_url "GET" endpoint
                params w in
            url_after (req, resp)
              match resp with
              | RequestFailed msg =>
                  {| url_outcome := UrlRaised (RequestException msg);
                     url_exchanges := []; url_world := w1 |}
              | BodyNotJson =>
                  {| url_outcome := UrlRaised ValueError;
                     url_exchanges := []; url_world := w1 |}
              | Body data =>
                  match by_url_page data st with
                  | inl e =>
                      {| url_outcome := UrlRaised e; url_exchanges := [];
                         url_world := w1 |}
                  | inr (UrlBreak why st') =>
                      {| url_outcome := UrlReturned (url_all_data st') why;
                         url_exchanges := []; url_world := w1 |}
                  | inr (UrlContinue st') => by_url_loop fuel' st' w1
                  end
              end
        | _ =>
            {| url_outcome := UrlRaised AttributeError;
               url_exchanges := []; url_world := w |}
        end
    end.

Definition get_paginated_data_by_url (start_url : string) (fuel : nat)
  (w : World W) : UrlRun :=
  by_url_loop fuel
    {| url_all_data := []; current_url := JStr start_url;
       url_pages_retrieved := 0 |} w.

End ByUrl.

(** [PaginatedAPIClient.__init__]: the stored base URL and the limiter. *)
Definition __init__ (base_url : string)
  (rate_limit_per_second : PrimFloat.float)
  : result (string * RateLimiter.t) :=
  rl <- RateLimiter.__init__ rate_limit_per_second ;;
  ret (rstrip "/" base_url, rl).

End Client.

(* ================================================================== *)
(** * Simulated endpoints *)
(* ================================================================== *)

Module Sim.
Import Py Client.
Import PrimFloat.

(** An endpoint that answers from a script, whatever it is asked. *)
Definition scripted (_ : Request) (script : list Response)
  : Response * list Response :=
  match script with
  | r :: rest => (r, rest)
  | [] => (RequestFailed "connection refused", [])
  end.

(** An endpoint without state. *)
Definition stateless (f : Request -> Response) (req : Request) (_ : unit)
  : Response * unit :=
  (f req, tt).

(** Synthetic items [first], [first + 1], ... *)
Definition synthetic (first count : nat) : list json :=
  map (fun i => JNum (Z.of_nat i)) (seq first count).

(** Always a full page of [size] items under ["items"]. *)
Definition always_full (size : nat) (_ : Request) : Response :=
  Body (JDict [("items", JList (synthetic 0 size))]).

(** Serves the slice of [db] that the offset and size parameters of the
    request select, with the total count under ["total"]. *)
Definition offset_endpoint (db : list json) (offset_param size_param : string)
  (req : Request) : Response :=
  match dict_get (params req) offset_param, dict_get (params req) size_param with
  | Some (JNum o), Some (JNum n) =>
      Body (JDict [("items", JList (firstn (Z.to_nat n) (skipn (Z.to_nat o) db)));
                   ("total", JNum (Z.of_nat (List.length db)))])
  | _, _ => RequestFailed "400 Client Error: Bad Request"
  end.

(** A limiter as [RateLimiter(10.0)] builds it, on an epoch clock. *)
Definition limiter10 : RateLimiter.t :=
  {| RateLimiter.calls_per_second := 10%float;
     RateLimiter.min_interval := 0.1%float;
     RateLimiter.last_call_time := 0%float |}.

Definition epoch_clock : RateLimiter.Clock :=
  {| RateLimiter.now := 1762214400%float; RateLimiter.sleeps := [] |}.

Definition world {W : Type} (net : W) : World W :=
  {| limiter := limiter10; clock := epoch_clock; net := net |}.

(** The request the client sends for [endpoint] under [base_url]. *)
Definition base_url : string := "https://api.example.com".

Definition get (endpoint : string) (params : dict) : Request :=
  {| method := "GET";
     url := Urllib.urljoin (Api := Urllib.model) base_url endpoint;
     params := params |}.

(** A call of [get_paginated_data] on a client for [base_url], with the
    model of [urllib.parse]. *)
Definition run {W : Type} (session_request : Request -> W -> Response * W)
  (cfg : Config) (fuel : nat) (net : W) : Run W :=
  get_paginated_data (U := Urllib.model) W session_request base_url cfg
    fuel (world net).

(** ** Configurations *)

(** [get_paginated_data("/api/items", page_size=10, max_pages=...,
    pagination_type="page")] *)
Definition page_cfg (max_pages : option Z) : Config := {|
  endpoint := "/api/items"; page_size := 10; max_pages := max_pages;
  pagination_type := "page"; page_param := "page";
  size_param := "page_size"; offset_param := "offset"; data_key := None;
  next_page_key := Some "next"; total_key := Some "total";
  custom_params := None; stop_condition := None; start_page := 1
|}.

(** [get_paginated_data("/api/items", page_size=3,
    pagination_type="offset", data_key="items",
    custom_params={"q": "x"})] *)
Definition offset_cfg : Config := {|
  endpoint := "/api/items"; page_size := 3; max_pages := None;
  pagination_type := "offset"; page_param := "page";
  size_param := "page_size"; offset_param := "offset";
  data_key := Some "items"; next_page_key := Some "next";
  total_key := Some "total"; custom_params := Some [("q", JStr "x")];
  stop_condition := None; start_page := 1
|}.

(** [get_paginated_data("/api/items", page_size=2,
    pagination_type="cursor", data_key="items")] *)
Definition cursor_cfg : Config := {|
  endpoint := "/api/items"; page_size := 2; max_pages := None;
  pagination_type := "cursor"; page_param := "page";
  size_param := "page_size"; offset_param := "offset";
  data_key := Some "items"; next_page_key := Some "next";
  total_key := Some "total"; custom_params := None;
  stop_condition := None; start_page := 1
|}.

(** [get_paginated_data("/api/items", page_size=2, max_pages=3,
    pagination_type="url", data_key="items")] *)
Definition url_cfg : Config := {|
  endpoint := "/api/items"; page_size := 2; max_pages := Some 3;
  pagination_type := "url"; page_param := "page";
  size_param := "page_size"; offset_param := "offset";
  data_key := Some "items"; next_page_key := Some "next";
  total_key := Some "total"; custom_params := None;
  stop_condition := None; start_page := 1
|}.

(** ** Scripts *)

Definition page_of (items : list json) (extra : dict) : Response :=
  Body (JDict (("items", JList items) :: extra)).

(** A next-link on the first page only; full pages throughout. *)
Definition link_then_none : list Response :=
  [page_of (synthetic 0 2) [("next", JStr "/api/items?after=2")];
   page_of (synthetic 2 2) [];
   page_of (synthetic 4 2) [];
   page_of (synthetic 6 2) []].


(** Two cursor pages. *)
Definition cursor_pages : list Response :=
  [page_of (synthetic 0 2) [("next", JStr "tok1")];
   page_of (synthetic 2 2) [("next", JNull)]].


(** A call of [get_paginated_data_by_url] on the same client. *)
Definition run_by_url {W : Type}
  (session_request : Request -> W -> Response * W)
  (data_key next_page_key : option string) (max_pages : option Z)
  (start_url : string) (fuel : nat) (net : W) : UrlRun W :=
  get_paginated_data_by_url (U := Urllib.model) W session_request base_url
    data_key next_page_key max_pages None start_url fuel (world net).

(** [offset_cfg] without a [total_key]. *)
Definition offset_cfg_no_total : Config := {|
  endpoint := "/api/items"; page_size := 3; max_pages := None;
  pagination_type := "offset"; page_param := "page";
  size_param := "page_size"; offset_param := "offset";
  data_key := Some "items"; next_page_key := Some "next";
  total_key := None; custom_params := Some [("q", JStr "x")];
  stop_condition := None; start_page := 1
|}.

(** [pagination_type="pages"], a slip for ["page"]. *)
Definition typo_cfg : Config := {|
  endpoint := "/api/items"; page_size := 10; max_pages := Some 2;
  pagination_type := "pages"; page_param := "page";
  size_param := "page_size"; offset_param := "offset"; data_key := None;
  next_page_key := Some "next"; total_key := Some "total";
  custom_params := Some [("q", JStr "x")]; stop_condition := None;
  start_page := 1
|}.

(** [url_cfg] with a static parameter that the next-links also set. *)
Definition url_cfg_static : Config := {|
  endpoint := "/api/items"; page_size := 2; max_pages := Some 3;
  pagination_type := "url"; page_param := "page";
  size_param := "page_size"; offset_param := "offset";
  data_key := Some "items"; next_page_key := Some "next";
  total_key := Some "total";
  custom_params := Some [("size", JStr "50")];
  stop_condition := None; start_page := 1
|}.

(** An empty first page. *)
Definition nothing_there : list Response := [page_of [] []].

(** A body that is a bare list. *)
Definition bare_list : list Response := [Body (JList (synthetic 0 3))].

(** Two pages linked by an absolute URL, the second without a link. *)
Definition two_linked_pages : list Response :=
  [page_of (synthetic 0 2)
     [("next", JStr "https://api.example.com/items?page=2")];
   page_of (synthetic 2 2) []].

(** A next-link given as an object instead of a string. *)
Definition link_as_object : list Response :=
  [page_of (synthetic 0 2)
     [("next", JDict [("href", JStr "/api/items?page=2")])]].

(** [cursor_cfg] stopped by the caller once a page holds the item 1. *)
Definition holds_one (data : json) : bool :=
  match data with
  | JDict d =>
      match dict_get d "items" with
      | Some (JList l) =>
          existsb (fun v => match v with JNum 1 => true | _ => false end) l
      | _ => false
      end
  | _ => false
  end.

Definition cursor_cfg_stop : Config := {|
  endpoint := "/api/items"; page_size := 2; max_pages := None;
  pagination_type := "cursor"; page_param := "page";
  size_param := "page_size"; offset_param := "offset";
  data_key := Some "items"; next_page_key := Some "next";
  total_key := Some "total"; custom_params := None;
  stop_condition := Some holds_one; start_page := 1
|}.

(** [url_cfg] without a page limit. *)
Definition url_cfg_open : Config := {|
  endpoint := "/api/items"; page_size := 2; max_pages := None;
  pagination_type := "url"; page_param := "page";
  size_param := "page_size"; offset_param := "offset";
  data_key := Some "items"; next_page_key := Some "next";
  total_key := Some "total"; custom_params := None;
  stop_condition := None; start_page := 1
|}.

(** Serves [db] by page number, without links and without a total. *)
Definition page_endpoint (db : list json) (page_param size_param : string)
  (req : Request) : Response :=
  match dict_get (params req) page_param, dict_get (params req) size_param with
  | Some (JNum p), Some (JNum n) =>
      page_of (firstn (Z.to_nat n) (skipn (Z.to_nat ((p - 1) * n)) db)) []
  | _, _ => RequestFailed "400 Client Error: Bad Request"
  end.

End Sim.


(* ================================================================== *)
(** * [class SecurityTester] of [security-tests.py] *)
(* ================================================================== *)

Module SecurityTester.
Import Py.

(** What a test reads of a [requests] response.  [headers] is the lookup
    of [response.headers], which the library makes insensitive to
    case. *)
Record HttpResponse : Type := mkHttpResponse {
  status_code : Z;
  headers : string -> option string;
  text : string
}.

(** The value a header is checked against: one string or a list of
    admissible ones. *)
Inductive Expected : Type :=
| One (value : string)
| AnyOf (values : list string).

(** What [socket.create_connection((public_ip, port), timeout)] does: it
    connects, it raises [socket.timeout] or [socket.error] (both are
    [OSError]), or it raises another exception, named by its class, as
    [UnicodeError] for a host name that cannot be encoded.  Only
    subclasses of [Exception] are considered. *)
Inductive Connection : Type :=
| Connected
| SocketError
| OtherException (class : string).

(** A value, or the class of the exception raised instead. *)
Definition attempt (A : Type) : Type := (string + A)%type.

Definition connected (c : Connection) : bool :=
  match c with
  | Connected => true
  | SocketError | OtherException _ => false
  end.

Definition raises (c : Connection) : bool :=
  match c with
  | OtherException _ => true
  | Connected | SocketError => false
  end.

(** [str.lower()] on the code points a [string] holds. *)
Definition lower_char (c : ascii) : ascii :=
  let n := nat_of_ascii c in
  if ((65 <=? n) && (n <=? 90)
      || (192 <=? n) && (n <=? 222) && negb (n =? 215))%nat
  then ascii_of_nat (n + 32) else c.

Fixpoint lower (s : string) : string :=
  match s with
  | EmptyString => EmptyString
  | String a s' => String (lower_char a) (lower s')
  end.

Section Tester.

(** The network the probes go to.  Each probe may change it; what the
    tests print is left out. *)
Variable Net : Type.

Variable create_connection : string -> Z -> Net -> Connection * Net.

(** The TLS handshake on port 443 and [ssock.cipher()]: the cipher name
    and the protocol, or nothing when any step raises. *)
Variable tls_cipher : string -> Net -> option (string * string) * Net.

(** [requests.get(url, allow_redirects=..., verify=..., timeout=10)]:
    the response, or nothing when it raises. *)
Variable requests_get :
  string -> bool -> bool -> Net -> option HttpResponse * Net.

(** [self.public_ip] *)
Variable public_ip : string.

(** [_is_port_open]: only the socket errors are caught. *)
Definition _is_port_open (port : Z) (n : Net) : attempt bool * Net :=
  match create_connection public_ip port n with
  | (Connected, n1) => (inr true, n1)
  | (SocketError, n1) => (inr false, n1)
  | (OtherException class, n1) => (inl class, n1)
  end.

Definition required_ports : list Z := [80; 443].
Definition forbidden_ports : list Z :=
  [22; 3389; 5432; 3306; 1433; 6379; 27017].

(** "Test required ports" *)
Fixpoint probe_required (ports : list Z) (success : bool) (n : Net)
  : attempt bool * Net :=
  match ports with
  | [] => (inr success, n)
  | port :: rest =>
      match _is_port_open port n with
      | (inr is_open, n1) =>
          probe_required rest (if negb is_open then false else success) n1
      | (inl class, n1) => (inl class, n1)
      end
  end.

(** "Test forbidden ports" *)
Fixpoint probe_forbidden (ports : list Z) (success : bool) (n : Net)
  : attempt bool * Net :=
  match ports with
  | [] => (inr success, n)
  | port :: rest =>
      match _is_port_open port n with
      | (inr is_open, n1) =>
          probe_forbidden rest (if is_open then false else success) n1
      | (inl class, n1) => (inl class, n1)
      end
  end.

(** [test_port_accessibility] has no [try] of its own: what
    [_is_port_open] lets through leaves the test. *)
Definition test_port_accessibility (n : Net) : attempt bool * Net :=
  match probe_required required_ports true n with
  | (inr success, n1) => probe_forbidden forbidden_ports success n1
  | (inl class, n1) => (inl class, n1)
  end.

Definition test_ssl_configuration (n : Net) : bool * Net :=
  match tls_cipher public_ip n with
  | (Some (_, protocol), n1) =>
      (existsb (String.eqb protocol) ["TLSv1.2"; "TLSv1.3"], n1)
  | (None, n1) => (false, n1)
  end.

Definition test_http_to_https_redirect (n : Net) : bool * Net :=
  match requests_get ("http://" ++ public_ip) false true n with
  | (Some response, n1) =>
      if existsb (Z.eqb (status_code response)) [301; 302; 308] then
        let location := match headers response "Location" with
                        | Some v => v
                        | None => ""
                        end in
        (startswith location "https://", n1)
      else (false, n1)
  | (None, n1) => (false, n1)
  end.

Definition security_headers : list (string * Expected) :=
  [("X-Content-Type-Options", One "nosniff");
   ("X-Frame-Options", AnyOf ["DENY"; "SAMEORIGIN"]);
   ("X-XSS-Protection", One "1; mode=block")].

(** The loop over [security_headers.items()]: a value that differs from
    the expected one is only reported. *)
Definition check_headers (response : HttpResponse) : bool :=
  fold_left
    (fun success entry =>
       match headers response (fst entry) with
       | Some value =>
           match snd entry with
           | AnyOf expected =>
               if existsb (String.eqb value) expected then success
               else success
           | One expected =>
               if String.eqb value expected then success else success
           end
       | None => false
       end)
    security_headers true.

Definition test_security_headers (n : Net) : bool * Net :=
  match requests_get ("https://" ++ public_ip) true false n with
  | (Some response, n1) => (check_headers response, n1)
  | (None, n1) => (false, n1)
  end.

Definition test_application_availability (n : Net) : bool * Net :=
  match requests_get ("https://" ++ public_ip) true false n with
  | (Some response, n1) =>
      if status_code response =? 200 then
        (str_contains (text response) "Hello World", n1)
      else (false, n1)
  | (None, n1) => (false, n1)
  end.

Definition test_health_endpoint (n : Net) : bool * Net :=
  match requests_get ("https://" ++ public_ip ++ "/health") true false n with
  | (Some response, n1) =>
      ((status_code response =? 200)
       && str_contains (lower (text response)) "healthy", n1)
  | (None, n1) => (false, n1)
  end.

(** A test whose body is inside [try: ... except Exception: return
    False]: it returns, whatever happens. *)
Definition returns (test : Net -> bool * Net) (n : Net)
  : attempt bool * Net :=
  let (result, n1) := test n in (inr result, n1).

Definition tests : list (string * (Net -> attempt bool * Net)) :=
  [("Port Accessibility", test_port_accessibility);
   ("SSL Configuration", returns test_ssl_configuration);
   ("HTTP to HTTPS Redirect", returns test_http_to_https_redirect);
   ("Security Headers", returns test_security_headers);
   ("Application Availability", returns test_application_availability);
   ("Health Endpoint", returns test_health_endpoint)].

(** The loop of [run_all_tests] over [tests]: a test that raises is
    recorded as failed, and the loop goes on. *)
Fixpoint run_tests (ts : list (string * (Net -> attempt bool * Net)))
  (results : list (string * bool)) (n : Net)
  : list (string * bool) * Net :=
  match ts with
  | [] => (results, n)
  | (test_name, test_func) :: rest =>
      match test_func n with
      | (inr result, n1) =>
          run_tests rest (results ++ [(test_name, result)]) n1
      | (inl _, n1) =>
          run_tests rest (results ++ [(test_name, false)]) n1
      end
  end.

Definition run_all_tests (n : Net) : bool * Net :=
  let (results, n1) := run_tests tests [] n in
  let passed := List.length (filter snd results) in
  let total := List.length results in
  (Nat.eqb passed total, n1).

End Tester.

(** [main()]: the exit status of the script for [sys.argv]. *)
Definition main (Net : Type)
  (create_connection : string -> Z -> Net -> Connection * Net)
  (tls_cipher : string -> Net -> option (string * string) * Net)
  (requests_get : string -> bool -> bool -> Net -> option HttpResponse * Net)
  (argv : list string) (n : Net) : Z * Net :=
  match argv with
  | [_; public_ip] =>
      let (success, n1) :=
        run_all_tests Net create_connection tls_cipher requests_get
          public_ip n in
      (if success then 0 else 1, n1)
  | _ => (1, n)
  end.

(** A host for concrete runs: the ports in [open_ports] accept
    connections and the others refuse them, TLS 1.3 is spoken, plain
    HTTP redirects to HTTPS and HTTPS answers [page] with the header
    lookup [hdrs]. *)
Definition host_connect (open_ports : list Z) (_ : string) (port : Z)
  (n : unit) : Connection * unit :=
  (if existsb (Z.eqb port) open_ports then Connected else SocketError, n).

(** A network that answers each port as [answer] says and keeps the log
    of the ports probed, oldest first. *)
Definition logged_connect (answer : Z -> Connection) (_ : string)
  (port : Z) (log : list Z) : Connection * list Z :=
  (answer port, (log ++ [port])%list).

(** A host name that cannot be encoded, as ["a..b"]: every connection
    attempt raises [UnicodeError]. *)
Definition unencodable (_ : Z) : Connection :=
  OtherException "UnicodeError".

(** Port 80 accepts connections, the name lookup breaks down on the
    next probe, every other port refuses. *)
Definition breaks_at_443 (port : Z) : Connection :=
  if port =? 80 then Connected
  else if port =? 443 then OtherException "UnicodeError"
  else SocketError.

Definition host_tls (_ : string) (n : unit)
  : option (string * string) * unit :=
  (Some ("TLS_AES_256_GCM_SHA384", "TLSv1.3"), n).

Definition host_get (hdrs : string -> option string) (page : string)
  (url : string) (_ _ : bool) (n : unit) : option HttpResponse * unit :=
  if startswith url "https://" then
    (Some {| status_code := 200; headers := hdrs; text := page |}, n)
  else
    (Some {| status_code := 301;
             headers := fun h => if String.eqb h "Location"
                                 then Some "https://host/"
                                 else None;
             text := "" |}, n).

(** Header lookups: all three security headers with lax values, and one
    header missing. *)
Definition lax_headers (h : string) : option string :=
  if String.eqb h "X-Content-Type-Options" then Some "sniff"
  else if String.eqb h "X-Frame-Options" then Some "ALLOWALL"
  else if String.eqb h "X-XSS-Protection" then Some "0"
  else None.

Definition two_headers (h : string) : option string :=
  if String.eqb h "X-Content-Type-Options" then Some "nosniff"
  else if String.eqb h "X-Frame-Options" then Some "DENY"
  else None.

End SecurityTester.

(* ================================================================== *)
(** * Facts about the rate limiter *)
(* ================================================================== *)

Module FloatFacts.
Import PrimFloat SpecFloat FloatOps FloatAxioms.
Local Open Scope float_scope.

(** Zeros and finite numbers, as opposed to infinities and NaN. *)
Abbreviation shape_finite x :=
  (match x with
   | S754_zero _ | S754_finite _ _ _ => True
   | S754_infinity _ | S754_nan => False
   end).









End FloatFacts.

Module RateLimiterFacts.
Import Py RateLimiter.
Import PrimFloat FloatFacts.
Local Open Scope float_scope.
Local Open Scope list_scope.















End RateLimiterFacts.

(* ================================================================== *)
(** * Facts about the extraction of items *)
(* ================================================================== *)

Module ExtractorFacts.
Import Py Client.

(** C6, as stated, fails: with a [data_key], a value that is not a list
    is handed on as it is (here a string and a number, not the empty
    sequence), and a body that is not an object makes the extraction
    raise. *)
Lemma extract_items_data_key_unchecked :
  extract_items (Some "items") (JDict [("items", JStr "abc")])
    = inr (JStr "abc")
  /\ extract_items (Some "items") (JDict [("items", JNum 5)])
     = inr (JNum 5)
  /\ extract_items (Some "items") (JList [JNum 1; JNum 2])
     = inl AttributeError.
Proof.
  repeat split.
Qed.

(** C6, amended: with an explicit (non-empty) [data_key] the extraction
    is [data.get(data_key, [])].  On a body that is a JSON object it
    yields the value stored under the key when the key is present, so
    the list itself when that value is a list, and the empty list when
    the key is absent, and it does not fail; on any other body it raises
    [AttributeError]. *)
Theorem extract_items_data_key (k : string) (data : json)
  (Hk : str_truthy k = true) :
  (forall d v, data = JDict d -> dict_get d k = Some v ->
               extract_items (Some k) data = inr v)
  /\ (forall d l, data = JDict d -> dict_get d k = Some (JList l) ->
                  extract_items (Some k) data = inr (JList l))
  /\ (forall d, data = JDict d -> dict_get d k = None ->
                extract_items (Some k) data = inr (JList []))
  /\ ((forall d, data <> JDict d) ->
      extract_items (Some k) data = inl AttributeError).
Proof.
  unfold extract_items. rewrite Hk. repeat split.
  - intros d v -> Hget. cbn. now rewrite Hget.
  - intros d l -> Hget. cbn. now rewrite Hget.
  - intros d -> Hget. cbn. now rewrite Hget.
  - intros Hnot. destruct data; try reflexivity.
    now destruct (Hnot d).
Qed.

Lemma extract_items_data_key_witness :
  extract_items (Some "items")
    (JDict [("total", JNum 2); ("items", JList [JNum 1; JNum 2])])
  = inr (JList [JNum 1; JNum 2]).
Proof.
  apply (proj1 (proj2 (extract_items_data_key "items" _ eq_refl))
           [("total", JNum 2); ("items", JList [JNum 1; JNum 2])]);
    reflexivity.
Defined.

End ExtractorFacts.

(* ================================================================== *)
(** * Facts about the pagination loop *)
(* ================================================================== *)

Module EngineFacts.
Import Py Client.
Local Open Scope list_scope.

(** Case analysis on every [match] of a hypothesis. *)
Ltac split_matches H :=
  repeat match type of H with
         | context [match ?x with _ => _ end] => destruct x eqn:?
         end.

Ltac finish_ctl H :=
  try discriminate H; try (injection H as <-).

Lemma opt_dict_copy (o : option dict) :
  (if opt_dict_truthy o then opt_dict o else []) = opt_dict o.
Proof. destruct o as [[|]|]; reflexivity. Qed.

Lemma dict_update_nil (d : dict) : dict_update d [] = d.
Proof. reflexivity. Qed.

Lemma dict_get_set_same (d : dict) (k : string) (v : json) :
  dict_get (dict_set d k v) k = Some v.
Proof.
  induction d as [|[k' v'] d IH]; cbn.
  - now rewrite String.eqb_refl.
  - destruct (String.eqb k' k) eqn:E; cbn; rewrite E; auto.
Qed.

Lemma dict_get_set_other (d : dict) (k k' : string) (v : json) :
  k <> k' -> dict_get (dict_set d k v) k' = dict_get d k'.
Proof.
  intros Hne. induction d as [|[k0 v0] d IH]; cbn.
  - destruct (String.eqb k k') eqn:E; [|reflexivity].
    apply String.eqb_eq in E. contradiction.
  - destruct (String.eqb k0 k) eqn:E; cbn.
    + apply String.eqb_eq in E. subst k0.
      destruct (String.eqb k k') eqn:E'; [|reflexivity].
      apply String.eqb_eq in E'. contradiction.
    + now rewrite IH.
Qed.

Lemma chars_length (s : string) :
  List.length (chars s) = String.length s.
Proof. induction s; cbn; auto. Qed.

(** [len] counts what [extend] appends. *)
Lemma iterate_len (v : json) (elems : list json) :
  iterate v = inr elems -> len v = inr (Z.of_nat (List.length elems)).
Proof.
  destruct v; cbn; intros H; try discriminate; injection H as <-.
  - now rewrite chars_length.
  - reflexivity.
  - now rewrite length_map.
Qed.

Section Loop.

Context {U : Urllib.Api}.
Variable W : Type.
Variable session_request : Request -> W -> Response * W.
Variable base_url : string.
Variable cfg : Config.

Abbreviation loop := (Client.loop W session_request base_url cfg).
Abbreviation process_page := (Client.process_page base_url cfg).
Abbreviation prepare_next := (Client.prepare_next base_url cfg).
Abbreviation record_total := (Client.record_total cfg).
Abbreviation build_request := (Client.build_request cfg).
Abbreviation _make_request := (Client._make_request W session_request base_url).
Abbreviation get_paginated_data :=
  (Client.get_paginated_data W session_request base_url cfg).
Abbreviation elems_of := (page_elems (data_key cfg)).

(** One pass of the loop, spelled out. *)
Lemma loop_S (fuel : nat) (st : State) (w : World W) :
  loop (S fuel) st w =
    let endpoint := fst (build_request st) in
    let params := snd (build_request st) in
    let st1 := set_endpoint endpoint st in
    let sent := _make_request "GET" endpoint params w in
    let req := fst (fst sent) in
    let resp := snd (fst sent) in
    let w1 := snd sent in
    after W (req, resp)
      match resp with
      | RequestFailed msg =>
          {| outcome := Raised (RequestException msg);
             exchanges := []; world := w1 |}
      | BodyNotJson =>
          {| outcome := Raised ValueError; exchanges := []; world := w1 |}
      | Body data =>
          match process_page data st1 with
          | inl e => {| outcome := Raised e; exchanges := []; world := w1 |}
          | inr (Break why st') =>
              {| outcome := Returned (all_data st') why;
                 exchanges := []; world := w1 |}
          | inr (Continue st') => loop fuel st' w1
          end
      end.
Proof.
  cbn [Client.loop]. destruct (build_request st) as [endpoint params].
  cbn [fst snd].
  destruct (_make_request "GET" endpoint params w) as [[req resp] w1].
  reflexivity.
Qed.

(** The request of a pass: the joined URL and the built parameters. *)
Lemma make_request_sent (method endpoint : string) (params : dict)
  (w : World W) :
  fst (fst (_make_request method endpoint params w))
  = {| method := method; url := Urllib.urljoin base_url endpoint;
       params := params |}.
Proof.
  unfold Client._make_request.
  destruct (RateLimiter.wait_if_needed _ _) as [rl clk].
  destruct (session_request _ _) as [resp n]. reflexivity.
Qed.

(** The last part of the body only moves the cursor variables. *)
Lemma prepare_next_frame (items data : json) (st : State) (c : Ctl) :
  prepare_next items data st = inr c ->
  all_data (ctl_state c) = all_data st
  /\ pages_retrieved (ctl_state c) = pages_retrieved st
  /\ st_endpoint (ctl_state c) = st_endpoint st
  /\ total_items (ctl_state c) = total_items st.
Proof.
  unfold Client.prepare_next, bind, ret, raise. intros H.
  split_matches H; finish_ctl H; cbn; auto.
Qed.

Lemma record_total_frame (data : json) (st st' : State) :
  record_total data st = inr st' ->
  all_data st' = all_data st
  /\ pages_retrieved st' = pages_retrieved st
  /\ st_endpoint st' = st_endpoint st
  /\ offset st' = offset st /\ page st' = page st
  /\ cursor st' = cursor st /\ next_url st' = next_url st.
Proof.
  unfold Client.record_total, bind, ret. intros H.
  split_matches H; finish_ctl H; cbn; auto 10.
Qed.

(** A pass appends the elements of its page, in order, and nothing
    else. *)
Lemma process_page_all_data (data : json) (st : State) (c : Ctl) :
  process_page data st = inr c ->
  all_data (ctl_state c) = all_data st ++ elems_of (Body data).
Proof.
  unfold Client.process_page, page_elems, bind, ret, raise. intros H.
  destruct (extract_items (data_key cfg) data) as [e|items]; [discriminate|].
  destruct (truthy items); cbn [negb] in H.
  2:{ injection H as <-. cbn. now rewrite app_nil_r. }
  destruct (iterate items) as [e|elems]; [discriminate|].
  destruct (record_total data (add_page elems st)) as [e|st1] eqn:Htotal;
    [discriminate|].
  apply record_total_frame in Htotal as (Hall & _).
  split_matches H; finish_ctl H; cbn [ctl_state]; auto.
  apply prepare_next_frame in H as (-> & _). exact Hall.
Qed.

(** Destructs the pass at the head of a run. *)
Ltac head_pass st w req resp w1 :=
  rewrite loop_S in *; cbv zeta in *;
  destruct (_make_request "GET" (fst (build_request st))
              (snd (build_request st)) w) as [[req resp] w1];
  cbn [fst snd] in *.

(** What a returning run returns: what it started with, then the
    elements of every page it fetched, in the order of the requests. *)
Lemma loop_returned (fuel : nat) :
  forall st w data why,
    outcome W (loop fuel st w) = Returned data why ->
    data = all_data st ++ flat_map elems_of (responses (loop fuel st w)).
Proof.
  induction fuel as [|fuel IH]; intros st w data why Hret; [discriminate|].
  head_pass st w req resp w1.
  destruct resp as [msg| |body]; try discriminate.
  cbn [after outcome] in Hret. unfold responses.
  cbn [after exchanges map snd flat_map].
  destruct (process_page body _) as [e|[stop st'|st']] eqn:Hpage;
    try discriminate.
  - cbn in Hret. injection Hret as <- <-.
    apply process_page_all_data in Hpage. cbn in Hpage.
    cbn. now rewrite app_nil_r.
  - apply process_page_all_data in Hpage. cbn in Hpage.
    rewrite (IH _ _ _ _ Hret), Hpage. now rewrite <- app_assoc.
Qed.

Lemma length_flat_map_sum {A B : Type} (f : A -> list B) (l : list A) :
  List.length (flat_map f l) = list_sum (map (fun x => List.length (f x)) l).
Proof.
  induction l as [|x l IH]; cbn; [reflexivity|].
  now rewrite length_app, IH.
Qed.

(** C8: whenever [get_paginated_data] returns, under any
    [pagination_type], the returned list is the concatenation, in page
    order, of the items extracted from each fetched page.  Every pass of
    the loop appends the elements of its page to [all_data] in their
    order and removes nothing, so the list accumulated at any point of
    the run is a prefix of the result; the length of the result is the
    sum of the per-page counts; a page whose extracted value is a list
    contributes exactly that list, duplicates included. *)
Theorem returned_is_concatenation (fuel : nat) (w : World W)
  (data : list json) (why : Stop)
  (Hret : outcome W (get_paginated_data fuel w) = Returned data why) :
  data = flat_map elems_of (responses (get_paginated_data fuel w))
  /\ List.length data
     = list_sum (map (fun r => List.length (elems_of r))
                     (responses (get_paginated_data fuel w)))
  /\ (forall body st c,
        process_page body st = inr c ->
        all_data (ctl_state c) = all_data st ++ elems_of (Body body))
  /\ (forall n st w' data' why',
        outcome W (loop n st w') = Returned data' why' ->
        data' = all_data st
                ++ flat_map elems_of (responses (loop n st w')))
  /\ (forall body l,
        extract_items (data_key cfg) body = inr (JList l) ->
        elems_of (Body body) = l).
Proof.
  assert (E : data = flat_map elems_of (responses (get_paginated_data fuel w))).
  { apply loop_returned in Hret. exact Hret. }
  split; [exact E|]. split.
  { rewrite E at 1. apply length_flat_map_sum. }
  split; [intros; now apply process_page_all_data|].
  split; [intros; eapply loop_returned; eauto|].
  intros body l Hex. unfold page_elems. rewrite Hex.
  destruct l; reflexivity.
Qed.



(** ** The strategies, one at a time *)

Lemma set_endpoint_same (st : State) : set_endpoint (st_endpoint st) st = st.
Proof. destruct st; reflexivity. Qed.

Lemma build_request_offset (st : State) :
  pagination_type cfg = "offset" ->
  build_request st =
    (st_endpoint st,
     dict_set (dict_set (opt_dict (custom_params cfg)) (offset_param cfg)
                        (JNum (offset st)))
              (size_param cfg) (JNum (page_size cfg))).
Proof.
  intros H. unfold Client.build_request. rewrite H, opt_dict_copy.
  reflexivity.
Qed.

Lemma build_request_page (st : State) :
  pagination_type cfg = "page" ->
  build_request st =
    (st_endpoint st,
     dict_set (dict_set (opt_dict (custom_params cfg)) (page_param cfg)
                        (JNum (page st)))
              (size_param cfg) (JNum (page_size cfg))).
Proof.
  intros H. unfold Client.build_request. rewrite H, opt_dict_copy.
  reflexivity.
Qed.

Lemma build_request_cursor (st : State) :
  pagination_type cfg = "cursor" ->
  build_request st =
    (st_endpoint st,
     if truthy (cursor st) then
       dict_set (dict_set (opt_dict (custom_params cfg)) "cursor" (cursor st))
                (size_param cfg) (JNum (page_size cfg))
     else dict_set (opt_dict (custom_params cfg))
                   (size_param cfg) (JNum (page_size cfg))).
Proof.
  intros H. unfold Client.build_request. rewrite H, opt_dict_copy.
  cbn [String.eqb Ascii.eqb Bool.eqb andb].
  destruct (truthy (cursor st)); reflexivity.
Qed.

Lemma prepare_next_offset (items data : json) (st : State) :
  pagination_type cfg = "offset" ->
  prepare_next items data st =
    (n <- len items ;;
     if n <? page_size cfg then ret (Break PartialPage st)
     else
       let st := set_offset (offset st + n) st in
       if truthy (total_items st) then
         reached <- int_ge (offset st) (total_items st) ;;
         if reached then ret (Break AllItemsRetrieved st)
         else ret (Continue st)
       else ret (Continue st))%py.
Proof.
  intros H. unfold Client.prepare_next. rewrite H. reflexivity.
Qed.

Lemma prepare_next_page (items data : json) (st : State) :
  pagination_type cfg = "page" ->
  prepare_next items data st =
    (n <- len items ;;
     if n <? page_size cfg then ret (Break PartialPage st)
     else ret (Continue (set_page (page st + 1) st)))%py.
Proof.
  intros H. unfold Client.prepare_next. rewrite H. reflexivity.
Qed.

Lemma prepare_next_cursor (items data : json) (st : State) :
  pagination_type cfg = "cursor" ->
  prepare_next items data st =
    (next <- truthy_entry data (next_page_key cfg) ;;
     match next with
     | Some v => ret (Continue (set_cursor v st))
     | None => ret (Break NoNextCursor st)
     end)%py.
Proof.
  intros H. unfold Client.prepare_next. rewrite H. reflexivity.
Qed.

Lemma prepare_next_url (items data : json) (st : State) :
  pagination_type cfg = "url" ->
  prepare_next items data st =
    (next <- truthy_entry data (next_page_key cfg) ;;
     match next with
     | Some v =>
         match v with
         | JStr s =>
             if is_absolute s then ret (Continue (set_next_url s st))
             else ret (Continue
                         (set_next_url (Urllib.urljoin base_url s) st))
         | _ => raise AttributeError
         end
     | None =>
         n <- len items ;;
         if n <? page_size cfg then ret (Break PartialPage st)
         else ret (Continue (set_page (page st + 1) st))
     end)%py.
Proof.
  intros H. unfold Client.prepare_next. rewrite H. reflexivity.
Qed.

(** The body of the loop, once the page is known to hold items. *)
Lemma process_page_items (data items : json) (elems : list json) (st : State) :
  extract_items (data_key cfg) data = inr items ->
  truthy items = true ->
  iterate items = inr elems ->
  process_page data st =
    (st1 <- record_total data (add_page elems st) ;;
     if opt_int_truthy (max_pages cfg)
        && (match max_pages cfg with
            | Some m => m <=? pages_retrieved st1
            | None => false
            end)
     then ret (Break MaxPagesReached st1)
     else if match stop_condition cfg with
             | Some f => f data
             | None => false
             end
     then ret (Break StopConditionMet st1)
     else prepare_next items data st1)%py.
Proof.
  intros Hex Htr Hit. unfold Client.process_page.
  rewrite Hex. cbn [bind]. rewrite Htr. cbn [negb]. rewrite Hit.
  reflexivity.
Qed.

(** An empty page stops the run with what was collected. *)
Lemma process_page_empty (data items : json) (st : State) :
  extract_items (data_key cfg) data = inr items ->
  truthy items = false ->
  process_page data st = inr (Break NoMoreItems st).
Proof.
  intros Hex Htr. unfold Client.process_page.
  rewrite Hex. cbn [bind]. rewrite Htr. reflexivity.
Qed.

(** ** The success stops *)







(** ** The offset strategy *)

(** A pass that goes on keeps [offset == len(all_data)]. *)
Lemma process_page_offset (data : json) (st st' : State) :
  pagination_type cfg = "offset" ->
  offset st = Z.of_nat (List.length (all_data st)) ->
  process_page data st = inr (Continue st') ->
  offset st' = Z.of_nat (List.length (all_data st'))
  /\ st_endpoint st' = st_endpoint st.
Proof.
  intros Hty Hinv H.
  pose proof (process_page_all_data _ _ _ H) as Hall. cbn in Hall.
  unfold Client.process_page, page_elems in H, Hall.
  destruct (extract_items (data_key cfg) data) as [e|items];
    [discriminate H|].
  cbn [bind] in H. destruct (truthy items); cbn [negb] in H;
    [|discriminate H].
  destruct (iterate items) as [e|elems] eqn:Hit; [discriminate H|].
  apply iterate_len in Hit. cbn [bind] in H.
  destruct (record_total data (add_page elems st)) as [e|st1] eqn:Htot;
    [discriminate H|].
  apply record_total_frame in Htot as (_ & _ & Hep & Hoff & _).
  cbn [bind] in H. cbn in Hep, Hoff.
  destruct (_ && _); [discriminate H|].
  destruct (match stop_condition cfg with Some _ => _ | None => _ end);
    [discriminate H|].
  rewrite prepare_next_offset in H by exact Hty.
  rewrite Hit in H. cbn [bind] in H.
  destruct (_ <? _); [discriminate H|]. cbv zeta in H.
  assert (Hst' : st' = set_offset (offset st1
                                   + Z.of_nat (List.length elems)) st1).
  { unfold bind, ret in H. split_matches H; finish_ctl H; reflexivity. }
  rewrite Hall, Hst'. cbn. rewrite length_app. split; [lia | exact Hep].
Qed.

Lemma loop_offset_requests (fuel : nat) :
  forall st w k req resp,
    pagination_type cfg = "offset" ->
    offset st = Z.of_nat (List.length (all_data st)) ->
    nth_error (exchanges W (loop fuel st w)) k = Some (req, resp) ->
    req =
      {| method := "GET";
         url := Urllib.urljoin base_url (st_endpoint st);
         params :=
           dict_set
             (dict_set (opt_dict (custom_params cfg)) (offset_param cfg)
                (JNum (Z.of_nat
                         (List.length
                            (all_data st
                             ++ flat_map elems_of
                                  (firstn k (responses (loop fuel st w))))))))
             (size_param cfg) (JNum (page_size cfg)) |}.
Proof.
  induction fuel as [|fuel IH]; intros st w k req resp Hty Hinv Hnth.
  { destruct k; discriminate. }
  pose proof (make_request_sent "GET" (fst (build_request st))
                (snd (build_request st)) w) as Hsent.
  head_pass st w req0 resp0 w1.
  rewrite (build_request_offset st Hty) in *. cbn [fst snd] in *.
  rewrite set_endpoint_same in *.
  unfold responses in *. cbn [after exchanges map] in *.
  destruct k as [|k]; cbn [nth_error firstn flat_map] in *.
  - injection Hnth as <- <-. rewrite app_nil_r, <- Hinv. exact Hsent.
  - destruct resp0 as [msg| |body]; cbn [exchanges] in Hnth;
      try (destruct k; discriminate).
    destruct (process_page body st) as [e|[stop st'|st']] eqn:Hpage;
      cbn [exchanges] in Hnth; try (destruct k; discriminate).
    destruct (process_page_offset _ _ _ Hty Hinv Hpage) as (Hinv' & Hep).
    rewrite (IH _ _ _ _ _ Hty Hinv' Hnth).
    apply process_page_all_data in Hpage. cbn in Hpage.
    cbn [snd]. rewrite Hep, Hpage, <- app_assoc. reflexivity.
Qed.

(** C10: in the offset strategy the offset of every request is the
    number of items accumulated so far.  The invariant
    [offset == len(all_data)] holds before every request; the parameters
    of request [k + 1] are [custom_params] with [offset_param] assigned
    the number of items extracted from pages [1..k], that is the sum of
    their counts, and then [size_param] assigned [page_size]; so, the
    two names being different, the request carries that number as
    [offset_param]. *)
Theorem offset_is_items_so_far (fuel : nat) (w : World W) (k : nat)
  (req : Request) (resp : Response)
  (Hty : pagination_type cfg = "offset")
  (Hnth : nth_error (exchanges W (get_paginated_data fuel w)) k
          = Some (req, resp)) :
  let pages := firstn k (responses (get_paginated_data fuel w)) in
  let so_far := flat_map elems_of pages in
  params req =
    dict_set (dict_set (opt_dict (custom_params cfg)) (offset_param cfg)
                       (JNum (Z.of_nat (List.length so_far))))
             (size_param cfg) (JNum (page_size cfg))
  /\ List.length so_far
     = list_sum (map (fun r => List.length (elems_of r)) pages)
  /\ (offset_param cfg <> size_param cfg ->
      dict_get (params req) (offset_param cfg)
      = Some (JNum (Z.of_nat (List.length so_far))))
  /\ (forall data st st',
        offset st = Z.of_nat (List.length (all_data st)) ->
        process_page data st = inr (Continue st') ->
        offset st' = Z.of_nat (List.length (all_data st'))).
Proof.
  intros pages so_far.
  assert (E : params req =
    dict_set (dict_set (opt_dict (custom_params cfg)) (offset_param cfg)
                       (JNum (Z.of_nat (List.length so_far))))
             (size_param cfg) (JNum (page_size cfg))).
  { unfold Client.get_paginated_data in Hnth.
    apply loop_offset_requests in Hnth; [|exact Hty|reflexivity].
    rewrite Hnth. reflexivity. }
  split; [exact E|]. split; [apply length_flat_map_sum|]. split.
  - intros Hne. rewrite E.
    rewrite dict_get_set_other by (intros Heq; apply Hne; now symmetry).
    apply dict_get_set_same.
  - intros data st st' Hinv Hpage.
    now destruct (process_page_offset _ _ _ Hty Hinv Hpage).
Qed.

Lemma firstn_then_slice {A : Type} (l : list A) :
  forall o n, firstn o l ++ firstn n (skipn o l) = firstn (o + n) l.
Proof.
  induction l as [|x l IH]; intros o n.
  - now rewrite skipn_nil, !firstn_nil.
  - destruct o as [|o]; [reflexivity|]. cbn. now rewrite IH.
Qed.

(** A known total that lies ahead does not stop the run; one that has
    been reached does. *)
Lemma prepare_next_offset_full (items data : json) (st : State) (n : Z) :
  pagination_type cfg = "offset" ->
  len items = inr n -> page_size cfg <= n ->
  prepare_next items data st =
    let st1 := set_offset (offset st + n) st in
    match total_items st with
    | JNull => inr (Continue st1)
    | JNum t =>
        if negb (t =? 0) && (t <=? offset st + n)
        then inr (Break AllItemsRetrieved st1)
        else inr (Continue st1)
    | _ => prepare_next items data st
    end.
Proof.
  intros Hty Hlen Hfull. destruct (total_items st) eqn:Htot; try reflexivity.
  - rewrite prepare_next_offset by exact Hty. rewrite Hlen. cbn [bind].
    apply Z.ltb_ge in Hfull. rewrite Hfull. cbn. now rewrite Htot.
  - rewrite prepare_next_offset by exact Hty. rewrite Hlen. cbn [bind].
    apply Z.ltb_ge in Hfull. rewrite Hfull. cbn. rewrite Htot. cbn.
    destruct (n0 =? 0); cbn; [reflexivity|].
    destruct (n0 <=? offset st + n); reflexivity.
Qed.

Section OffsetRun.

Variable db : list json.

Hypothesis Hty : pagination_type cfg = "offset".
Hypothesis Hmax : max_pages cfg = None.
Hypothesis Hstop : stop_condition cfg = None.
Hypothesis Hsize : 0 < page_size cfg.
Hypothesis Hnames : offset_param cfg <> size_param cfg.
Hypothesis Hserve : serves_by_offset W session_request cfg db.

Let size : nat := Z.to_nat (page_size cfg).
Let total : nat := List.length db.
Let slice (o : nat) : list json := firstn size (skipn o db).
Let request (o : nat) : Request :=
  offset_request base_url cfg (Z.of_nat o).

Let known_total (st : State) : Prop :=
  total_items st = JNull \/ total_items st = JNum (Z.of_nat total).

Lemma offset_request_params (o : Z) :
  dict_get (params (offset_request base_url cfg o)) (offset_param cfg)
  = Some (JNum o)
  /\ dict_get (params (offset_request base_url cfg o)) (size_param cfg)
     = Some (JNum (page_size cfg)).
Proof.
  unfold offset_request. cbn [params]. split.
  - rewrite dict_get_set_other by (intros E; apply Hnames; now symmetry).
    apply dict_get_set_same.
  - apply dict_get_set_same.
Qed.

(** The start of a pass at offset [o]: the request and its answer. *)
Lemma offset_pass_sent (st : State) (w : World W) (o : nat) :
  offset st = Z.of_nat o ->
  st_endpoint st = endpoint cfg ->
  exists body w1,
    _make_request "GET" (fst (build_request st)) (snd (build_request st)) w
    = (request o, Body body, w1)
    /\ extract_items (data_key cfg) body = inr (JList (slice o))
    /\ (opt_str_truthy (total_key cfg) = true ->
        get_key body (total_key cfg) = inr JNull
        \/ get_key body (total_key cfg) = inr (JNum (Z.of_nat total))).
Proof.
  intros Hoff Hep. rewrite (build_request_offset st Hty). cbn [fst snd].
  rewrite Hoff, Hep.
  destruct (offset_request_params (Z.of_nat o)) as (Hgo & Hgs).
  unfold Client._make_request.
  destruct (RateLimiter.wait_if_needed _ _) as [rl clk].
  destruct (Hserve (request o) (net W w) o Hgo Hgs)
    as (body & n' & Hsend & Hex & Htot).
  unfold request, offset_request in Hsend. rewrite Hsend.
  eexists _, _. split; [reflexivity|]. split; assumption.
Qed.

Lemma record_total_known (body : json) (st : State) :
  (opt_str_truthy (total_key cfg) = true ->
   get_key body (total_key cfg) = inr JNull
   \/ get_key body (total_key cfg) = inr (JNum (Z.of_nat total))) ->
  known_total st ->
  exists st1, record_total body st = inr st1 /\ known_total st1.
Proof.
  intros Hbody Hst. unfold Client.record_total, known_total in *.
  destruct (opt_str_truthy (total_key cfg)); cbn [andb].
  2:{ eexists; split; [reflexivity | exact Hst]. }
  destruct (is_none (total_items st)).
  2:{ eexists; split; [reflexivity | exact Hst]. }
  destruct (Hbody eq_refl) as [-> | ->]; cbn;
    eexists; (split; [reflexivity|]); cbn; auto.
Qed.

Lemma slice_length (o : nat) :
  List.length (slice o) = Nat.min size (total - o).
Proof. unfold slice. now rewrite length_firstn, length_skipn. Qed.

Lemma size_pos : (0 < size)%nat /\ Z.of_nat size = page_size cfg.
Proof. unfold size. split; lia. Qed.

(** What a pass at offset [o] does with its page. *)
Lemma offset_pass_page (body : json) (st : State) (o : nat) :
  offset st = Z.of_nat o ->
  all_data st = firstn o db ->
  known_total st ->
  extract_items (data_key cfg) body = inr (JList (slice o)) ->
  (opt_str_truthy (total_key cfg) = true ->
   get_key body (total_key cfg) = inr JNull
   \/ get_key body (total_key cfg) = inr (JNum (Z.of_nat total))) ->
  (o < total)%nat ->
  ((total - o < size)%nat ->
   exists st', process_page body st = inr (Break PartialPage st')
               /\ all_data st' = db)
  /\ ((o + size < total)%nat ->
      exists st', process_page body st = inr (Continue st')
                  /\ offset st' = Z.of_nat (o + size)
                  /\ all_data st' = firstn (o + size) db
                  /\ st_endpoint st' = st_endpoint st
                  /\ known_total st').
Proof.
  intros Hoff Hall Hknown Hex Htot Hlt.
  destruct size_pos as (Hpos & Hsz).
  pose proof (slice_length o) as Hlen.
  assert (Htruthy : truthy (JList (slice o)) = true).
  { destruct (slice o); [cbn in Hlen; lia | reflexivity]. }
  rewrite (process_page_items body _ (slice o) st Hex Htruthy eq_refl).
  destruct (record_total_known body (add_page (slice o) st) Htot Hknown)
    as (st1 & Hrec & Hknown1).
  rewrite Hrec. cbn [bind]. rewrite Hmax, Hstop. cbn [opt_int_truthy andb].
  apply record_total_frame in Hrec as (Hall1 & _ & Hep1 & Hoff1 & _).
  cbn in Hall1, Hep1, Hoff1.
  split.
  - intros Hpartial.
    rewrite prepare_next_offset by exact Hty. cbn [len bind ret].
    assert (Hshort : (Z.of_nat (List.length (slice o)) <? page_size cfg)
                     = true) by (apply Z.ltb_lt; lia).
    rewrite Hshort.
    eexists. split; [reflexivity|].
    rewrite Hall1, Hall. unfold slice.
    rewrite (firstn_all2 (n := size) (skipn o db))
      by (rewrite length_skipn; fold total; lia).
    apply firstn_skipn.
  - intros Hfull.
    rewrite (prepare_next_offset_full (JList (slice o)) body st1
               (Z.of_nat (List.length (slice o))) Hty eq_refl) by lia.
    cbv zeta.
    assert (Hnext : offset st1 + Z.of_nat (List.length (slice o))
                    = Z.of_nat (o + size)) by lia.
    destruct Hknown1 as [Hk | Hk]; rewrite Hk.
    + eexists. split; [reflexivity|]. cbn.
      rewrite Hnext, Hall1, Hall. unfold slice.
      rewrite firstn_then_slice. unfold known_total. cbn. auto.
    + assert (Hahead : (Z.of_nat total
                        <=? offset st1 + Z.of_nat (List.length (slice o)))
                       = false) by (apply Z.leb_gt; lia).
      rewrite Hahead, andb_false_r.
      eexists. split; [reflexivity|]. cbn.
      rewrite Hnext, Hall1, Hall. unfold slice.
      rewrite firstn_then_slice. unfold known_total. cbn. auto.
Qed.

(** The run from page [k] on, [m] full pages before the partial one. *)
Lemma offset_run_from (m : nat) :
  forall fuel k st w,
    (m < fuel)%nat ->
    (total mod size <> 0)%nat ->
    (k + m = total / size)%nat ->
    offset st = Z.of_nat (k * size) ->
    all_data st = firstn (k * size) db ->
    st_endpoint st = endpoint cfg ->
    known_total st ->
    outcome W (loop fuel st w) = Returned db PartialPage
    /\ requests (loop fuel st w)
       = map (fun j => request (j * size)) (seq k (S m)).
Proof.
  destruct size_pos as (Hpos & Hsz).
  induction m as [|m IH]; intros fuel k st w Hfuel Hpartial Hk Hoff Hall
    Hep Hknown;
    (destruct fuel as [|fuel]; [lia|]);
    pose proof (Nat.div_mod_eq total size) as Hdiv;
    pose proof (Nat.mod_upper_bound total size ltac:(lia)) as Hmod;
    destruct (offset_pass_sent st w (k * size) Hoff Hep)
      as (body & w1 & Hsent & Hex & Htot);
    rewrite loop_S; cbv zeta; rewrite Hsent; cbn [fst snd];
    rewrite (build_request_offset st Hty); cbn [fst];
    rewrite set_endpoint_same;
    assert (Hlt : (k * size < total)%nat) by nia;
    destruct (offset_pass_page body st (k * size) Hoff Hall Hknown Hex
                Htot Hlt) as (Hlast & Hmore).
  - destruct Hlast as (st' & Hpage & Hdb); [nia|].
    rewrite Hpage. unfold requests. cbn. now rewrite Hdb.
  - destruct Hmore as (st' & Hpage & Hoff' & Hall' & Hep' & Hknown'); [nia|].
    rewrite Hpage.
    replace (k * size + size)%nat with (S k * size)%nat in * by lia.
    destruct (IH fuel (S k) st' w1) as (Hout & Hreqs); try assumption;
      try lia; try congruence.
    unfold requests in *. cbn [after outcome exchanges map fst].
    split; [exact Hout|]. rewrite Hreqs. reflexivity.
Qed.

(** C4: the offset strategy against an endpoint that serves [total]
    items by offset in pages of [page_size], the last page partial, with
    no [max_pages] and no [stop_condition] (the names of the offset and
    size parameters being different, as the endpoint has to tell them
    apart).  With fuel for [ceil(total / page_size)] passes the call
    returns exactly the items of the endpoint, in order, stopping on the
    partial page; it sends exactly [ceil(total / page_size)] requests,
    the one of page [j + 1] with [offset_param = j * page_size], the
    number of items extracted so far, and [size_param = page_size].
    When the total is known and the advanced offset has reached it, the
    pass stops the run with success as well. *)
Theorem offset_run_complete (fuel : nat) (w : World W)
  (Hpartial : Z.of_nat (List.length db) mod page_size cfg <> 0) :
  let pages :=
    Z.to_nat ((Z.of_nat (List.length db) + page_size cfg - 1)
              / page_size cfg) in
  (pages <= fuel)%nat ->
  outcome W (get_paginated_data fuel w) = Returned db PartialPage
  /\ requests (get_paginated_data fuel w)
     = map (fun j => offset_request base_url cfg
                       (Z.of_nat j * page_size cfg))
           (seq 0 pages)
  /\ List.length (requests (get_paginated_data fuel w)) = pages
  /\ (forall o,
        dict_get (params (offset_request base_url cfg o)) (offset_param cfg)
        = Some (JNum o)
        /\ dict_get (params (offset_request base_url cfg o)) (size_param cfg)
           = Some (JNum (page_size cfg)))
  /\ (forall items data st n t,
        len items = inr n -> page_size cfg <= n ->
        total_items st = JNum t -> t <> 0 -> t <= offset st + n ->
        prepare_next items data st
        = inr (Break AllItemsRetrieved (set_offset (offset st + n) st))).
Proof.
  intros pages Hfuel.
  destruct size_pos as (Hpos & Hsz).
  pose proof (Nat.div_mod_eq total size) as Hdiv.
  pose proof (Nat.mod_upper_bound total size ltac:(lia)) as Hmod.
  assert (Hrem : (total mod size <> 0)%nat).
  { intros E. apply Hpartial. fold total. rewrite <- Hsz, <- Nat2Z.inj_mod.
    now rewrite E. }
  assert (Hpages : pages = S (total / size)).
  { unfold pages. fold total. rewrite <- Hsz.
    rewrite <- (Z.div_unique (Z.of_nat total + Z.of_nat size - 1)
                  (Z.of_nat size) (Z.of_nat (S (total / size)))
                  (Z.of_nat (total mod size) - 1)); [lia | lia | nia]. }
  destruct (offset_run_from (total / size) fuel 0 (initial_state cfg) w)
    as (Hout & Hreqs); try reflexivity; try assumption; try lia.
  { left. reflexivity. }
  split; [exact Hout|].
  assert (E : requests (get_paginated_data fuel w)
              = map (fun j => offset_request base_url cfg
                                (Z.of_nat j * page_size cfg))
                    (seq 0 pages)).
  { unfold Client.get_paginated_data. rewrite Hreqs, Hpages.
    apply map_ext. intros j. unfold request.
    now rewrite Nat2Z.inj_mul, Hsz. }
  split; [exact E|]. split; [now rewrite E, length_map, length_seq|].
  split; [apply offset_request_params|].
  intros items data st n t Hlen Hfull Htot Hnz Hreached.
  rewrite (prepare_next_offset_full items data st n Hty Hlen Hfull).
  cbv zeta. rewrite Htot.
  apply Z.eqb_neq in Hnz. apply Z.leb_le in Hreached.
  now rewrite Hnz, Hreached.
Qed.

End OffsetRun.

(** ** The cursor strategy *)

(** On an object body the total is read without failure. *)
Lemma record_total_object (d : dict) (st : State) :
  exists st1, record_total (JDict d) st = inr st1.
Proof.
  unfold Client.record_total.
  destruct (_ && _); [|eexists; reflexivity].
  destruct (total_key cfg) as [k|]; cbn.
  - destruct (dict_get d k); eexists; reflexivity.
  - eexists; reflexivity.
Qed.

Section CursorRun.

Variable next : string.
Variables d1 d2 : dict.
Variables items1 items2 : list json.
Variable tok1 : json.
Variables n0 n1 n2 : W.

Hypothesis Hty : pagination_type cfg = "cursor".
Hypothesis Hmax : max_pages cfg = None.
Hypothesis Hstop : stop_condition cfg = None.
Hypothesis Hname : size_param cfg <> "cursor".
Hypothesis Hkey : next_page_key cfg = Some next.

Hypothesis Hitems1 : extract_items (data_key cfg) (JDict d1) = inr (JList items1).
Hypothesis Hsome1 : items1 <> [].
Hypothesis Hnext1 : dict_get d1 next = Some tok1.
Hypothesis Htok1 : truthy tok1 = true.

Hypothesis Hitems2 : extract_items (data_key cfg) (JDict d2) = inr (JList items2).
Hypothesis Hsome2 : items2 <> [].
Hypothesis Hnext2 : dict_get d2 next = Some JNull.

Hypothesis Hfirst : forall req, session_request req n0 = (Body (JDict d1), n1).
Hypothesis Hsecond : forall req, session_request req n1 = (Body (JDict d2), n2).

Lemma nonempty_truthy (l : list json) : l <> [] -> truthy (JList l) = true.
Proof. destruct l; [contradiction | reflexivity]. Qed.

(** A page with a truthy entry under the key: the cursor is taken. *)
Lemma cursor_pass_on (d : dict) (items : list json) (tok : json)
  (st : State) :
  extract_items (data_key cfg) (JDict d) = inr (JList items) ->
  items <> [] -> dict_get d next = Some tok -> truthy tok = true ->
  exists st',
    process_page (JDict d) st = inr (Continue st')
    /\ all_data st' = all_data st ++ items
    /\ cursor st' = tok
    /\ st_endpoint st' = st_endpoint st.
Proof.
  intros Hex Hsome Hget Htruthy.
  rewrite (process_page_items _ _ items st Hex (nonempty_truthy _ Hsome)
             eq_refl).
  destruct (record_total_object d (add_page items st)) as (st1 & Hrec).
  rewrite Hrec. cbn [bind]. rewrite Hmax, Hstop. cbn [opt_int_truthy andb].
  rewrite prepare_next_cursor by exact Hty.
  unfold truthy_entry. rewrite Hkey. cbn [contains_key contains_str bind ret].
  unfold dict_mem. rewrite Hget. cbn [subscript_key subscript bind ret].
  rewrite Hget. cbn [bind ret]. rewrite Htruthy.
  apply record_total_frame in Hrec as (Hall & _ & Hep & _).
  eexists. split; [reflexivity|]. cbn. auto.
Qed.

(** A page with a null entry under the key: the run stops. *)
Lemma cursor_pass_off (d : dict) (items : list json) (st : State) :
  extract_items (data_key cfg) (JDict d) = inr (JList items) ->
  items <> [] -> dict_get d next = Some JNull ->
  exists st',
    process_page (JDict d) st = inr (Break NoNextCursor st')
    /\ all_data st' = all_data st ++ items.
Proof.
  intros Hex Hsome Hget.
  rewrite (process_page_items _ _ items st Hex (nonempty_truthy _ Hsome)
             eq_refl).
  destruct (record_total_object d (add_page items st)) as (st1 & Hrec).
  rewrite Hrec. cbn [bind]. rewrite Hmax, Hstop. cbn [opt_int_truthy andb].
  rewrite prepare_next_cursor by exact Hty.
  unfold truthy_entry. rewrite Hkey. cbn [contains_key contains_str bind ret].
  unfold dict_mem. rewrite Hget. cbn [subscript_key subscript bind ret].
  rewrite Hget. cbn [bind ret truthy].
  apply record_total_frame in Hrec as (Hall & _).
  eexists. split; [reflexivity|]. exact Hall.
Qed.

Lemma make_request_at (endpoint : string) (ps : dict) (w : World W)
  (n n' : W) (resp : Response) :
  net W w = n ->
  (forall req, session_request req n = (resp, n')) ->
  exists w1,
    _make_request "GET" endpoint ps w
    = ({| method := "GET"; url := Urllib.urljoin base_url endpoint;
          params := ps |}, resp, w1)
    /\ net W w1 = n'.
Proof.
  intros Hnet Hsend. unfold Client._make_request.
  destruct (RateLimiter.wait_if_needed _ _) as [rl clk].
  rewrite Hnet, Hsend. eexists. split; reflexivity.
Qed.

(** C5: the cursor strategy against an endpoint whose first answer holds
    items and a truthy value [tok1] under [next_page_key], and whose
    second answer holds items and a null under that key (no [max_pages],
    no [stop_condition], a size parameter not itself named "cursor").
    The call sends exactly two requests: the first with the static
    parameters and the size parameter only, no cursor being set; the
    second with [cursor = tok1]; then it returns the items of the two
    pages.  There is no third request, however much fuel is left. *)
Theorem cursor_run_two_requests (fuel : nat) (w : World W)
  (Hnet : net W w = n0) (Hfuel : (2 <= fuel)%nat) :
  outcome W (get_paginated_data fuel w)
  = Returned (items1 ++ items2) NoNextCursor
  /\ exchanges W (get_paginated_data fuel w)
     = [(first_cursor_request base_url cfg, Body (JDict d1));
        (cursor_request base_url cfg tok1, Body (JDict d2))]
  /\ params (first_cursor_request base_url cfg)
     = dict_set (opt_dict (custom_params cfg))
                (size_param cfg) (JNum (page_size cfg))
  /\ dict_get (params (first_cursor_request base_url cfg)) "cursor"
     = dict_get (opt_dict (custom_params cfg)) "cursor"
  /\ dict_get (params (cursor_request base_url cfg tok1)) "cursor"
     = Some tok1
  /\ net W (world W (get_paginated_data fuel w)) = n2.
Proof.
  destruct fuel as [|[|fuel]]; try lia.
  unfold Client.get_paginated_data.
  (* first pass *)
  rewrite loop_S. cbv zeta.
  rewrite (build_request_cursor _ Hty). cbn [fst snd cursor initial_state truthy].
  destruct (make_request_at (endpoint cfg)
              (dict_set (opt_dict (custom_params cfg)) (size_param cfg)
                        (JNum (page_size cfg))) w n0 n1 _ Hnet Hfirst)
    as (w1 & Hsent1 & Hnet1).
  cbn [st_endpoint initial_state]. rewrite Hsent1. cbn [fst snd].
  change (set_endpoint (endpoint cfg) (initial_state cfg))
    with (initial_state cfg).
  destruct (cursor_pass_on d1 items1 tok1 (initial_state cfg)
              Hitems1 Hsome1 Hnext1 Htok1)
    as (st1 & Hpage1 & Hall1 & Hcur1 & Hep1).
  rewrite Hpage1.
  (* second pass *)
  rewrite loop_S. cbv zeta.
  rewrite (build_request_cursor _ Hty). cbn [fst snd].
  rewrite Hcur1, Htok1, Hep1. cbn [st_endpoint initial_state].
  destruct (make_request_at (endpoint cfg)
              (dict_set (dict_set (opt_dict (custom_params cfg)) "cursor" tok1)
                        (size_param cfg) (JNum (page_size cfg)))
              w1 n1 n2 _ Hnet1 Hsecond)
    as (w2 & Hsent2 & Hnet2).
  rewrite Hsent2. cbn [fst snd].
  assert (Hst1 : set_endpoint (endpoint cfg) st1 = st1).
  { cbn [st_endpoint initial_state] in Hep1.
    rewrite <- Hep1. apply set_endpoint_same. }
  rewrite Hst1.
  destruct (cursor_pass_off d2 items2 st1 Hitems2 Hsome2 Hnext2)
    as (st2 & Hpage2 & Hall2).
  rewrite Hpage2. cbn [after outcome exchanges world].
  rewrite Hall2, Hall1. cbn [all_data initial_state app].
  repeat split; try assumption.
  - unfold first_cursor_request. cbn [params].
    apply dict_get_set_other. exact Hname.
  - unfold cursor_request. cbn [params].
    rewrite dict_get_set_other by exact Hname.
    apply dict_get_set_same.
Qed.

End CursorRun.

(** ** The URL strategy *)

(** With a next-URL stored, the request is built from it alone: neither
    the endpoint nor [page] nor [page_size] enter. *)
Lemma build_request_follow (st : State) (nu : string) :
  pagination_type cfg = "url" ->
  next_url st = Some nu -> str_truthy nu = true ->
  build_request st =
    (Urllib.path (Urllib.urlparse nu),
     dict_update
       (single_values (Urllib.parse_qs (Urllib.query (Urllib.urlparse nu))))
       (opt_dict (custom_params cfg))).
Proof.
  intros Hty Hnu Htruthy. unfold Client.build_request.
  rewrite Hty, Hnu. cbn [String.eqb Ascii.eqb Bool.eqb andb opt_str_truthy].
  rewrite Htruthy. destruct (custom_params cfg) as [[|kv d]|]; reflexivity.
Qed.

(** Without one, the URL strategy asks for [page] like the page
    strategy. *)
Lemma build_request_url_first (st : State) :
  pagination_type cfg = "url" ->
  opt_str_truthy (next_url st) = false ->
  build_request st =
    (st_endpoint st,
     dict_set (dict_set (opt_dict (custom_params cfg)) (page_param cfg)
                        (JNum (page st)))
              (size_param cfg) (JNum (page_size cfg))).
Proof.
  intros Hty Hnone. unfold Client.build_request.
  rewrite Hty, Hnone, opt_dict_copy. reflexivity.
Qed.


(** The fallback of the URL strategy increments [page] and leaves the
    stored next-URL in place, so the request after it is the one built
    from that URL once more. *)
Lemma stale_next_url (items data : json) (st : State) (nu : string) (n : Z) :
  pagination_type cfg = "url" ->
  next_url st = Some nu -> str_truthy nu = true ->
  truthy_entry data (next_page_key cfg) = inr None ->
  len items = inr n -> page_size cfg <= n ->
  prepare_next items data st = inr (Continue (set_page (page st + 1) st))
  /\ build_request (set_page (page st + 1) st) = build_request st.
Proof.
  intros Hty Hnu Htruthy Hnone Hlen Hfull. split.
  - rewrite prepare_next_url by exact Hty. rewrite Hnone. cbn [bind].
    rewrite Hlen. cbn [bind]. apply Z.ltb_ge in Hfull. now rewrite Hfull.
  - rewrite (build_request_follow st nu), (build_request_follow _ nu);
      auto.
Qed.


(** ** [max_pages] *)

(** A truthy [max_pages] that has been reached stops the run before
    [stop_condition] is consulted. *)
Lemma max_pages_stops (data items : json) (elems : list json)
  (st st1 : State) (m : Z) :
  max_pages cfg = Some m -> m <> 0 ->
  extract_items (data_key cfg) data = inr items ->
  truthy items = true -> iterate items = inr elems ->
  record_total data (add_page elems st) = inr st1 ->
  m <= pages_retrieved st + 1 ->
  process_page data st = inr (Break MaxPagesReached st1).
Proof.
  intros Hmax Hnz Hex Htr Hit Hrec Hreached.
  rewrite (process_page_items _ _ _ _ Hex Htr Hit), Hrec. cbn [bind].
  apply record_total_frame in Hrec as (_ & Hpages & _). cbn in Hpages.
  rewrite Hmax. cbn [opt_int_truthy].
  apply Z.eqb_neq in Hnz. rewrite Hnz, Hpages.
  assert (E : (m <=? pages_retrieved st + 1) = true) by (apply Z.leb_le; lia).
  now rewrite E.
Qed.

(** [max_pages = 0] is read as no limit at all. *)
Lemma max_pages_zero_ignored (data items : json) (elems : list json)
  (st : State) :
  max_pages cfg = Some 0 ->
  extract_items (data_key cfg) data = inr items ->
  truthy items = true -> iterate items = inr elems ->
  process_page data st =
    (st1 <- record_total data (add_page elems st) ;;
     if match stop_condition cfg with
        | Some f => f data
        | None => false
        end
     then ret (Break StopConditionMet st1)
     else prepare_next items data st1)%py.
Proof.
  intros Hmax Hex Htr Hit.
  rewrite (process_page_items _ _ _ _ Hex Htr Hit), Hmax. reflexivity.
Qed.

(** The page strategy on an endpoint that always answers with the same
    full page, with [max_pages = 0]: the loop never ends. *)
Lemma page_run_unbounded (d : dict) (items : list json) :
  pagination_type cfg = "page" ->
  max_pages cfg = Some 0 ->
  stop_condition cfg = None ->
  extract_items (data_key cfg) (JDict d) = inr (JList items) ->
  items <> [] ->
  page_size cfg <= Z.of_nat (List.length items) ->
  (forall req n, fst (session_request req n) = Body (JDict d)) ->
  forall fuel st w,
    outcome W (loop fuel st w) = OutOfFuel
    /\ List.length (exchanges W (loop fuel st w)) = fuel.
Proof.
  intros Hty Hmax Hstop Hex Hsome Hfull Hsend.
  induction fuel as [|fuel IH]; intros st w; [split; reflexivity|].
  rewrite loop_S. cbv zeta.
  assert (Hresp : snd (fst (_make_request "GET" (fst (build_request st))
                              (snd (build_request st)) w))
                  = Body (JDict d)).
  { unfold Client._make_request.
    destruct (RateLimiter.wait_if_needed _ _) as [rl clk].
    specialize (Hsend {| method := "GET";
                         url := Urllib.urljoin base_url (fst (build_request st));
                         params := snd (build_request st) |} (net W w)).
    destruct (session_request _ _) as [resp n]. exact Hsend. }
  rewrite Hresp.
  assert (Htr : truthy (JList items) = true)
    by (destruct items; [contradiction | reflexivity]).
  rewrite (max_pages_zero_ignored _ _ items _ Hmax Hex Htr eq_refl).
  destruct (record_total_object d (add_page items
              (set_endpoint (fst (build_request st)) st))) as (st1 & Hrec).
  rewrite Hrec. cbn [bind]. rewrite Hstop.
  rewrite prepare_next_page by exact Hty. cbn [len bind ret].
  apply Z.ltb_ge in Hfull. rewrite Hfull. unfold ret.
  cbn [after outcome exchanges List.length].
  destruct (IH (set_page (page st1 + 1) st1)
               (snd (_make_request "GET" (fst (build_request st))
                       (snd (build_request st)) w))) as (Hout & Hlen).
  now rewrite Hout, Hlen.
Qed.

End Loop.

End EngineFacts.

(* ================================================================== *)
(** * Runs against the simulated endpoints *)
(* ================================================================== *)

Module Scenarios.
Import Py Client Sim EngineFacts.
Local Open Scope list_scope.

(** C1, the code at a failing input.  URL strategy, pages of 2: the
    first answer carries a next-link, the later ones carry none and are
    full.  After the second page the code increments [page], but the
    stored next-URL is still there and the request is built from it
    again: the third request repeats the second instead of asking for
    the incremented page. *)
Theorem url_fallback_repeats_next_url :
  let r := run scripted url_cfg 5 link_then_none in
  outcome _ r = Returned (synthetic 0 6) MaxPagesReached
  /\ requests r
     = [get "/api/items" [("page", JNum 1); ("page_size", JNum 2)];
        get "/api/items" [("after", JStr "2")];
        get "/api/items" [("after", JStr "2")]]
  /\ nth_error (requests r) 2
     <> Some (page_request (U := Urllib.model) base_url url_cfg 2).
Proof.
  cbv zeta. split; [vm_compute; reflexivity|].
  split; [vm_compute; reflexivity|].
  vm_compute. discriminate.
Qed.



(** C3, the code at a failing input.  [max_pages=0] is set and
    [pages_retrieved >= max_pages] holds from the start, yet the run
    against an endpoint of full pages never stops: whatever the number
    of passes allowed, all of them are used and the loop is still
    running.  With [max_pages=3] the same run stops after 3 requests
    with 30 items; [get_paginated_data_by_url] tests
    [max_pages is None] and would stop at 0. *)
Theorem max_pages_zero_never_stops :
  (forall fuel,
      let r := run (stateless (always_full 10)) (page_cfg (Some 0)) fuel tt in
      outcome _ r = OutOfFuel /\ List.length (requests r) = fuel)
  /\ (let r := run (stateless (always_full 10)) (page_cfg (Some 3)) 5 tt in
      outcome _ r
      = Returned (synthetic 0 10 ++ synthetic 0 10 ++ synthetic 0 10)
                 MaxPagesReached
      /\ List.length (requests r) = 3%nat).
Proof.
  split.
  - intros fuel r. subst r. unfold run, requests. rewrite length_map.
    apply (page_run_unbounded (U := Urllib.model) unit
             (stateless (always_full 10)) base_url (page_cfg (Some 0))
             [("items", JList (synthetic 0 10))] (synthetic 0 10));
      try reflexivity; try discriminate.
  - cbv zeta. split; vm_compute; reflexivity.
Qed.

(** The offset endpoint of [Sim] does serve by offset. *)
Lemma offset_endpoint_serves (db : list json) :
  serves_by_offset unit (stateless (offset_endpoint db "offset" "page_size"))
    offset_cfg db.
Proof.
  intros req n o Hoff Hsz. cbn in Hoff, Hsz.
  eexists _, tt. unfold stateless, offset_endpoint.
  rewrite Hoff, Hsz. rewrite Nat2Z.id.
  split; [reflexivity|]. split; [reflexivity|].
  intros _. right. reflexivity.
Qed.

(** C4 on seven items in pages of three. *)
Lemma offset_run_complete_witness :
  let r := run (stateless (offset_endpoint (synthetic 0 7) "offset"
                             "page_size")) offset_cfg 5 tt in
  outcome _ r = Returned (synthetic 0 7) PartialPage
  /\ List.length (requests r) = 3%nat.
Proof.
  cbv zeta.
  destruct (offset_run_complete (U := Urllib.model) unit
              (stateless (offset_endpoint (synthetic 0 7) "offset"
                           "page_size"))
              base_url offset_cfg (synthetic 0 7)
              eq_refl eq_refl eq_refl eq_refl
              ltac:(discriminate)
              (offset_endpoint_serves (synthetic 0 7))
              5%nat (world tt) ltac:(vm_compute; discriminate)
              ltac:(vm_compute; lia))
    as (Hout & _ & Hlen & _).
  split; [exact Hout | exact Hlen].
Defined.

(** C5 on the two cursor pages. *)
Lemma cursor_run_two_requests_witness :
  let r := run scripted cursor_cfg 5 cursor_pages in
  outcome _ r = Returned (synthetic 0 4) NoNextCursor
  /\ requests r
     = [get "/api/items" [("page_size", JNum 2)];
        get "/api/items" [("cursor", JStr "tok1"); ("page_size", JNum 2)]].
Proof.
  cbv zeta.
  destruct (cursor_run_two_requests (U := Urllib.model) (list Response)
              scripted base_url cursor_cfg "next"
              [("items", JList (synthetic 0 2)); ("next", JStr "tok1")]
              [("items", JList (synthetic 2 2)); ("next", JNull)]
              (synthetic 0 2) (synthetic 2 2) (JStr "tok1")
              cursor_pages (tl cursor_pages) []
              eq_refl eq_refl eq_refl ltac:(discriminate) eq_refl
              eq_refl ltac:(discriminate) eq_refl eq_refl
              eq_refl ltac:(discriminate) eq_refl
              (fun _ => eq_refl) (fun _ => eq_refl)
              5%nat (world cursor_pages) eq_refl ltac:(lia))
    as (Hout & Hex & _).
  split; [exact Hout|].
  unfold requests, run. rewrite Hex. reflexivity.
Defined.

(** C8 on three equal pages: nothing is dropped, nothing deduplicated. *)
Lemma returned_is_concatenation_witness :
  let r := run (stateless (always_full 10)) (page_cfg (Some 3)) 5 tt in
  synthetic 0 10 ++ synthetic 0 10 ++ synthetic 0 10
  = flat_map (page_elems None) (responses r).
Proof.
  cbv zeta.
  refine (proj1 (returned_is_concatenation (U := Urllib.model) unit
                   (stateless (always_full 10)) base_url (page_cfg (Some 3))
                   5%nat (world tt) _ MaxPagesReached _)).
  vm_compute. reflexivity.
Defined.



(** C10 on the third request of the run over seven items. *)
Lemma offset_is_items_so_far_witness :
  let r := run (stateless (offset_endpoint (synthetic 0 7) "offset"
                             "page_size")) offset_cfg 5 tt in
  option_map (fun x => dict_get (params (fst x)) "offset")
             (nth_error (exchanges _ r) 2)
  = Some (Some (JNum 6)).
Proof.
  cbv zeta.
  assert (Hnth : nth_error
            (exchanges _
               (run (stateless (offset_endpoint (synthetic 0 7) "offset"
                                  "page_size")) offset_cfg 5 tt)) 2
          = Some (offset_request (U := Urllib.model) base_url offset_cfg 6,
                  page_of (synthetic 6 1) [("total", JNum 7)])).
  { vm_compute. reflexivity. }
  rewrite Hnth. cbn [option_map fst].
  destruct (offset_is_items_so_far (U := Urllib.model) unit _ base_url
              offset_cfg 5%nat (world tt) 2%nat _ _ eq_refl Hnth)
    as (_ & _ & Hget & _).
  apply f_equal. etransitivity; [exact (Hget ltac:(discriminate))|].
  vm_compute. reflexivity.
Defined.

End Scenarios.

(* ================================================================== *)
(** * More about the extraction of items *)
(* ================================================================== *)

Module FindDataArrayFacts.
Import Py Client.
Local Open Scope list_scope.

(** A key that holds no list is passed over. *)
Lemma find_common_skip (d : dict) (key : string) (keys : list string) :
  (forall l, dict_get d key <> Some (JList l)) ->
  find_common (key :: keys) (JDict d) = find_common keys (JDict d).
Proof.
  intros Hno. cbn [find_common contains_str bind ret]. unfold dict_mem.
  destruct (dict_get d key) as [v|] eqn:Hget; [|reflexivity].
  cbn [subscript bind ret]. rewrite Hget. cbn [bind ret].
  destruct v; try reflexivity. now destruct (Hno l).
Qed.

Lemma find_common_hit (d : dict) (key : string) (keys : list string)
  (l : list json) :
  dict_get d key = Some (JList l) ->
  find_common (key :: keys) (JDict d) = inr (Some (JList l)).
Proof.
  intros Hget. cbn [find_common contains_str bind ret]. unfold dict_mem.
  rewrite Hget. cbn [subscript bind ret]. rewrite Hget. reflexivity.
Qed.

Lemma find_common_first (d : dict) (l : list json) (key : string) :
  forall pre post,
    (forall k, In k pre -> forall l', dict_get d k <> Some (JList l')) ->
    dict_get d key = Some (JList l) ->
    find_common (pre ++ key :: post) (JDict d) = inr (Some (JList l)).
Proof.
  induction pre as [|k pre IH]; intros post Hpre Hget.
  - now apply find_common_hit.
  - cbn [app]. rewrite find_common_skip by (apply Hpre; now left).
    apply IH; [|exact Hget]. intros k' Hin. apply Hpre. now right.
Qed.

Lemma find_common_none (d : dict) :
  forall keys,
    (forall k, In k keys -> forall l, dict_get d k <> Some (JList l)) ->
    find_common keys (JDict d) = inr None.
Proof.
  induction keys as [|k keys IH]; intros Hno; [reflexivity|].
  rewrite find_common_skip by (apply Hno; now left).
  apply IH. intros k' Hin. apply Hno. now right.
Qed.

(** On an object, the probe finds a list or nothing; it does not
    raise. *)
Lemma find_common_object (d : dict) :
  forall keys,
    find_common keys (JDict d) = inr None
    \/ exists l, find_common keys (JDict d) = inr (Some (JList l)).
Proof.
  induction keys as [|k keys IH]; [now left|].
  cbn [find_common contains_str bind ret]. unfold dict_mem.
  destruct (dict_get d k) as [v|] eqn:Hget; [|exact IH].
  cbn [subscript bind ret]. rewrite Hget. cbn [bind ret].
  destruct v; cbn [is_list]; try exact IH. right. now exists l.
Qed.

Lemma find_is_list (vs : list json) :
  exists l, match find is_list vs with
            | Some v => v
            | None => JList []
            end = JList l.
Proof.
  destruct (find is_list vs) as [v|] eqn:Hfind; [|now exists []].
  apply find_some in Hfind as (_ & Hlist).
  destruct v; try discriminate. now exists l.
Qed.

(** Without a [data_key] the extraction cannot go wrong on the bodies an
    API sends: on an object and on a list it does not raise and what it
    yields is a list (the body itself when the body is a list).  A null,
    boolean or number body makes it raise [TypeError]. *)
Theorem extract_items_heuristic_total (data_key : option string)
  (Hkey : opt_str_truthy data_key = false) :
  (forall d, exists l, extract_items data_key (JDict d) = inr (JList l))
  /\ (forall l, extract_items data_key (JList l) = inr (JList l))
  /\ extract_items data_key JNull = inl TypeError
  /\ (forall b, extract_items data_key (JBool b) = inl TypeError)
  /\ (forall n, extract_items data_key (JNum n) = inl TypeError).
Proof.
  assert (E : forall data,
             extract_items data_key data
             = if is_list data then inr data else _find_data_array data).
  { intros data. unfold extract_items.
    destruct data_key as [k|]; [|reflexivity].
    cbn in Hkey. now rewrite Hkey. }
  split.
  { intros d. rewrite E. cbn [is_list]. unfold _find_data_array.
    destruct (find_common_object d common_keys) as [H | (l & H)];
      rewrite H; cbn [bind ret values].
    - destruct (find_is_list (dict_values d)) as (l & Hl).
      destruct (find is_list (dict_values d)); exists l; unfold ret;
        now rewrite Hl.
    - now exists l. }
  repeat split; intros; rewrite E; reflexivity.
Qed.

Lemma extract_items_heuristic_total_witness :
  exists l, extract_items None
              (JDict [("count", JNum 2); ("rows", JList [JNum 1; JNum 2])])
            = inr (JList l).
Proof.
  apply (proj1 (extract_items_heuristic_total None eq_refl)).
Defined.

(** The common keys are probed in their fixed order: the first of them
    that holds a list gives the items, whatever the order of the keys in
    the body and whatever other lists it holds. *)
Theorem find_data_array_priority (d : dict) (l : list json) (key : string)
  (pre post : list string)
  (Hkeys : common_keys = pre ++ key :: post)
  (Hpre : forall k, In k pre -> forall l', dict_get d k <> Some (JList l'))
  (Hget : dict_get d key = Some (JList l)) :
  _find_data_array (JDict d) = inr (JList l).
Proof.
  unfold _find_data_array. rewrite Hkeys.
  now rewrite (find_common_first d l key pre post Hpre Hget).
Qed.

Lemma find_data_array_priority_witness :
  _find_data_array
    (JDict [("meta", JList [JStr "m"]); ("items", JList [JNum 7]);
            ("results", JStr "ok"); ("data", JList [JNum 1; JNum 2])])
  = inr (JList [JNum 1; JNum 2]).
Proof.
  apply (find_data_array_priority _ _ "data" ["results"]
           ["items"; "records"; "rows"; "entries"]).
  - reflexivity.
  - intros k [<- | []] l'. cbn. discriminate.
  - reflexivity.
Defined.

(** When none of the common keys holds a list, the items are the first
    list among the values of the body, in the order of the body; a body
    without any list gives the empty list. *)
Theorem find_data_array_fallback (d : dict)
  (Hnone : forall k, In k common_keys ->
                     forall l, dict_get d k <> Some (JList l)) :
  _find_data_array (JDict d)
  = inr match find is_list (dict_values d) with
        | Some v => v
        | None => JList []
        end
  /\ ((forall v, In v (dict_values d) -> is_list v = false) ->
      _find_data_array (JDict d) = inr (JList [])).
Proof.
  assert (E : _find_data_array (JDict d)
              = inr match find is_list (dict_values d) with
                    | Some v => v
                    | None => JList []
                    end).
  { unfold _find_data_array. rewrite (find_common_none d _ Hnone).
    cbn [bind ret values]. now destruct (find is_list (dict_values d)). }
  split; [exact E|]. intros Hall. rewrite E.
  destruct (find is_list (dict_values d)) as [v|] eqn:Hfind; [|reflexivity].
  apply find_some in Hfind as (Hin & Hlist).
  rewrite (Hall v Hin) in Hlist. discriminate.
Qed.

Lemma find_data_array_fallback_witness :
  _find_data_array (JDict [("foo", JStr "bar")]) = inr (JList [])
  /\ _find_data_array
       (JDict [("page", JNum 1); ("users", JList [JStr "u"]);
               ("groups", JList [])])
     = inr (JList [JStr "u"]).
Proof.
  split.
  - apply (proj2 (find_data_array_fallback [("foo", JStr "bar")]
                    ltac:(intros k Hin l; cbn in Hin;
                          repeat (destruct Hin as [<- | Hin];
                                  [cbn; discriminate|]);
                          destruct Hin))).
    intros v [<- | []]. reflexivity.
  - apply (proj1 (find_data_array_fallback
                    [("page", JNum 1); ("users", JList [JStr "u"]);
                     ("groups", JList [])]
                    ltac:(intros k Hin l; cbn in Hin;
                          repeat (destruct Hin as [<- | Hin];
                                  [cbn; discriminate|]);
                          destruct Hin))).
Defined.

End FindDataArrayFacts.

(* ================================================================== *)
(** * More about [get_paginated_data] *)
(* ================================================================== *)

Module RunFacts.
Import Py Client EngineFacts.
Local Open Scope list_scope.

Section Run.

Context {U : Urllib.Api}.
Variable W : Type.
Variable session_request : Request -> W -> Response * W.
Variable base_url : string.
Variable cfg : Config.

Abbreviation loop := (Client.loop W session_request base_url cfg).
Abbreviation process_page := (Client.process_page base_url cfg).
Abbreviation prepare_next := (Client.prepare_next base_url cfg).
Abbreviation record_total := (Client.record_total cfg).
Abbreviation build_request := (Client.build_request cfg).
Abbreviation _make_request :=
  (Client._make_request W session_request base_url).
Abbreviation get_paginated_data :=
  (Client.get_paginated_data W session_request base_url cfg).

(** The pass at the head of a run, with its request spelled out. *)
Ltac first_pass st w resp w1 :=
  rewrite (loop_S W session_request base_url cfg) in *; cbv zeta in *;
  pose proof (make_request_sent W session_request base_url "GET"
                (fst (build_request st)) (snd (build_request st)) w)
    as Hsent;
  destruct (_make_request "GET" (fst (build_request st))
              (snd (build_request st)) w) as [[req0 resp] w1];
  cbn [fst snd] in *; subst req0.

(** A pass that goes on has counted its page, has left the endpoint
    alone and is still below a truthy [max_pages]. *)
Lemma process_page_continue (data : json) (st st' : State) :
  process_page data st = inr (Continue st') ->
  st_endpoint st' = st_endpoint st
  /\ pages_retrieved st' = pages_retrieved st + 1
  /\ (forall m, max_pages cfg = Some m -> m <> 0 ->
                pages_retrieved st' < m).
Proof.
  intros H. unfold Client.process_page in H.
  destruct (extract_items (data_key cfg) data) as [e|items];
    [discriminate H|].
  cbn [bind] in H. destruct (truthy items); cbn [negb] in H;
    [|discriminate H].
  destruct (iterate items) as [e|elems]; [discriminate H|].
  cbn [bind] in H.
  destruct (record_total data (add_page elems st)) as [e|st1] eqn:Htot;
    [discriminate H|].
  apply record_total_frame in Htot as (_ & Hpages & Hep & _).
  cbn [bind] in H. cbn in Hpages, Hep.
  destruct (opt_int_truthy (max_pages cfg) && _) eqn:Hmax;
    [discriminate H|].
  destruct (match stop_condition cfg with Some _ => _ | None => _ end);
    [discriminate H|].
  apply prepare_next_frame in H as (_ & Hpages' & Hep' & _).
  cbn [ctl_state] in Hpages', Hep'.
  split; [congruence|]. split; [congruence|].
  intros m Hm Hnz. rewrite Hm in Hmax. cbn [opt_int_truthy] in Hmax.
  apply Z.eqb_neq in Hnz. rewrite Hnz in Hmax. cbn [negb andb] in Hmax.
  apply Z.leb_gt in Hmax. lia.
Qed.

Lemma loop_max_pages (m : Z) (Hm : max_pages cfg = Some m) (Hnz : m <> 0)
  (fuel : nat) :
  forall st w,
    (List.length (exchanges W (loop fuel st w))
     <= Z.to_nat (Z.max 1 (m - pages_retrieved st)))%nat.
Proof.
  induction fuel as [|fuel IH]; intros st w; [cbn; lia|].
  first_pass st w resp w1. cbn [after exchanges List.length].
  destruct resp as [msg| |body]; cbn [exchanges List.length]; try lia.
  destruct (process_page body _) as [e|[stop st'|st']] eqn:Hpage;
    cbn [exchanges List.length]; try lia.
  apply process_page_continue in Hpage as (_ & Hpages & Hbound).
  specialize (Hbound m Hm Hnz). specialize (IH st' w1).
  cbn [pages_retrieved set_endpoint] in Hpages. lia.
Qed.

(** A [max_pages] other than 0 bounds the requests of a call, for every
    strategy and every endpoint: at most [max_pages] of them (one, for a
    negative [max_pages]), however long the run is followed. *)
Theorem max_pages_bounds_requests (m : Z) (fuel : nat) (w : World W)
  (Hm : max_pages cfg = Some m) (Hnz : m <> 0) :
  (List.length (requests (get_paginated_data fuel w))
   <= Z.to_nat (Z.max 1 m))%nat.
Proof.
  unfold requests. rewrite length_map.
  pose proof (loop_max_pages m Hm Hnz fuel (initial_state cfg) w) as H.
  cbn [pages_retrieved initial_state] in H.
  now rewrite Z.sub_0_r in H.
Qed.

(** ** Requests outside the URL strategy *)

Lemma build_request_static (st : State) :
  String.eqb (pagination_type cfg) "url" = false ->
  fst (build_request st) = st_endpoint st
  /\ (forall k,
        k <> page_param cfg -> k <> offset_param cfg ->
        k <> "cursor" -> k <> size_param cfg ->
        dict_get (snd (build_request st)) k
        = dict_get (opt_dict (custom_params cfg)) k).
Proof.
  intros Hurl. unfold Client.build_request.
  rewrite Hurl, opt_dict_copy. cbn [andb].
  repeat match goal with
         | |- context [if ?b then _ else _] => destruct b
         end;
    (split; [reflexivity|]); intros k H1 H2 H3 H4; cbn [snd];
    repeat rewrite dict_get_set_other by congruence; reflexivity.
Qed.

Lemma loop_static (fuel : nat) :
  forall st w,
    String.eqb (pagination_type cfg) "url" = false ->
    Forall (fun req =>
              method req = "GET"
              /\ url req = Urllib.urljoin base_url (st_endpoint st)
              /\ (forall k,
                    k <> page_param cfg -> k <> offset_param cfg ->
                    k <> "cursor" -> k <> size_param cfg ->
                    dict_get (params req) k
                    = dict_get (opt_dict (custom_params cfg)) k))
           (requests (loop fuel st w)).
Proof.
  induction fuel as [|fuel IH]; intros st w Hurl; [constructor|].
  destruct (build_request_static st Hurl) as (Hep & Hstatic).
  first_pass st w resp w1. unfold requests.
  cbn [after exchanges map fst]. rewrite Hep in *.
  rewrite set_endpoint_same. constructor.
  { cbn [method url params]. auto. }
  destruct resp as [msg| |body]; cbn [exchanges map]; try constructor.
  destruct (process_page body st) as [e|[stop st'|st']] eqn:Hpage;
    cbn [exchanges map]; try constructor.
  apply process_page_continue in Hpage as (Hep' & _).
  rewrite <- Hep'. now apply IH.
Qed.

(** Outside the URL strategy every request of a call is a [GET] to the
    one URL [urljoin(base_url, endpoint)], and carries every static
    parameter of [custom_params] whose name is not one of the pagination
    names ([page_param], [offset_param], ["cursor"], [size_param]). *)
Theorem requests_keep_static_params (fuel : nat) (w : World W)
  (req : Request)
  (Hty : pagination_type cfg <> "url")
  (Hin : In req (requests (get_paginated_data fuel w))) :
  method req = "GET"
  /\ url req = Urllib.urljoin base_url (endpoint cfg)
  /\ (forall k,
        k <> page_param cfg -> k <> offset_param cfg ->
        k <> "cursor" -> k <> size_param cfg ->
        dict_get (params req) k
        = dict_get (opt_dict (custom_params cfg)) k).
Proof.
  apply String.eqb_neq in Hty.
  pose proof (loop_static fuel (initial_state cfg) w Hty) as Hall.
  rewrite Forall_forall in Hall. exact (Hall req Hin).
Qed.

(** ** The page strategy *)

Lemma process_page_page (data : json) (st st' : State) :
  pagination_type cfg = "page" ->
  process_page data st = inr (Continue st') ->
  page st' = page st + 1.
Proof.
  intros Hty H. unfold Client.process_page in H.
  destruct (extract_items (data_key cfg) data) as [e|items];
    [discriminate H|].
  cbn [bind] in H. destruct (truthy items); cbn [negb] in H;
    [|discriminate H].
  destruct (iterate items) as [e|elems]; [discriminate H|].
  cbn [bind] in H.
  destruct (record_total data (add_page elems st)) as [e|st1] eqn:Htot;
    [discriminate H|].
  apply record_total_frame in Htot as (_ & _ & _ & _ & Hpage & _).
  cbn [bind] in H. cbn in Hpage.
  destruct (_ && _); [discriminate H|].
  destruct (match stop_condition cfg with Some _ => _ | None => _ end);
    [discriminate H|].
  rewrite (prepare_next_page base_url cfg) in H by exact Hty.
  unfold bind, ret in H. split_matches H; finish_ctl H. cbn. lia.
Qed.

Lemma loop_page_requests (fuel : nat) :
  forall st w k req,
    pagination_type cfg = "page" ->
    st_endpoint st = endpoint cfg ->
    nth_error (requests (loop fuel st w)) k = Some req ->
    req = page_request base_url cfg (page st + Z.of_nat k).
Proof.
  induction fuel as [|fuel IH]; intros st w k req Hty Hep Hnth.
  { destruct k; discriminate. }
  first_pass st w resp w1. unfold requests in *.
  rewrite (build_request_page cfg st Hty) in *. cbn [fst snd] in *.
  rewrite set_endpoint_same in *. cbn [after exchanges map fst] in Hnth.
  destruct k as [|k]; cbn [nth_error] in Hnth.
  - injection Hnth as <-. unfold page_request.
    now rewrite Hep, Z.add_0_r.
  - destruct resp as [msg| |body]; cbn [exchanges map] in Hnth;
      try (destruct k; discriminate).
    destruct (process_page body st) as [e|[stop st'|st']] eqn:Hpage;
      cbn [exchanges map] in Hnth; try (destruct k; discriminate).
    pose proof (process_page_page _ _ _ Hty Hpage) as Hnext.
    apply process_page_continue in Hpage as (Hep' & _).
    rewrite (IH st' w1 k req Hty ltac:(congruence) Hnth).
    f_equal. lia.
Qed.

(** In the page strategy the requests count the pages up from
    [start_page]: request [k + 1] of a call carries
    [page_param = start_page + k] and [size_param = page_size], whatever
    the endpoint answers. *)
Theorem page_requests_count_up (fuel : nat) (w : World W) (k : nat)
  (req : Request)
  (Hty : pagination_type cfg = "page")
  (Hnth : nth_error (requests (get_paginated_data fuel w)) k = Some req) :
  req = page_request base_url cfg (start_page cfg + Z.of_nat k)
  /\ dict_get (params req) (size_param cfg) = Some (JNum (page_size cfg))
  /\ (page_param cfg <> size_param cfg ->
      dict_get (params req) (page_param cfg)
      = Some (JNum (start_page cfg + Z.of_nat k))).
Proof.
  assert (E : req = page_request base_url cfg (start_page cfg + Z.of_nat k)).
  { apply (loop_page_requests fuel (initial_state cfg) w k req Hty eq_refl)
      in Hnth.
    rewrite Hnth. cbn [page initial_state]. rewrite Hty. reflexivity. }
  split; [exact E|]. rewrite E. unfold page_request. cbn [params].
  split; [apply dict_get_set_same|]. intros Hne.
  rewrite dict_get_set_other by congruence. apply dict_get_set_same.
Qed.

(** ** Pages that end or break a run *)

(** The answer to the request of the pass that starts at [st] in [w]. *)
Abbreviation answer st w :=
  (snd (fst (_make_request "GET" (fst (build_request st))
               (snd (build_request st)) w))).

(** A page without items ends the call with success: when what the
    extraction finds is falsy (an empty list, but also a null, [0], [""]
    or an empty object under [data_key]), the call returns what it has
    collected and sends nothing more; an endpoint whose first page is
    empty gives the empty list after one request. *)
Theorem empty_page_ends_run (fuel : nat) (st : State) (w : World W)
  (data items : json)
  (Hanswer : answer st w = Body data)
  (Hitems : extract_items (data_key cfg) data = inr items)
  (Hfalsy : truthy items = false) :
  outcome W (loop (S fuel) st w) = Returned (all_data st) NoMoreItems
  /\ List.length (requests (loop (S fuel) st w)) = 1%nat
  /\ (answer (initial_state cfg) w = Body data ->
      outcome W (get_paginated_data (S fuel) w) = Returned [] NoMoreItems).
Proof.
  assert (E : forall st',
             answer st' w = Body data ->
             outcome W (loop (S fuel) st' w)
             = Returned (all_data st') NoMoreItems
             /\ List.length (requests (loop (S fuel) st' w)) = 1%nat).
  { intros st' Hans. unfold requests.
    rewrite (loop_S W session_request base_url cfg). cbv zeta.
    rewrite Hans.
    rewrite (process_page_empty base_url cfg _ _ _ Hitems Hfalsy).
    split; reflexivity. }
  destruct (E st Hanswer) as (Hout & Hlen).
  split; [exact Hout|]. split; [exact Hlen|].
  intros Hfirst. now destruct (E (initial_state cfg) Hfirst).
Qed.

(** A body that is a bare list cannot be read with a [total_key]: with
    no [data_key] and a truthy [total_key] (the default is ["total"]), a
    first page that is a non-empty list makes the call raise
    [AttributeError], from [data.get(total_key)], after that one
    request.  Without a [total_key] the page strategy reads the same
    body like any page. *)
Theorem list_body_needs_no_total_key (fuel : nat) (w : World W)
  (l : list json)
  (Hkey : opt_str_truthy (data_key cfg) = false)
  (Hsome : l <> [])
  (Hanswer : answer (initial_state cfg) w = Body (JList l)) :
  (opt_str_truthy (total_key cfg) = true ->
   outcome W (get_paginated_data (S fuel) w) = Raised AttributeError
   /\ List.length (requests (get_paginated_data (S fuel) w)) = 1%nat)
  /\ (opt_str_truthy (total_key cfg) = false ->
      pagination_type cfg = "page" ->
      opt_int_truthy (max_pages cfg) = false ->
      stop_condition cfg = None ->
      forall st,
        process_page (JList l) st
        = inr (if Z.of_nat (List.length l) <? page_size cfg
               then Break PartialPage (add_page l st)
               else Continue (set_page (page st + 1) (add_page l st)))).
Proof.
  assert (Hex : extract_items (data_key cfg) (JList l) = inr (JList l)).
  { unfold extract_items. destruct (data_key cfg) as [k|]; [|reflexivity].
    cbn in Hkey. now rewrite Hkey. }
  assert (Htr : truthy (JList l) = true)
    by (destruct l; [contradiction | reflexivity]).
  split.
  - intros Htotal. unfold Client.get_paginated_data, requests.
    rewrite (loop_S W session_request base_url cfg). cbv zeta.
    rewrite Hanswer.
    rewrite (process_page_items base_url cfg _ _ l _ Hex Htr eq_refl).
    unfold Client.record_total. cbn [total_items add_page set_endpoint
                                      initial_state is_none].
    rewrite Htotal. cbn [andb].
    destruct (total_key cfg) as [k|]; [|discriminate Htotal].
    split; reflexivity.
  - intros Htotal Hty Hmax Hstop st.
    rewrite (process_page_items base_url cfg _ _ l _ Hex Htr eq_refl).
    unfold Client.record_total. rewrite Htotal. cbn [andb bind ret].
    rewrite Hmax, Hstop. cbn [andb].
    rewrite (prepare_next_page base_url cfg) by exact Hty.
    cbn [len bind ret]. now destruct (_ <? _).
Qed.

(** ** A strategy that is none of the four *)

(** A [pagination_type] other than the four known ones is not refused:
    every request of the call is the same [GET] with the static
    parameters only, no pass changes the state of the pagination, and a
    page with items never ends the run by itself. *)
Theorem unknown_strategy_repeats_request (fuel : nat) (w : World W)
  (Hurl : pagination_type cfg <> "url")
  (Hpage : pagination_type cfg <> "page")
  (Hoffset : pagination_type cfg <> "offset")
  (Hcursor : pagination_type cfg <> "cursor") :
  (forall req,
      In req (requests (get_paginated_data fuel w)) ->
      req = {| method := "GET";
               url := Urllib.urljoin base_url (endpoint cfg);
               params := opt_dict (custom_params cfg) |})
  /\ (forall items data st, prepare_next items data st = inr (Continue st)).
Proof.
  apply String.eqb_neq in Hurl, Hpage, Hoffset, Hcursor.
  assert (Hbuild : forall st,
             build_request st = (st_endpoint st, opt_dict (custom_params cfg))).
  { intros st. unfold Client.build_request.
    now rewrite Hurl, Hpage, Hoffset, Hcursor, opt_dict_copy. }
  split.
  - assert (Hall : forall n st w',
               st_endpoint st = endpoint cfg ->
               forall req, In req (requests (loop n st w')) ->
                 req = {| method := "GET";
                          url := Urllib.urljoin base_url (endpoint cfg);
                          params := opt_dict (custom_params cfg) |}).
    { induction n as [|n IH]; intros st w' Hep req Hin; [destruct Hin|].
      first_pass st w' resp w1. unfold requests in *.
      rewrite Hbuild in *. cbn [fst snd] in *.
      rewrite set_endpoint_same in *.
      cbn [after exchanges map fst] in Hin.
      destruct Hin as [<- | Hin]; [now rewrite Hep|].
      destruct resp as [msg| |body]; cbn [exchanges map] in Hin;
        try destruct Hin.
      destruct (process_page body st) as [e|[stop st'|st']] eqn:Hp;
        cbn [exchanges map] in Hin; try destruct Hin.
      apply process_page_continue in Hp as (Hep' & _).
      apply (IH st' w1); [congruence | exact Hin]. }
    intros req Hin. exact (Hall fuel (initial_state cfg) w eq_refl req Hin).
  - intros items data st. unfold Client.prepare_next.
    now rewrite Hurl, Hcursor, Hpage, Hoffset.
Qed.

(** ** [max_pages] on full pages *)

Lemma page_run_to_limit (d : dict) (items : list json) (m : Z)
  (Hty : pagination_type cfg = "page")
  (Hmax : max_pages cfg = Some m)
  (Hstop : stop_condition cfg = None)
  (Hitems : extract_items (data_key cfg) (JDict d) = inr (JList items))
  (Hsome : items <> [])
  (Hfull : page_size cfg <= Z.of_nat (List.length items))
  (Hsend : forall req n, fst (session_request req n) = Body (JDict d))
  (j : nat) :
  forall fuel st w,
    (j < fuel)%nat ->
    pages_retrieved st + Z.of_nat j + 1 = m ->
    0 <= pages_retrieved st ->
    outcome W (loop fuel st w)
    = Returned (all_data st ++ concat (repeat items (S j))) MaxPagesReached
    /\ List.length (requests (loop fuel st w)) = S j.
Proof.
  assert (Htr : truthy (JList items) = true)
    by (destruct items; [contradiction | reflexivity]).
  assert (Hans : forall st w, answer st w = Body (JDict d)).
  { intros st w. unfold Client._make_request.
    destruct (RateLimiter.wait_if_needed _ _) as [rl clk].
    specialize (Hsend {| method := "GET";
                         url := Urllib.urljoin base_url (fst (build_request st));
                         params := snd (build_request st) |} (net W w)).
    destruct (session_request _ _) as [resp n]. exact Hsend. }
  induction j as [|j IH]; intros fuel st w Hfuel Hpages Hnonneg;
    (destruct fuel as [|fuel]; [lia|]);
    unfold requests;
    rewrite (loop_S W session_request base_url cfg); cbv zeta;
    rewrite Hans;
    destruct (record_total_object cfg d
                (add_page items (set_endpoint (fst (build_request st)) st)))
      as (st1 & Hrec);
    pose proof (record_total_frame cfg _ _ _ Hrec)
      as (Hall & Hcount & _);
    cbn in Hall, Hcount.
  - rewrite (max_pages_stops base_url cfg _ _ items _ st1 m Hmax
               ltac:(lia) Hitems Htr eq_refl Hrec)
      by (cbn [pages_retrieved set_endpoint]; lia).
    cbn [after outcome exchanges map List.length repeat concat].
    rewrite Hall, app_nil_r. split; reflexivity.
  - rewrite (process_page_items base_url cfg _ _ items _ Hitems Htr eq_refl).
    rewrite Hrec. cbn [bind]. rewrite Hmax, Hstop. cbn [opt_int_truthy].
    assert (Hz : (m =? 0) = false) by (apply Z.eqb_neq; lia).
    assert (Hnot : (m <=? pages_retrieved st1) = false)
      by (apply Z.leb_gt; lia).
    rewrite Hz, Hnot. cbn [negb andb].
    rewrite (prepare_next_page base_url cfg) by exact Hty.
    cbn [len bind ret]. apply Z.ltb_ge in Hfull. rewrite Hfull.
    unfold ret. cbn [after outcome exchanges map List.length].
    destruct (IH fuel (set_page (page st1 + 1) st1)
                (snd (_make_request "GET" (fst (build_request st))
                        (snd (build_request st)) w)))
      as (Hout & Hlen); try (cbn [pages_retrieved set_page]; lia).
    unfold requests in Hlen. rewrite Hout, Hlen.
    cbn [all_data set_page]. rewrite Hall.
    cbn [repeat concat]. rewrite <- app_assoc. split; reflexivity.
Qed.

(** An endpoint that always answers with the same full page is read
    [max_pages] times when [max_pages] is positive: the call sends
    exactly [max_pages] requests and returns [max_pages] copies of the
    page, one after the other. *)
Theorem page_run_stops_at_max_pages (d : dict) (items : list json) (m : Z)
  (fuel : nat) (w : World W)
  (Hty : pagination_type cfg = "page")
  (Hmax : max_pages cfg = Some m)
  (Hpos : 0 < m)
  (Hstop : stop_condition cfg = None)
  (Hitems : extract_items (data_key cfg) (JDict d) = inr (JList items))
  (Hsome : items <> [])
  (Hfull : page_size cfg <= Z.of_nat (List.length items))
  (Hsend : forall req n, fst (session_request req n) = Body (JDict d))
  (Hfuel : (Z.to_nat m <= fuel)%nat) :
  outcome W (get_paginated_data fuel w)
  = Returned (concat (repeat items (Z.to_nat m))) MaxPagesReached
  /\ List.length (requests (get_paginated_data fuel w)) = Z.to_nat m
  /\ List.length (concat (repeat items (Z.to_nat m)))
     = (Z.to_nat m * List.length items)%nat.
Proof.
  destruct (page_run_to_limit d items m Hty Hmax Hstop Hitems Hsome Hfull
              Hsend (Z.to_nat m - 1) fuel (initial_state cfg) w)
    as (Hout & Hlen); try (cbn [pages_retrieved initial_state]; lia).
  replace (S (Z.to_nat m - 1)) with (Z.to_nat m) in * by lia.
  split; [exact Hout|]. split; [exact Hlen|].
  generalize (Z.to_nat m) as n. induction n as [|n IHn]; [reflexivity|].
  cbn [repeat concat]. rewrite length_app, IHn. lia.
Qed.

(** ** Static parameters against a next-URL *)

Lemma dict_get_update (e : dict) :
  forall d k,
    NoDup (map fst e) ->
    dict_get (dict_update d e) k
    = match dict_get e k with
      | Some v => Some v
      | None => dict_get d k
      end.
Proof.
  unfold dict_update.
  induction e as [|[k0 v0] e IH]; intros d k Hnodup; [reflexivity|].
  cbn [fold_left fst snd map] in *. inversion Hnodup as [|? ? Hnotin Hrest].
  subst. rewrite IH by exact Hrest. cbn [dict_get].
  destruct (String.eqb k0 k) eqn:E.
  - apply String.eqb_eq in E. subst k0.
    assert (Hnone : dict_get e k = None).
    { clear -Hnotin. induction e as [|[k1 v1] e IH]; [reflexivity|].
      cbn [dict_get]. destruct (String.eqb k1 k) eqn:E1.
      - apply String.eqb_eq in E1. subst. exfalso. apply Hnotin. now left.
      - apply IH. intros Hin. apply Hnotin. now right. }
    rewrite Hnone. apply dict_get_set_same.
  - apply String.eqb_neq in E.
    destruct (dict_get e k); [reflexivity|].
    now apply dict_get_set_other.
Qed.

(** In the URL strategy, once a next-URL is stored, the static
    parameters win over the parameters of its query string: a name given
    in [custom_params] has the caller's value in the request, and any
    other name has the value the next-URL gives it, if any. *)
Theorem custom_params_override_next_url (st : State) (nu : string)
  (k : string)
  (Hty : pagination_type cfg = "url")
  (Hnu : next_url st = Some nu)
  (Htruthy : str_truthy nu = true)
  (Hnodup : NoDup (map fst (opt_dict (custom_params cfg)))) :
  dict_get (snd (build_request st)) k
  = match dict_get (opt_dict (custom_params cfg)) k with
    | Some v => Some v
    | None =>
        dict_get
          (single_values
             (Urllib.parse_qs (Urllib.query (Urllib.urlparse nu)))) k
    end.
Proof.
  rewrite (build_request_follow cfg st nu Hty Hnu Htruthy). cbn [snd].
  now apply dict_get_update.
Qed.

End Run.

End RunFacts.

(* ================================================================== *)
(** * The offset strategy on a total that is a multiple of the page *)
(* ================================================================== *)

Module OffsetExactFacts.
Import Py Client EngineFacts.
Local Open Scope list_scope.

Section Exact.

Context {U : Urllib.Api}.
Variable W : Type.
Variable session_request : Request -> W -> Response * W.
Variable base_url : string.
Variable cfg : Config.
Variable db : list json.

Hypothesis Hty : pagination_type cfg = "offset".
Hypothesis Hmax : max_pages cfg = None.
Hypothesis Hstop : stop_condition cfg = None.
Hypothesis Hsize : 0 < page_size cfg.
Hypothesis Hnames : offset_param cfg <> size_param cfg.
Hypothesis Hserve : serves_by_offset W session_request cfg db.
Hypothesis Hsome : db <> [].
Hypothesis Hexact : Z.of_nat (List.length db) mod page_size cfg = 0.

Abbreviation loop := (Client.loop W session_request base_url cfg).
Abbreviation process_page := (Client.process_page base_url cfg).
Abbreviation size := (Z.to_nat (page_size cfg)).
Abbreviation total := (List.length db).
Abbreviation slice o := (firstn size (skipn o db)).
Abbreviation request o := (offset_request base_url cfg (Z.of_nat o)).

Lemma exact_pages :
  (0 < size)%nat /\ (0 < total / size)%nat
  /\ total = (total / size * size)%nat.
Proof.
  assert (Hpos : (0 < size)%nat) by lia.
  assert (Htotal : (0 < total)%nat) by (destruct db; [contradiction | cbn; lia]).
  assert (Hmod : (total mod size = 0)%nat).
  { apply Nat2Z.inj. rewrite Nat2Z.inj_mod, Z2Nat.id by lia. exact Hexact. }
  pose proof (Nat.div_mod_eq total size) as Hdiv.
  split; [exact Hpos|]. split; nia.
Qed.

(** The last page, full, when the total is not known: the run goes on
    to offset [total]. *)
Lemma last_page_unknown (body : json) (st : State) (o : nat) :
  opt_str_truthy (total_key cfg) = false ->
  total_items st = JNull ->
  offset st = Z.of_nat o ->
  all_data st = firstn o db ->
  extract_items (data_key cfg) body = inr (JList (slice o)) ->
  (o + size <= total)%nat ->
  exists st',
    process_page body st = inr (Continue st')
    /\ offset st' = Z.of_nat (o + size)
    /\ all_data st' = firstn (o + size) db
    /\ st_endpoint st' = st_endpoint st
    /\ total_items st' = JNull.
Proof.
  intros Hkey Hnull Hoff Hall Hex Hle.
  destruct exact_pages as (Hpos & _).
  assert (Hlen : List.length (slice o) = size)
    by (rewrite length_firstn, length_skipn; lia).
  assert (Htr : truthy (JList (slice o)) = true).
  { destruct (slice o); [cbn in Hlen; lia | reflexivity]. }
  rewrite (process_page_items base_url cfg _ _ (slice o) st Hex Htr eq_refl).
  unfold Client.record_total. rewrite Hkey. cbn [andb bind ret].
  rewrite Hmax, Hstop. cbn [opt_int_truthy andb].
  rewrite (prepare_next_offset_full base_url cfg (JList (slice o)) body _
             (Z.of_nat (List.length (slice o))) Hty eq_refl) by lia.
  cbv zeta. cbn [total_items add_page]. rewrite Hnull.
  eexists. split; [reflexivity|]. cbn.
  rewrite Hoff, Hall, Hlen, firstn_then_slice, Hnull.
  repeat split. lia.
Qed.

(** The last page, full, when the total is known: the run stops. *)
Lemma last_page_known (body : json) (st : State) (o : nat) :
  opt_str_truthy (total_key cfg) = true ->
  get_key body (total_key cfg) = inr (JNum (Z.of_nat total)) ->
  total_items st = JNull \/ total_items st = JNum (Z.of_nat total) ->
  offset st = Z.of_nat o ->
  all_data st = firstn o db ->
  extract_items (data_key cfg) body = inr (JList (slice o)) ->
  (o + size = total)%nat ->
  exists st',
    process_page body st = inr (Break AllItemsRetrieved st')
    /\ all_data st' = db.
Proof.
  intros Hkey Hreport Hknown Hoff Hall Hex Hlast.
  destruct exact_pages as (Hpos & _).
  assert (Hlen : List.length (slice o) = size)
    by (rewrite length_firstn, length_skipn; lia).
  assert (Htr : truthy (JList (slice o)) = true).
  { destruct (slice o); [cbn in Hlen; lia | reflexivity]. }
  rewrite (process_page_items base_url cfg _ _ (slice o) st Hex Htr eq_refl).
  assert (Hrec : exists st1,
             Client.record_total cfg body (add_page (slice o) st) = inr st1
             /\ total_items st1 = JNum (Z.of_nat total)
             /\ all_data st1 = all_data st ++ slice o
             /\ offset st1 = offset st).
  { unfold Client.record_total. rewrite Hkey. cbn [andb total_items add_page].
    destruct Hknown as [Hk | Hk]; rewrite Hk; cbn [is_none].
    - rewrite Hreport. cbn [bind ret]. eexists. repeat split.
    - eexists. repeat split. exact Hk. }
  destruct Hrec as (st1 & Hrec & Htot & Hall1 & Hoff1).
  rewrite Hrec. cbn [bind]. rewrite Hmax, Hstop. cbn [opt_int_truthy andb].
  rewrite (prepare_next_offset_full base_url cfg (JList (slice o)) body st1
             (Z.of_nat (List.length (slice o))) Hty eq_refl) by lia.
  cbv zeta. rewrite Htot.
  assert (Hnz : (Z.of_nat total =? 0) = false) by (apply Z.eqb_neq; lia).
  assert (Hreached : (Z.of_nat total
                      <=? offset st1 + Z.of_nat (List.length (slice o)))
                     = true) by (apply Z.leb_le; lia).
  rewrite Hnz, Hreached. cbn [negb andb].
  eexists. split; [reflexivity|]. cbn.
  rewrite Hall1, Hall, firstn_then_slice, Hlast. apply firstn_all.
Qed.

Lemma request_reads (o : nat) :
  dict_get (params (request o)) (offset_param cfg) = Some (JNum (Z.of_nat o))
  /\ dict_get (params (request o)) (size_param cfg)
     = Some (JNum (page_size cfg)).
Proof.
  unfold offset_request. cbn [params]. split.
  - rewrite dict_get_set_other by congruence. apply dict_get_set_same.
  - apply dict_get_set_same.
Qed.

(** No total known: every page is full, so the run only ends on the
    empty page it finds at offset [total]. *)
Lemma exact_run_unknown (Hkey : opt_str_truthy (total_key cfg) = false)
  (m : nat) :
  forall fuel k st w,
    (S m < fuel)%nat ->
    (k + m + 1 = total / size)%nat ->
    offset st = Z.of_nat (k * size) ->
    all_data st = firstn (k * size) db ->
    st_endpoint st = endpoint cfg ->
    total_items st = JNull ->
    outcome W (loop fuel st w) = Returned db NoMoreItems
    /\ requests (loop fuel st w)
       = map (fun j => request (j * size)) (seq k (S (S m))).
Proof.
  destruct exact_pages as (Hpos & Hq & Htotal).
  induction m as [|m IH]; intros fuel k st w Hfuel Hk Hoff Hall Hep Hnull;
    (destruct fuel as [|fuel]; [lia|]);
    destruct (offset_pass_sent W session_request base_url cfg db Hty Hnames
                Hserve st w (k * size) Hoff Hep)
      as (body & w1 & Hsent & Hex & _);
    rewrite (loop_S W session_request base_url cfg); cbv zeta;
    rewrite Hsent; cbn [fst snd];
    rewrite (build_request_offset cfg st Hty); cbn [fst];
    rewrite set_endpoint_same;
    destruct (last_page_unknown body st (k * size) Hkey Hnull Hoff Hall Hex
                ltac:(nia))
      as (st' & Hpage & Hoff' & Hall' & Hep' & Hnull');
    rewrite Hpage;
    replace (k * size + size)%nat with (S k * size)%nat in * by lia.
  - (* the pass at offset [total] finds nothing *)
    destruct fuel as [|fuel]; [lia|].
    destruct (offset_pass_sent W session_request base_url cfg db Hty Hnames
                Hserve st' w1 (S k * size) Hoff' ltac:(congruence))
      as (body2 & w2 & Hsent2 & Hex2 & _).
    rewrite (loop_S W session_request base_url cfg). cbv zeta.
    rewrite Hsent2. cbn [fst snd].
    rewrite (build_request_offset cfg st' Hty). cbn [fst].
    rewrite set_endpoint_same.
    assert (Hempty : slice (S k * size) = []).
    { rewrite skipn_all2 by lia. apply firstn_nil. }
    rewrite Hempty in Hex2.
    rewrite (process_page_empty base_url cfg _ _ st' Hex2 eq_refl).
    unfold requests. cbn [after outcome exchanges map fst seq].
    rewrite Hall'. split; [|reflexivity].
    f_equal. rewrite firstn_all2 by lia. reflexivity.
  - destruct (IH fuel (S k) st' w1) as (Hout & Hreqs); try assumption;
      try lia; try congruence.
    unfold requests in *. cbn [after outcome exchanges map fst].
    split; [exact Hout|]. rewrite Hreqs. reflexivity.
Qed.

Lemma sent_answer (endpoint : string) (ps : dict) (w w1 : World W)
  (req : Request) (resp : Response) :
  Client._make_request W session_request base_url "GET" endpoint ps w
  = (req, resp, w1) ->
  exists r n n', session_request r n = (resp, n').
Proof.
  unfold Client._make_request.
  destruct (RateLimiter.wait_if_needed _ _) as [rl clk].
  destruct (session_request _ _) as [resp' n'] eqn:Hsr.
  intros H. injection H as _ <- _. eauto.
Qed.

(** The total known from every page: the run stops on the last page. *)
Lemma exact_run_known (Hkey : opt_str_truthy (total_key cfg) = true)
  (Hreport : forall req n body n',
      session_request req n = (Body body, n') ->
      get_key body (total_key cfg) = inr (JNum (Z.of_nat total)))
  (m : nat) :
  forall fuel k st w,
    (m < fuel)%nat ->
    (k + m + 1 = total / size)%nat ->
    offset st = Z.of_nat (k * size) ->
    all_data st = firstn (k * size) db ->
    st_endpoint st = endpoint cfg ->
    total_items st = JNull \/ total_items st = JNum (Z.of_nat total) ->
    outcome W (loop fuel st w) = Returned db AllItemsRetrieved
    /\ requests (loop fuel st w)
       = map (fun j => request (j * size)) (seq k (S m)).
Proof.
  destruct exact_pages as (Hpos & Hq & Htotal).
  induction m as [|m IH]; intros fuel k st w Hfuel Hk Hoff Hall Hep Hknown;
    (destruct fuel as [|fuel]; [lia|]);
    destruct (offset_pass_sent W session_request base_url cfg db Hty Hnames
                Hserve st w (k * size) Hoff Hep)
      as (body & w1 & Hsent & Hex & Htot);
    destruct (sent_answer _ _ _ _ _ _ Hsent) as (r0 & n0 & n0' & Hsr);
    pose proof (Hreport _ _ _ _ Hsr) as Hbody;
    rewrite (loop_S W session_request base_url cfg); cbv zeta;
    rewrite Hsent; cbn [fst snd];
    rewrite (build_request_offset cfg st Hty); cbn [fst];
    rewrite set_endpoint_same.
  - destruct (last_page_known body st (k * size) Hkey Hbody Hknown Hoff Hall
                Hex ltac:(nia)) as (st' & Hpage & Hdb).
    rewrite Hpage. unfold requests. cbn. now rewrite Hdb.
  - destruct (offset_pass_page base_url cfg db Hty Hmax Hstop Hsize body st
                (k * size) Hoff Hall Hknown Hex Htot ltac:(nia))
      as (_ & Hmore).
    destruct Hmore as (st' & Hpage & Hoff' & Hall' & Hep' & Hknown');
      [nia|].
    rewrite Hpage.
    replace (k * size + size)%nat with (S k * size)%nat in * by lia.
    destruct (IH fuel (S k) st' w1) as (Hout & Hreqs); try assumption;
      try lia; try congruence.
    unfold requests in *. cbn [after outcome exchanges map fst].
    split; [exact Hout|]. rewrite Hreqs. reflexivity.
Qed.

(** When the number of items is a positive multiple of [page_size], the
    offset strategy still returns exactly the items of the endpoint, but
    what it costs depends on the total.  With no [total_key] every page
    is full and nothing tells the last one: the call sends one request
    more than there are pages, [total / page_size + 1], and ends on the
    empty page it gets at offset [total].  When every body gives the
    total under [total_key], the call stops on the last page, after
    [total / page_size] requests. *)
Theorem offset_run_exact_multiple (fuel : nat) (w : World W) :
  let pages := Z.to_nat (Z.of_nat (List.length db) / page_size cfg) in
  (opt_str_truthy (total_key cfg) = false ->
   (S pages <= fuel)%nat ->
   outcome W (get_paginated_data W session_request base_url cfg fuel w)
   = Returned db NoMoreItems
   /\ requests (get_paginated_data W session_request base_url cfg fuel w)
      = map (fun j => offset_request base_url cfg
                        (Z.of_nat j * page_size cfg))
            (seq 0 (S pages)))
  /\ (opt_str_truthy (total_key cfg) = true ->
      (forall req n body n',
          session_request req n = (Body body, n') ->
          get_key body (total_key cfg)
          = inr (JNum (Z.of_nat (List.length db)))) ->
      (pages <= fuel)%nat ->
      outcome W (get_paginated_data W session_request base_url cfg fuel w)
      = Returned db AllItemsRetrieved
      /\ requests (get_paginated_data W session_request base_url cfg fuel w)
         = map (fun j => offset_request base_url cfg
                           (Z.of_nat j * page_size cfg))
               (seq 0 pages)).
Proof.
  intros pages.
  destruct exact_pages as (Hpos & Hq & Htotal).
  assert (Hpages : pages = (total / size)%nat).
  { unfold pages. rewrite Z2Nat.inj_div by lia. now rewrite Nat2Z.id. }
  assert (Hmap : forall n,
             map (fun j => request (j * size)) (seq 0 n)
             = map (fun j => offset_request base_url cfg
                               (Z.of_nat j * page_size cfg)) (seq 0 n)).
  { intros n. apply map_ext. intros j.
    now rewrite Nat2Z.inj_mul, Z2Nat.id by lia. }
  split.
  - intros Hkey Hfuel.
    destruct (exact_run_unknown Hkey (total / size - 1) fuel 0
                (initial_state cfg) w) as (Hout & Hreqs);
      try reflexivity; try lia.
    replace (S (total / size - 1)) with (total / size)%nat in Hreqs by lia.
    unfold Client.get_paginated_data.
    rewrite Hout, Hreqs, Hmap, Hpages. split; reflexivity.
  - intros Hkey Hreport Hfuel.
    destruct (exact_run_known Hkey Hreport (total / size - 1) fuel 0
                (initial_state cfg) w) as (Hout & Hreqs);
      try reflexivity; try lia.
    { left. reflexivity. }
    replace (S (total / size - 1)) with (total / size)%nat in Hreqs by lia.
    unfold Client.get_paginated_data.
    rewrite Hout, Hreqs, Hmap, Hpages. split; reflexivity.
Qed.

End Exact.

End OffsetExactFacts.

(* ================================================================== *)
(** * The rate limiter inside a call *)
(* ================================================================== *)

Module RateFacts.
Import Py Client EngineFacts.
Import RateLimiter RateLimiterFacts.
Import PrimFloat FloatFacts.
Local Open Scope float_scope.
Local Open Scope list_scope.




Section Run.

Context {U : Urllib.Api}.
Variable W : Type.
Variable session_request : Request -> W -> Response * W.
Variable base_url : string.
Variable cfg : Config.

Abbreviation loop := (Client.loop W session_request base_url cfg).




End Run.

End RateFacts.

(* ================================================================== *)
(** * Facts about [get_paginated_data_by_url] *)
(* ================================================================== *)

Module ByUrlFacts.
Import Py Client EngineFacts.
Local Open Scope list_scope.

Section ByUrl.

Context {U : Urllib.Api}.
Variable W : Type.
Variable session_request : Request -> W -> Response * W.
Variable base_url : string.
Variable data_key : option string.
Variable next_page_key : option string.
Variable max_pages : option Z.
Variable stop_condition : option (json -> bool).

Abbreviation by_url_loop :=
  (Client.by_url_loop W session_request base_url data_key next_page_key
     max_pages stop_condition).
Abbreviation by_url_page :=
  (Client.by_url_page base_url data_key next_page_key stop_condition).
Abbreviation limit_open := (Client.url_limit_open max_pages).
Abbreviation get_paginated_data_by_url :=
  (Client.get_paginated_data_by_url W session_request base_url data_key
     next_page_key max_pages stop_condition).
Abbreviation sent s w :=
  (_make_request W session_request base_url "GET"
     (fst (by_url_request s)) (snd (by_url_request s)) w).

(** The loop, by cases on its condition. *)
Lemma by_url_loop_done (fuel : nat) (st : UrlState) (w : World W) :
  truthy (current_url st) = false ->
  by_url_loop fuel st w
  = {| url_outcome := UrlReturned (url_all_data st) NoNextUrl;
       url_exchanges := []; url_world := w |}.
Proof. intros H. destruct fuel; cbn; now rewrite H. Qed.

Lemma by_url_loop_limit (fuel : nat) (st : UrlState) (w : World W) :
  truthy (current_url st) = true -> limit_open st = false ->
  by_url_loop fuel st w
  = {| url_outcome := UrlReturned (url_all_data st) PageLimit;
       url_exchanges := []; url_world := w |}.
Proof. intros H1 H2. destruct fuel; cbn; now rewrite H1, H2. Qed.

Lemma by_url_loop_pass (fuel : nat) (st : UrlState) (w : World W)
  (s : string) :
  current_url st = JStr s -> str_truthy s = true ->
  limit_open st = true ->
  by_url_loop (S fuel) st w =
    url_after W (fst (sent s w))
      match snd (fst (sent s w)) with
      | RequestFailed msg =>
          {| url_outcome := UrlRaised (RequestException msg);
             url_exchanges := []; url_world := snd (sent s w) |}
      | BodyNotJson =>
          {| url_outcome := UrlRaised ValueError;
             url_exchanges := []; url_world := snd (sent s w) |}
      | Body data =>
          match by_url_page data st with
          | inl e =>
              {| url_outcome := UrlRaised e; url_exchanges := [];
                 url_world := snd (sent s w) |}
          | inr (UrlBreak why st') =>
              {| url_outcome := UrlReturned (url_all_data st') why;
                 url_exchanges := []; url_world := snd (sent s w) |}
          | inr (UrlContinue st') => by_url_loop fuel st' (snd (sent s w))
          end
      end.
Proof.
  intros Hcur Htr Hopen. cbn [Client.by_url_loop].
  rewrite Hcur. cbn [truthy]. rewrite Htr, Hopen. cbn [negb].
  destruct (by_url_request s) as [endpoint params]. cbn [fst snd].
  destruct (_make_request W session_request base_url "GET" endpoint params w)
    as [[req resp] w1].
  reflexivity.
Qed.

(** A pass of the body: the page is appended and counted. *)
Lemma by_url_page_result (data : json) (st : UrlState) (c : UrlCtl) :
  by_url_page data st = inr c ->
  match c with
  | UrlBreak NoItems st' => st' = st /\ page_elems data_key (Body data) = []
  | UrlBreak _ st' | UrlContinue st' =>
      url_all_data st'
      = url_all_data st ++ page_elems data_key (Body data)
      /\ url_pages_retrieved st' = url_pages_retrieved st + 1
  end.
Proof.
  unfold Client.by_url_page, page_elems, bind, ret. intros H.
  destruct (extract_items data_key data) as [e|items]; [discriminate H|].
  destruct (truthy items); cbn [negb] in H.
  2:{ injection H as <-. split; reflexivity. }
  destruct (iterate items) as [e|elems]; [discriminate H|].
  split_matches H; try discriminate H; injection H as <-; cbn; auto.
Qed.

Lemma by_url_returned (fuel : nat) :
  forall st w data why,
    url_outcome W (by_url_loop fuel st w) = UrlReturned data why ->
    data = url_all_data st
           ++ flat_map (page_elems data_key)
                (map snd (url_exchanges W (by_url_loop fuel st w))).
Proof.
  induction fuel as [|fuel IH]; intros st w data why Hret.
  - cbn in *. destruct (truthy (current_url st));
      [destruct (limit_open st)|]; cbn in *; try discriminate;
      injection Hret as <- _; now rewrite app_nil_r.
  - destruct (truthy (current_url st)) eqn:Htr.
    2:{ rewrite by_url_loop_done in * by exact Htr. cbn in *.
        injection Hret as <- _. now rewrite app_nil_r. }
    destruct (limit_open st) eqn:Hopen.
    2:{ rewrite by_url_loop_limit in * by assumption. cbn in *.
        injection Hret as <- _. now rewrite app_nil_r. }
    destruct (current_url st) as [| | |s| |] eqn:Hcur;
      try (cbn in Hret; rewrite Hcur, ?Htr, ?Hopen in Hret; cbn in Hret;
           rewrite ?Htr in Hret; cbn in Hret; discriminate).
    cbn [truthy] in Htr.
    rewrite (by_url_loop_pass fuel st w s Hcur Htr Hopen) in *.
    destruct (sent s w) as [[req resp] w1]. cbn [fst snd] in *.
    cbn [url_after url_outcome url_exchanges map snd flat_map] in *.
    destruct resp as [msg| |body]; try discriminate.
    destruct (by_url_page body st) as [e|[stop st'|st']] eqn:Hpage;
      try discriminate.
    + cbn in Hret. injection Hret as <- <-.
      apply by_url_page_result in Hpage. cbn [url_exchanges map flat_map].
      destruct stop; destruct Hpage as (H1 & H2).
      * now rewrite app_nil_r.
      * now rewrite app_nil_r.
      * subst st'. now rewrite H2, !app_nil_r.
      * now rewrite app_nil_r.
    + apply by_url_page_result in Hpage as (Hall & _).
      rewrite (IH _ _ _ _ Hret), Hall. now rewrite <- app_assoc.
Qed.

(** Whatever [get_paginated_data_by_url] returns is the concatenation,
    in the order of the requests, of the items extracted from the pages
    it fetched. *)
Theorem by_url_returned_is_concatenation (start_url : string)
  (fuel : nat) (w : World W) (data : list json) (why : UrlStop)
  (Hret : url_outcome W (get_paginated_data_by_url start_url fuel w)
          = UrlReturned data why) :
  data = flat_map (page_elems data_key)
           (map snd (url_exchanges W
                       (get_paginated_data_by_url start_url fuel w))).
Proof.
  unfold Client.get_paginated_data_by_url in *.
  now apply by_url_returned in Hret.
Qed.

Lemma by_url_loop_bound (m : Z) (Hm : max_pages = Some m) (fuel : nat) :
  forall st w,
    (List.length (url_exchanges W (by_url_loop fuel st w))
     <= Z.to_nat (m - url_pages_retrieved st))%nat.
Proof.
  induction fuel as [|fuel IH]; intros st w.
  - cbn. destruct (truthy (current_url st));
      [destruct (limit_open st)|]; cbn; lia.
  - destruct (truthy (current_url st)) eqn:Htr.
    2:{ rewrite by_url_loop_done by exact Htr. cbn. lia. }
    destruct (limit_open st) eqn:Hopen.
    2:{ rewrite by_url_loop_limit by assumption. cbn. lia. }
    assert (Hlt : url_pages_retrieved st < m).
    { unfold Client.url_limit_open in Hopen. rewrite Hm in Hopen.
      now apply Z.ltb_lt. }
    destruct (current_url st) as [| | |s| |] eqn:Hcur;
      try (cbn; rewrite Hcur, ?Htr, ?Hopen; cbn; rewrite ?Htr; cbn; lia).
    cbn [truthy] in Htr.
    rewrite (by_url_loop_pass fuel st w s Hcur Htr Hopen).
    destruct (sent s w) as [[req resp] w1]. cbn [fst snd].
    cbn [url_after url_exchanges List.length].
    destruct resp as [msg| |body]; cbn [url_exchanges List.length]; try lia.
    destruct (by_url_page body st) as [e|[stop st'|st']] eqn:Hpage;
      cbn [url_exchanges List.length]; try lia.
    apply by_url_page_result in Hpage as (_ & Hcount).
    specialize (IH st' w1). lia.
Qed.

(** [max_pages] is a hard limit on the requests of
    [get_paginated_data_by_url], for every endpoint: never more than
    [max_pages] of them, and with [max_pages <= 0] none at all, the
    empty list being returned at once. *)
Theorem by_url_max_pages_bounds_requests (m : Z) (start_url : string)
  (fuel : nat) (w : World W)
  (Hm : max_pages = Some m) :
  (List.length (url_exchanges W (get_paginated_data_by_url start_url fuel w))
   <= Z.to_nat m)%nat
  /\ (m <= 0 ->
      url_exchanges W (get_paginated_data_by_url start_url fuel w) = []
      /\ exists why,
          url_outcome W (get_paginated_data_by_url start_url fuel w)
          = UrlReturned [] why).
Proof.
  unfold Client.get_paginated_data_by_url.
  pose proof (by_url_loop_bound m Hm fuel
                {| url_all_data := []; current_url := JStr start_url;
                   url_pages_retrieved := 0 |} w) as Hbound.
  cbn [url_pages_retrieved] in Hbound. rewrite Z.sub_0_r in Hbound.
  split; [exact Hbound|]. intros Hle.
  destruct (str_truthy start_url) eqn:Htr.
  - rewrite by_url_loop_limit.
    + split; [reflexivity | eexists; reflexivity].
    + exact Htr.
    + unfold Client.url_limit_open. rewrite Hm. cbn. apply Z.ltb_ge. lia.
  - rewrite by_url_loop_done by exact Htr.
    split; [reflexivity | eexists; reflexivity].
Qed.

(** The end of the links.  A page whose body is an object with nothing
    truthy under [next_page_key] (no such key, or a null) is the last
    one: its items are kept and the call returns without another
    request.  A page whose body is a bare list cannot be followed at
    all: unless [stop_condition] ends the call there, it raises
    [AttributeError] from [data.get(next_page_key)]. *)
Theorem by_url_last_page (fuel : nat) (st : UrlState) (w : World W)
  (s : string) (data items : json) (elems : list json)
  (Hcur : current_url st = JStr s) (Htr : str_truthy s = true)
  (Hopen : limit_open st = true)
  (Hanswer : snd (fst (sent s w)) = Body data)
  (Hitems : extract_items data_key data = inr items)
  (Hsome : truthy items = true)
  (Helems : iterate items = inr elems)
  (Hstop : match stop_condition with
           | Some f => f data
           | None => false
           end = false) :
  (forall d v,
      data = JDict d -> get_key data next_page_key = inr v ->
      truthy v = false ->
      url_outcome W (by_url_loop (S fuel) st w)
      = UrlReturned (url_all_data st ++ elems) NoNextUrl
      /\ List.length (url_exchanges W (by_url_loop (S fuel) st w)) = 1%nat)
  /\ (forall l,
        data = JList l ->
        url_outcome W (by_url_loop (S fuel) st w) = UrlRaised AttributeError).
Proof.
  rewrite (by_url_loop_pass fuel st w s Hcur Htr Hopen), Hanswer.
  cbn [url_after url_outcome url_exchanges].
  assert (Hpage : forall next,
             by_url_next base_url data next_page_key = next ->
             by_url_page data st
             = match next with
               | inl e => inl e
               | inr v =>
                   inr (UrlContinue
                          {| url_all_data := url_all_data st ++ elems;
                             current_url := v;
                             url_pages_retrieved
                             := url_pages_retrieved st + 1 |})
               end).
  { intros next <-. unfold Client.by_url_page.
    rewrite Hitems. cbn [bind]. rewrite Hsome. cbn [negb].
    rewrite Helems. cbn [bind]. rewrite Hstop.
    now destruct (by_url_next base_url data next_page_key). }
  split.
  - intros d v -> Hget Hfalsy.
    rewrite (Hpage (inr v)).
    2:{ unfold by_url_next. rewrite Hget. cbn [bind]. now rewrite Hfalsy. }
    rewrite by_url_loop_done by exact Hfalsy. split; reflexivity.
  - intros l ->. rewrite (Hpage (inl AttributeError)); [reflexivity|].
    unfold by_url_next, get_key. now destruct next_page_key.
Qed.

End ByUrl.

End ByUrlFacts.

(* ================================================================== *)
(** * Facts about the constructors *)
(* ================================================================== *)

Module InitFacts.
Import Py Client.
Import PrimFloat.
Local Open Scope string_scope.

Lemma rstrip_tail (c : ascii) (s : string) :
  exists k, s = rstrip c s ++ string_of_list_ascii (repeat c k).
Proof.
  induction s as [|a s (k & IH)]; [now exists 0%nat|].
  cbn [rstrip]. destruct (rstrip c s) as [|b r] eqn:Hr.
  - cbn [append] in IH. destruct (Ascii.eqb a c) eqn:E.
    + apply Ascii.eqb_eq in E. subst a. exists (S k). cbn. now rewrite <- IH.
    + exists k. cbn. now rewrite <- IH.
  - exists k. cbn [append] in *. now f_equal.
Qed.

Lemma rstrip_end (c : ascii) (s : string) :
  forall t, rstrip c s <> t ++ String c EmptyString.
Proof.
  induction s as [|a s IH]; intros t.
  - destruct t; discriminate.
  - cbn [rstrip]. destruct (rstrip c s) as [|b r] eqn:Hr.
    + destruct (Ascii.eqb a c) eqn:E; [destruct t; discriminate|].
      apply Ascii.eqb_neq in E.
      destruct t as [|a' [|? ?]]; cbn; intros H; injection H; intros;
        try discriminate; congruence.
    + destruct t as [|a' t']; cbn; intros H.
      * discriminate.
      * injection H as _ H. exact (IH t' H).
Qed.

(** [PaginatedAPIClient(base_url, rate_limit_per_second=r)]: a rate
    equal to zero, [0.0] or [-0.0], makes the constructor raise
    [ZeroDivisionError]; any other rate, infinite or NaN included, is
    accepted: the client is built, its base URL is the argument without
    its trailing slashes (it does not end in a slash and nothing else is
    removed), and its limiter starts with the float quotient [1.0 / r]
    as interval and the last call at [0.0].  The quotient is rounded:
    its product with the rate need not be 1. *)
Theorem client_init (base_url : string) (r : float) :
  ((r =? 0)%float = true -> __init__ base_url r = inl ZeroDivisionError)
  /\ ((r =? 0)%float = false ->
      __init__ base_url r
      = inr (rstrip "/" base_url,
             {| RateLimiter.calls_per_second := r;
                RateLimiter.min_interval := (1 / r)%float;
                RateLimiter.last_call_time := 0%float |}))
  /\ (exists k,
        base_url
        = rstrip "/" base_url ++ string_of_list_ascii (repeat "/"%char k))
  /\ (forall t, rstrip "/" base_url <> t ++ "/").
Proof.
  split; [|split; [|split]].
  - intros Hz. unfold __init__, RateLimiter.__init__. now rewrite Hz.
  - intros Hnz. unfold __init__, RateLimiter.__init__. now rewrite Hnz.
  - apply rstrip_tail.
  - apply rstrip_end.
Qed.

End InitFacts.

(* ================================================================== *)
(** * More runs against the simulated endpoints *)
(* ================================================================== *)

Module MoreScenarios.
Import Py Client Sim EngineFacts.
Import PrimFloat.
Import RunFacts OffsetExactFacts RateFacts ByUrlFacts InitFacts.
Local Open Scope list_scope.

(** Full pages for ever, [max_pages=3]: no more than three requests,
    however far the run is followed. *)
Lemma max_pages_bounds_requests_witness :
  (List.length (requests (run (stateless (always_full 10))
                            (page_cfg (Some 3%Z)) 50 tt)) <= 3)%nat.
Proof.
  exact (max_pages_bounds_requests (U := Urllib.model) unit
           (stateless (always_full 10)) base_url (page_cfg (Some 3))
           3 50%nat (world tt) eq_refl ltac:(discriminate)).
Defined.

(** The static parameter [q] on the second request of an offset run. *)
Lemma requests_keep_static_params_witness :
  dict_get (params (offset_request (U := Urllib.model) base_url offset_cfg 3))
           "q"
  = Some (JStr "x").
Proof.
  destruct (requests_keep_static_params (U := Urllib.model) unit
              (stateless (offset_endpoint (synthetic 0 7) "offset"
                           "page_size"))
              base_url offset_cfg 5%nat (world tt)
              (offset_request (U := Urllib.model) base_url offset_cfg 3)
              ltac:(discriminate)
              ltac:(vm_compute; right; left; reflexivity))
    as (_ & _ & Hstatic).
  rewrite Hstatic by discriminate. reflexivity.
Defined.

(** The third request of a page run asks for page 3. *)
Lemma page_requests_count_up_witness :
  nth_error (requests (run (stateless (always_full 10))
                         (page_cfg None) 5 tt)) 2
  = Some (page_request (U := Urllib.model) base_url (page_cfg None) 3).
Proof.
  assert (Hnth : nth_error (requests (run (stateless (always_full 10))
                                        (page_cfg None) 5 tt)) 2
                 = Some (get "/api/items"
                           [("page", JNum 3); ("page_size", JNum 10)])).
  { vm_compute. reflexivity. }
  rewrite Hnth. apply f_equal.
  exact (proj1 (page_requests_count_up (U := Urllib.model) unit
                  (stateless (always_full 10)) base_url (page_cfg None)
                  5%nat (world tt) 2%nat _ eq_refl Hnth)).
Defined.

(** An endpoint with nothing to give. *)
Lemma empty_page_ends_run_witness :
  outcome _ (run scripted (page_cfg None) 5 nothing_there)
  = Returned [] NoMoreItems.
Proof.
  exact (proj1 (empty_page_ends_run (U := Urllib.model) (list Response)
                  scripted base_url (page_cfg None) 4%nat
                  (initial_state (page_cfg None)) (world nothing_there)
                  (JDict [("items", JList [])]) (JList [])
                  eq_refl eq_refl eq_refl)).
Defined.

(** The defaults of [get_paginated_data] on a body that is a list. *)
Lemma list_body_needs_no_total_key_witness :
  outcome _ (run scripted (default_config "/posts") 5 bare_list)
  = Raised AttributeError.
Proof.
  exact (proj1 (proj1 (list_body_needs_no_total_key (U := Urllib.model)
                         (list Response) scripted base_url
                         (default_config "/posts") 4%nat (world bare_list)
                         (synthetic 0 3) eq_refl ltac:(discriminate)
                         eq_refl)
                 eq_refl)).
Defined.

(** [pagination_type="pages"]: the same request twice, without a page
    number. *)
Lemma unknown_strategy_repeats_request_witness :
  requests (run (stateless (always_full 10)) typo_cfg 5 tt)
  = [get "/api/items" [("q", JStr "x")];
     get "/api/items" [("q", JStr "x")]].
Proof.
  pose proof (proj1 (unknown_strategy_repeats_request (U := Urllib.model)
                       unit (stateless (always_full 10)) base_url typo_cfg
                       5%nat (world tt)
                       ltac:(discriminate) ltac:(discriminate)
                       ltac:(discriminate) ltac:(discriminate))) as Hall.
  assert (Hlen : List.length
                   (requests (run (stateless (always_full 10)) typo_cfg 5 tt))
                 = 2%nat) by (vm_compute; reflexivity).
  unfold run in *.
  destruct (requests _) as [|r1 [|r2 [|r3 rest]]]; try discriminate.
  rewrite (Hall r1 ltac:(now left)), (Hall r2 ltac:(right; now left)).
  reflexivity.
Defined.

(** Three full pages of ten. *)
Lemma page_run_stops_at_max_pages_witness :
  List.length (requests (run (stateless (always_full 10))
                           (page_cfg (Some 3)) 5 tt)) = 3%nat.
Proof.
  exact (proj1 (proj2 (page_run_stops_at_max_pages (U := Urllib.model) unit
                         (stateless (always_full 10)) base_url
                         (page_cfg (Some 3))
                         [("items", JList (synthetic 0 10))]
                         (synthetic 0 10) 3 5%nat (world tt)
                         eq_refl eq_refl ltac:(lia) eq_refl eq_refl
                         ltac:(discriminate) ltac:(vm_compute; discriminate)
                         (fun _ _ => eq_refl) ltac:(vm_compute; lia)))).
Defined.

(** The caller's [size] against the [size] of a next-link. *)
Lemma custom_params_override_next_url_witness :
  let st := set_next_url "https://api.example.com/items?page=2&size=10"
              (initial_state url_cfg_static) in
  dict_get (snd (build_request (U := Urllib.model) url_cfg_static st)) "size"
  = Some (JStr "50")
  /\ dict_get (snd (build_request (U := Urllib.model) url_cfg_static st))
              "page"
     = Some (JStr "2").
Proof.
  cbv zeta.
  assert (Hnodup : NoDup (map fst (opt_dict (custom_params url_cfg_static))))
    by (repeat constructor; intros []).
  split.
  - rewrite (custom_params_override_next_url (U := Urllib.model)
               url_cfg_static
               (set_next_url "https://api.example.com/items?page=2&size=10"
                  (initial_state url_cfg_static))
               "https://api.example.com/items?page=2&size=10" "size"
               eq_refl eq_refl eq_refl Hnodup).
    reflexivity.
  - rewrite (custom_params_override_next_url (U := Urllib.model)
               url_cfg_static
               (set_next_url "https://api.example.com/items?page=2&size=10"
                  (initial_state url_cfg_static))
               "https://api.example.com/items?page=2&size=10" "page"
               eq_refl eq_refl eq_refl Hnodup).
    reflexivity.
Defined.

(** The offset endpoint of [Sim] serves a configuration without
    [total_key] as well. *)
Lemma offset_endpoint_serves_no_total (db : list json) :
  serves_by_offset unit (stateless (offset_endpoint db "offset" "page_size"))
    offset_cfg_no_total db.
Proof.
  intros req n o Hoff Hsz. cbn in Hoff, Hsz.
  eexists _, tt. unfold stateless, offset_endpoint.
  rewrite Hoff, Hsz. rewrite Nat2Z.id.
  split; [reflexivity|]. split; [reflexivity|].
  intros H. discriminate H.
Qed.

Lemma offset_endpoint_serves_total (db : list json) :
  serves_by_offset unit (stateless (offset_endpoint db "offset" "page_size"))
    offset_cfg db.
Proof.
  intros req n o Hoff Hsz. cbn in Hoff, Hsz.
  eexists _, tt. unfold stateless, offset_endpoint.
  rewrite Hoff, Hsz. rewrite Nat2Z.id.
  split; [reflexivity|]. split; [reflexivity|].
  intros _. right. reflexivity.
Qed.

Lemma offset_endpoint_reports (db : list json) (req : Request) (n : unit)
  (body : json) (n' : unit) :
  stateless (offset_endpoint db "offset" "page_size") req n = (Body body, n') ->
  get_key body (total_key offset_cfg)
  = inr (JNum (Z.of_nat (List.length db))).
Proof.
  unfold stateless, offset_endpoint. intros H.
  destruct (dict_get (params req) "offset") as [[]|]; try discriminate H;
    destruct (dict_get (params req) "page_size") as [[]|];
    try discriminate H.
  injection H as <- _. reflexivity.
Qed.

(** Six items in pages of three: three requests without the total, two
    with it. *)
Lemma offset_run_exact_multiple_witness :
  List.length
    (requests (run (stateless (offset_endpoint (synthetic 0 6) "offset"
                                 "page_size")) offset_cfg_no_total 5 tt))
  = 3%nat
  /\ List.length
       (requests (run (stateless (offset_endpoint (synthetic 0 6) "offset"
                                    "page_size")) offset_cfg 5 tt))
     = 2%nat.
Proof.
  split.
  - destruct (proj1 (offset_run_exact_multiple (U := Urllib.model) unit
                       (stateless (offset_endpoint (synthetic 0 6) "offset"
                                    "page_size"))
                       base_url offset_cfg_no_total (synthetic 0 6)
                       eq_refl eq_refl eq_refl eq_refl ltac:(discriminate)
                       (offset_endpoint_serves_no_total (synthetic 0 6))
                       ltac:(discriminate) eq_refl 5%nat (world tt))
                eq_refl ltac:(vm_compute; lia)) as (_ & Hreqs).
    unfold run. rewrite Hreqs. reflexivity.
  - destruct (proj2 (offset_run_exact_multiple (U := Urllib.model) unit
                       (stateless (offset_endpoint (synthetic 0 6) "offset"
                                    "page_size"))
                       base_url offset_cfg (synthetic 0 6)
                       eq_refl eq_refl eq_refl eq_refl ltac:(discriminate)
                       (offset_endpoint_serves_total (synthetic 0 6))
                       ltac:(discriminate) eq_refl 5%nat (world tt))
                eq_refl (offset_endpoint_reports (synthetic 0 6))
                ltac:(vm_compute; lia)) as (_ & Hreqs).
    unfold run. rewrite Hreqs. reflexivity.
Defined.



(** Two linked pages followed from the first URL. *)
Lemma by_url_returned_is_concatenation_witness :
  let r := run_by_url scripted (Some "items") (Some "next") None
             "https://api.example.com/items?page=1" 5 two_linked_pages in
  synthetic 0 4
  = flat_map (page_elems (Some "items")) (map snd (url_exchanges _ r)).
Proof.
  cbv zeta.
  refine (by_url_returned_is_concatenation (U := Urllib.model)
            (list Response) scripted base_url (Some "items") (Some "next")
            None None "https://api.example.com/items?page=1" 5%nat
            (world two_linked_pages) _ NoNextUrl _).
  vm_compute. reflexivity.
Defined.

(** [max_pages=1] on the two linked pages, and [max_pages=0]. *)
Lemma by_url_max_pages_bounds_requests_witness :
  (List.length
     (url_exchanges _
        (run_by_url scripted (Some "items") (Some "next") (Some 1%Z)
           "https://api.example.com/items?page=1" 5 two_linked_pages))
   <= 1)%nat
  /\ url_exchanges _
       (run_by_url scripted (Some "items") (Some "next") (Some 0)
          "https://api.example.com/items?page=1" 5 two_linked_pages)
     = [].
Proof.
  split.
  - exact (proj1 (by_url_max_pages_bounds_requests (U := Urllib.model)
                    (list Response) scripted base_url (Some "items")
                    (Some "next") (Some 1) None 1
                    "https://api.example.com/items?page=1" 5%nat
                    (world two_linked_pages) eq_refl)).
  - exact (proj1 (proj2 (by_url_max_pages_bounds_requests
                           (U := Urllib.model)
                           (list Response) scripted base_url (Some "items")
                           (Some "next") (Some 0) None 0
                           "https://api.example.com/items?page=1" 5%nat
                           (world two_linked_pages) eq_refl)
                    ltac:(lia))).
Defined.

(** A single page without a link. *)
Lemma by_url_last_page_witness :
  url_outcome _
    (run_by_url scripted (Some "items") (Some "next") None
       "https://api.example.com/items?page=2" 1
       [page_of (synthetic 2 2) []])
  = UrlReturned (synthetic 2 2) NoNextUrl.
Proof.
  refine (proj1 (proj1 (by_url_last_page (U := Urllib.model)
                          (list Response) scripted base_url (Some "items")
                          (Some "next") None None 0%nat
                          {| url_all_data := [];
                             current_url
                             := JStr "https://api.example.com/items?page=2";
                             url_pages_retrieved := 0 |}
                          (world [page_of (synthetic 2 2) []])
                          "https://api.example.com/items?page=2"
                          (JDict [("items", JList (synthetic 2 2))])
                          (JList (synthetic 2 2)) (synthetic 2 2)
                          eq_refl eq_refl eq_refl _ eq_refl eq_refl eq_refl
                          eq_refl)
                   [("items", JList (synthetic 2 2))] JNull
                   eq_refl eq_refl eq_refl)).
  vm_compute. reflexivity.
Defined.

(** The constructor on a base URL with trailing slashes, and on a zero
    rate. *)
Lemma client_init_witness :
  __init__ "https://api.example.com//" 49%float
  = inr ("https://api.example.com",
         {| RateLimiter.calls_per_second := 49%float;
            RateLimiter.min_interval := (1 / 49)%float;
            RateLimiter.last_call_time := 0%float |})
  /\ __init__ "https://api.example.com//" (-0)%float
     = inl ZeroDivisionError.
Proof.
  split.
  - exact (proj1 (proj2 (client_init "https://api.example.com//" 49%float))
             eq_refl).
  - exact (proj1 (client_init "https://api.example.com//" (-0)%float)
             eq_refl).
Defined.

End MoreScenarios.

(* ================================================================== *)
(** * Facts about the security tests *)
(* ================================================================== *)

Module SecurityFacts.
Import Py SecurityTester.
Local Open Scope list_scope.

Lemma filter_all {A : Type} (f : A -> bool) (l : list A) :
  Nat.eqb (List.length (filter f l)) (List.length l) = true
  <-> forall x, In x l -> f x = true.
Proof.
  rewrite Nat.eqb_eq. induction l as [|x l IH]; cbn [filter List.length In].
  - split; [intros _ y [] | reflexivity].
  - pose proof (filter_length_le f l) as Hle.
    destruct (f x) eqn:Hx; cbn [List.length].
    + split.
      * intros H y [<- | Hin]; [exact Hx|]. apply IH; [lia | exact Hin].
      * intros H. f_equal. apply IH. intros y Hin. apply H. now right.
    + split; [lia|]. intros H. specialize (H x (or_introl eq_refl)).
      congruence.
Qed.

Section Tester.

Variable Net : Type.
Variable create_connection : string -> Z -> Net -> Connection * Net.
Variable tls_cipher : string -> Net -> option (string * string) * Net.
Variable requests_get :
  string -> bool -> bool -> Net -> option HttpResponse * Net.
Variable public_ip : string.

Abbreviation connect port n := (create_connection public_ip port n).
Abbreviation probed ports n :=
  (fold_left (fun m port => snd (connect port m)) ports n).
Abbreviation test_port_accessibility :=
  (SecurityTester.test_port_accessibility Net create_connection public_ip).
Abbreviation test_security_headers :=
  (SecurityTester.test_security_headers Net requests_get public_ip).
Abbreviation tests :=
  (SecurityTester.tests Net create_connection tls_cipher requests_get
     public_ip).
Abbreviation run_tests := (SecurityTester.run_tests Net).
Abbreviation run_all_tests :=
  (SecurityTester.run_all_tests Net create_connection tls_cipher
     requests_get public_ip).

Section Stable.

(** A host whose ports answer the same every time. *)
Variable answer : Z -> Connection.
Hypothesis Hstable : forall port n, fst (connect port n) = answer port.

Lemma is_port_open_spec (port : Z) (n : Net) :
  _is_port_open Net create_connection public_ip port n
  = (match answer port with
     | Connected => inr true
     | SocketError => inr false
     | OtherException class => inl class
     end, snd (connect port n)).
Proof.
  unfold _is_port_open. specialize (Hstable port n).
  destruct (connect port n) as [c n1]. cbn [fst snd] in *. subst c.
  now destruct (answer port).
Qed.

(** Probes that all return. *)
Lemma probe_required_returns (ports : list Z) :
  (forall p, In p ports -> raises (answer p) = false) ->
  forall success n,
    probe_required Net create_connection public_ip ports success n
    = (inr (success && forallb (fun p => connected (answer p)) ports),
       probed ports n).
Proof.
  induction ports as [|port ports IH]; intros Hok success n;
    cbn [probe_required forallb fold_left].
  - now rewrite andb_true_r.
  - rewrite is_port_open_spec.
    pose proof (Hok port (or_introl eq_refl)) as Hport.
    destruct (answer port); try discriminate Hport;
      rewrite IH by (intros p Hp; apply Hok; now right);
      cbn [connected negb]; now destruct success.
Qed.

Lemma probe_forbidden_returns (ports : list Z) :
  (forall p, In p ports -> raises (answer p) = false) ->
  forall success n,
    probe_forbidden Net create_connection public_ip ports success n
    = (inr (success
            && forallb (fun p => negb (connected (answer p))) ports),
       probed ports n).
Proof.
  induction ports as [|port ports IH]; intros Hok success n;
    cbn [probe_forbidden forallb fold_left].
  - now rewrite andb_true_r.
  - rewrite is_port_open_spec.
    pose proof (Hok port (or_introl eq_refl)) as Hport.
    destruct (answer port); try discriminate Hport;
      rewrite IH by (intros p Hp; apply Hok; now right);
      cbn [connected negb]; now destruct success.
Qed.

(** The first probe that raises ends the loop. *)
Lemma probe_required_raises (before : list Z) (port : Z) (after : list Z)
  (class : string) :
  (forall p, In p before -> raises (answer p) = false) ->
  answer port = OtherException class ->
  forall success n,
    probe_required Net create_connection public_ip
      (before ++ port :: after) success n
    = (inl class, probed (before ++ [port]) n).
Proof.
  intros Hok Hport.
  induction before as [|p before IH]; intros success n;
    cbn [app probe_required fold_left]; rewrite is_port_open_spec.
  - now rewrite Hport.
  - pose proof (Hok p (or_introl eq_refl)) as Hp.
    destruct (answer p); try discriminate Hp;
      apply IH; intros q Hq; apply Hok; now right.
Qed.

Lemma probe_forbidden_raises (before : list Z) (port : Z) (after : list Z)
  (class : string) :
  (forall p, In p before -> raises (answer p) = false) ->
  answer port = OtherException class ->
  forall success n,
    probe_forbidden Net create_connection public_ip
      (before ++ port :: after) success n
    = (inl class, probed (before ++ [port]) n).
Proof.
  intros Hok Hport.
  induction before as [|p before IH]; intros success n;
    cbn [app probe_forbidden fold_left]; rewrite is_port_open_spec.
  - now rewrite Hport.
  - pose proof (Hok p (or_introl eq_refl)) as Hp.
    destruct (answer p); try discriminate Hp;
      apply IH; intros q Hq; apply Hok; now right.
Qed.

(** [test_port_accessibility] on a host whose ports answer the same
    every time.  When no probe raises anything but a socket error, it
    probes the nine ports one after the other, 80, 443, then 22, 3389,
    5432, 3306, 1433, 6379, 27017, whatever the earlier probes gave, and
    it passes exactly when 80 and 443 accept a connection and the seven
    others refuse it.  When a probe raises another exception, as every
    probe of a host name that cannot be encoded does, the test does not
    return: that exception leaves it at the first such port, and the
    ports after that one are not probed. *)
Theorem port_test_passes_iff (n : Net) :
  ((forall p, In p (required_ports ++ forbidden_ports) ->
              raises (answer p) = false) ->
   snd (test_port_accessibility n)
   = probed (required_ports ++ forbidden_ports) n
   /\ exists passed,
       fst (test_port_accessibility n) = inr passed
       /\ (passed = true
           <-> answer 80 = Connected /\ answer 443 = Connected
               /\ forall port, In port forbidden_ports ->
                               answer port = SocketError))
  /\ (forall before port after class,
        required_ports ++ forbidden_ports = before ++ port :: after ->
        (forall p, In p before -> raises (answer p) = false) ->
        answer port = OtherException class ->
        test_port_accessibility n
        = (inl class, probed (before ++ [port]) n)).
Proof.
  unfold SecurityTester.test_port_accessibility. split.
  - intros Hok.
    rewrite probe_required_returns
      by (intros p Hp; apply Hok, in_or_app; now left).
    rewrite probe_forbidden_returns
      by (intros p Hp; apply Hok, in_or_app; now right).
    cbn [fst snd]. rewrite fold_left_app. split; [reflexivity|].
    eexists. split; [reflexivity|].
    cbn [required_ports forallb andb].
    rewrite andb_true_r, !andb_true_iff, forallb_forall.
    assert (Hconn : forall c, connected c = true <-> c = Connected)
      by (intros []; cbn; split; congruence).
    rewrite !Hconn. split.
    + intros ((H80 & H443) & Hforb). repeat split; try assumption.
      intros port Hin. specialize (Hforb port Hin).
      specialize (Hok port (in_or_app _ _ _ (or_intror Hin))).
      destruct (answer port); try discriminate; reflexivity.
    + intros (H80 & H443 & Hforb). repeat split; try assumption.
      intros port Hin. now rewrite (Hforb port Hin).
  - intros before port after class Hsplit Hok Hport.
    apply app_eq_app in Hsplit as (l & [(Hreq & Hrest) | (Hbefore & Hforb)]).
    + destruct l as [|p l].
      * rewrite app_nil_r in Hreq. cbn [app] in Hrest.
        rewrite probe_required_returns by (rewrite Hreq; exact Hok).
        rewrite <- Hrest.
        rewrite (probe_forbidden_raises [] port after class)
          by (try exact Hport; intros p []).
        rewrite Hreq, (fold_left_app _ before [port]). reflexivity.
      * injection Hrest as <- Hl. rewrite Hreq.
        now rewrite (probe_required_raises before port l class Hok Hport).
    + rewrite probe_required_returns
        by (intros p Hp; apply Hok; rewrite Hbefore; apply in_or_app;
            now left).
      rewrite Hforb, Hbefore.
      rewrite (probe_forbidden_raises l port after class)
        by (try exact Hport; intros p Hp; apply Hok; rewrite Hbefore;
            apply in_or_app; now right).
      now rewrite <- app_assoc, !fold_left_app.
Qed.

End Stable.

(** [test_security_headers] only looks at which headers are there: it
    passes exactly when the request succeeds and the three headers
    [X-Content-Type-Options], [X-Frame-Options] and [X-XSS-Protection]
    are all present; their values, checked against the expected ones,
    change what is printed and never the result. *)
Theorem security_headers_presence_only (n : Net) :
  fst (test_security_headers n) = true
  <-> exists response,
        fst (requests_get ("https://" ++ public_ip) true false n)
        = Some response
        /\ headers response "X-Content-Type-Options" <> None
        /\ headers response "X-Frame-Options" <> None
        /\ headers response "X-XSS-Protection" <> None.
Proof.
  unfold SecurityTester.test_security_headers.
  destruct (requests_get ("https://" ++ public_ip) true false n)
    as [[response|] n1]; cbn [fst].
  - assert (E : check_headers response = true
                <-> headers response "X-Content-Type-Options" <> None
                    /\ headers response "X-Frame-Options" <> None
                    /\ headers response "X-XSS-Protection" <> None).
    { unfold check_headers, security_headers. cbn [fold_left fst snd].
      destruct (headers response "X-Content-Type-Options") as [v1|];
        destruct (headers response "X-Frame-Options") as [v2|];
        destruct (headers response "X-XSS-Protection") as [v3|];
        repeat match goal with
               | |- context [if ?b then _ else _] => destruct b
               end;
        split; intros H;
        try discriminate H;
        try reflexivity;
        try (repeat split; discriminate);
        destruct H as (H1 & H2 & H3); congruence. }
    rewrite E. split.
    + intros H. exists response. split; [reflexivity | exact H].
    + intros (r & Hr & H). injection Hr as <-. exact H.
  - split; [discriminate|]. intros (r & Hr & _). discriminate Hr.
Qed.

Lemma run_tests_names
  (ts : list (string * (Net -> attempt bool * Net))) :
  forall results n,
    map fst (fst (run_tests ts results n))
    = map fst results ++ map fst ts.
Proof.
  induction ts as [|[name test] ts IH]; intros results n;
    cbn [SecurityTester.run_tests map fst].
  - now rewrite app_nil_r.
  - destruct (test n) as [[class|result] n1]; rewrite IH, map_app;
      cbn [map fst]; now rewrite <- app_assoc.
Qed.

Lemma run_tests_cons (name : string) (test : Net -> attempt bool * Net)
  (ts : list (string * (Net -> attempt bool * Net)))
  (results : list (string * bool)) (n : Net) :
  run_tests ((name, test) :: ts) results n
  = run_tests ts
      (results ++ [(name, match fst (test n) with
                          | inr result => result
                          | inl _ => false
                          end)])
      (snd (test n)).
Proof.
  cbn [SecurityTester.run_tests]. now destruct (test n) as [[class|result] n1].
Qed.

(** What has been recorded stays recorded. *)
Lemma run_tests_keeps
  (ts : list (string * (Net -> attempt bool * Net))) :
  forall results n x,
    In x results -> In x (fst (run_tests ts results n)).
Proof.
  induction ts as [|[name test] ts IH]; intros results n x Hin;
    cbn [SecurityTester.run_tests]; [exact Hin|].
  destruct (test n) as [[class|result] n1]; apply IH, in_or_app; now left.
Qed.

(** [run_all_tests] always runs the six tests, in their order, also
    after a test has failed or has raised, and passes exactly when every
    one of them is recorded as passed; a test that raises is recorded as
    failed, so that [run_all_tests] then returns [False]. *)
Theorem run_all_tests_passes_iff (n : Net) :
  let results := fst (run_tests tests [] n) in
  map fst results
  = ["Port Accessibility"; "SSL Configuration"; "HTTP to HTTPS Redirect";
     "Security Headers"; "Application Availability"; "Health Endpoint"]
  /\ (fst (run_all_tests n) = true
      <-> forall name result, In (name, result) results -> result = true)
  /\ (forall passed,
        fst (test_port_accessibility n) = inr passed ->
        In ("Port Accessibility", passed) results)
  /\ (forall class,
        fst (test_port_accessibility n) = inl class ->
        In ("Port Accessibility", false) results
        /\ fst (run_all_tests n) = false).
Proof.
  cbv zeta. split; [apply run_tests_names|].
  assert (Hiff : fst (run_all_tests n) = true
                 <-> forall name result,
                       In (name, result) (fst (run_tests tests [] n)) ->
                       result = true).
  { unfold SecurityTester.run_all_tests.
    destruct (run_tests tests [] n) as [results n1]. cbn [fst].
    rewrite filter_all. split.
    - intros H name result Hin. exact (H (name, result) Hin).
    - intros H [name result] Hin. exact (H name result Hin). }
  split; [exact Hiff|].
  assert (Hfirst : forall v,
             fst (test_port_accessibility n) = v ->
             In ("Port Accessibility",
                 match v with inr passed => passed | inl _ => false end)
                (fst (run_tests tests [] n))).
  { intros v Hv. unfold SecurityTester.tests.
    rewrite run_tests_cons, Hv. apply run_tests_keeps. now left. }
  split.
  - intros passed Hv. exact (Hfirst _ Hv).
  - intros class Hv. pose proof (Hfirst _ Hv) as Hin. split; [exact Hin|].
    apply not_true_is_false. intros E.
    pose proof (proj1 Hiff E _ _ Hin) as Habs. discriminate Habs.
Qed.

End Tester.

(** The exit status of the script: 0 exactly when it was given one
    argument and every test passed for it; 1 otherwise, without a probe
    when the number of arguments is wrong. *)
Theorem main_exit_status (Net : Type)
  (create_connection : string -> Z -> Net -> Connection * Net)
  (tls_cipher : string -> Net -> option (string * string) * Net)
  (requests_get : string -> bool -> bool -> Net -> option HttpResponse * Net)
  (argv : list string) (n : Net) :
  (fst (main Net create_connection tls_cipher requests_get argv n) = 0
   <-> exists script public_ip,
         argv = [script; public_ip]
         /\ fst (run_all_tests Net create_connection tls_cipher requests_get
                   public_ip n) = true)
  /\ (fst (main Net create_connection tls_cipher requests_get argv n) = 0
      \/ fst (main Net create_connection tls_cipher requests_get argv n) = 1)
  /\ (List.length argv <> 2%nat ->
      main Net create_connection tls_cipher requests_get argv n = (1, n)).
Proof.
  unfold main.
  destruct argv as [|script [|ip [|x rest]]]; cbn [List.length].
  - split; [|split; [now right | reflexivity]].
    split; [discriminate | intros (? & ? & H & _); discriminate H].
  - split; [|split; [now right | reflexivity]].
    split; [discriminate | intros (? & ? & H & _); discriminate H].
  - destruct (run_all_tests Net create_connection tls_cipher requests_get
                ip n) as [success n1] eqn:Hrun.
    cbn [fst]. split; [|split; [destruct success; auto | lia]].
    split.
    + intros H. exists script, ip. split; [reflexivity|].
      rewrite Hrun. destruct success; [reflexivity | discriminate H].
    + intros (s' & ip' & Heq & Hpass). injection Heq as <- <-.
      rewrite Hrun in Hpass. cbn in Hpass. now subst success.
  - split; [|split; [now right | reflexivity]].
    split; [discriminate | intros (? & ? & H & _); discriminate H].
Qed.

(** A host with the right ports; one with SSH open as well; and a host
    name that cannot be encoded, on which only port 80 is probed. *)
Lemma port_test_passes_iff_witness :
  fst (test_port_accessibility unit (host_connect [80; 443]) "203.0.113.7" tt)
  = inr true
  /\ fst (test_port_accessibility unit (host_connect [22; 80; 443])
            "203.0.113.7" tt)
     = inr false
  /\ test_port_accessibility (list Z) (logged_connect unencodable) "a..b" []
     = (inl "UnicodeError", [80])
  /\ test_port_accessibility (list Z) (logged_connect breaks_at_443)
       "203.0.113.7" []
     = (inl "UnicodeError", [80; 443]).
Proof.
  split; [|split; [|split]].
  - destruct (proj1 (port_test_passes_iff unit (host_connect [80; 443])
                       "203.0.113.7"
                       (fun port => if existsb (Z.eqb port) [80; 443]
                                    then Connected else SocketError)
                       (fun _ _ => eq_refl) tt))
      as (_ & passed & Hfst & Hiff).
    + intros p Hp. now destruct (existsb (Z.eqb p) [80; 443]).
    + rewrite Hfst. f_equal. apply Hiff. repeat split.
      intros port Hin. cbn in Hin.
      repeat (destruct Hin as [<- | Hin]; [reflexivity|]). destruct Hin.
  - destruct (proj1 (port_test_passes_iff unit (host_connect [22; 80; 443])
                       "203.0.113.7"
                       (fun port => if existsb (Z.eqb port) [22; 80; 443]
                                    then Connected else SocketError)
                       (fun _ _ => eq_refl) tt))
      as (_ & passed & Hfst & Hiff).
    + intros p Hp. now destruct (existsb (Z.eqb p) [22; 80; 443]).
    + rewrite Hfst. f_equal. destruct passed; [|reflexivity].
      destruct (proj1 Hiff eq_refl) as (_ & _ & Hforb).
      specialize (Hforb 22 (or_introl eq_refl)). discriminate Hforb.
  - exact (proj2 (port_test_passes_iff (list Z) (logged_connect unencodable)
                    "a..b" unencodable (fun _ _ => eq_refl) [])
             [] 80 [443; 22; 3389; 5432; 3306; 1433; 6379; 27017]
             "UnicodeError" eq_refl (fun _ (H : False) => match H with end)
             eq_refl).
  - refine (proj2 (port_test_passes_iff (list Z)
                     (logged_connect breaks_at_443) "203.0.113.7"
                     breaks_at_443 (fun _ _ => eq_refl) [])
              [80] 443 [22; 3389; 5432; 3306; 1433; 6379; 27017]
              "UnicodeError" eq_refl _ eq_refl).
    intros p [<- | []]. reflexivity.
Defined.

(** Lax values pass; a missing header does not. *)
Lemma security_headers_presence_only_witness :
  fst (test_security_headers unit (host_get lax_headers "Hello World")
         "203.0.113.7" tt) = true
  /\ fst (test_security_headers unit (host_get two_headers "Hello World")
            "203.0.113.7" tt) = false.
Proof.
  split.
  - apply (security_headers_presence_only unit
             (host_get lax_headers "Hello World") "203.0.113.7" tt).
    eexists. split; [reflexivity|]. repeat split; discriminate.
  - destruct (fst (test_security_headers unit
                     (host_get two_headers "Hello World") "203.0.113.7" tt))
      eqn:E; [|reflexivity].
    apply (security_headers_presence_only unit
             (host_get two_headers "Hello World") "203.0.113.7" tt) in E.
    destruct E as (r & Hr & _ & _ & H3).
    injection Hr as <-. now destruct H3.
Defined.

(** A host that passes every test, and the same host under a name that
    cannot be encoded: the port test raises, the other five still
    run. *)
Lemma run_all_tests_passes_iff_witness :
  fst (run_all_tests unit (host_connect [80; 443]) host_tls
         (host_get lax_headers "Hello World, healthy") "203.0.113.7" tt)
  = true
  /\ fst (run_tests (list Z)
            (tests (list Z) (logged_connect unencodable)
               (fun _ n => (Some ("TLS_AES_256_GCM_SHA384", "TLSv1.3"), n))
               (fun url _ _ n =>
                  (fst (host_get lax_headers "Hello World, healthy" url
                          true true tt), n))
               "a..b") [] [])
     = [("Port Accessibility", false); ("SSL Configuration", true);
        ("HTTP to HTTPS Redirect", true); ("Security Headers", true);
        ("Application Availability", true); ("Health Endpoint", true)]
  /\ fst (run_all_tests (list Z) (logged_connect unencodable)
            (fun _ n => (Some ("TLS_AES_256_GCM_SHA384", "TLSv1.3"), n))
            (fun url _ _ n =>
               (fst (host_get lax_headers "Hello World, healthy" url
                       true true tt), n))
            "a..b" [])
     = false.
Proof.
  split; [|split].
  - apply (proj1 (proj2 (run_all_tests_passes_iff unit
                           (host_connect [80; 443]) host_tls
                           (host_get lax_headers "Hello World, healthy")
                           "203.0.113.7" tt))).
    intros name result Hin. vm_compute in Hin.
    repeat (destruct Hin as [Heq | Hin]; [now injection Heq as _ <-|]).
    destruct Hin.
  - vm_compute. reflexivity.
  - exact (proj2 (proj2 (proj2 (proj2
             (run_all_tests_passes_iff (list Z) (logged_connect unencodable)
                (fun _ n => (Some ("TLS_AES_256_GCM_SHA384", "TLSv1.3"), n))
                (fun url _ _ n =>
                   (fst (host_get lax_headers "Hello World, healthy" url
                           true true tt), n))
                "a..b" [])))
             "UnicodeError" eq_refl)).
Defined.

(** The script on that host, and without an argument. *)
Lemma main_exit_status_witness :
  fst (main unit (host_connect [80; 443]) host_tls
         (host_get lax_headers "Hello World, healthy")
         ["security-tests.py"; "203.0.113.7"] tt) = 0
  /\ main unit (host_connect [80; 443]) host_tls
       (host_get lax_headers "Hello World, healthy")
       ["security-tests.py"] tt = (1, tt).
Proof.
  split.
  - apply (proj1 (main_exit_status unit (host_connect [80; 443]) host_tls
                    (host_get lax_headers "Hello World, healthy")
                    ["security-tests.py"; "203.0.113.7"] tt)).
    exists "security-tests.py", "203.0.113.7". split; reflexivity.
  - apply (proj2 (proj2 (main_exit_status unit (host_connect [80; 443])
                           host_tls
                           (host_get lax_headers "Hello World, healthy")
                           ["security-tests.py"] tt))).
    discriminate.
Defined.

End SecurityFacts.

(* ================================================================== *)
(** * More about the strategies *)
(* ================================================================== *)

Module StrategyFacts.
Import Py Client EngineFacts.
Local Open Scope list_scope.

Section Strategies.

Context {U : Urllib.Api}.
Variable W : Type.
Variable session_request : Request -> W -> Response * W.
Variable base_url : string.
Variable cfg : Config.

Abbreviation loop := (Client.loop W session_request base_url cfg).
Abbreviation process_page := (Client.process_page base_url cfg).
Abbreviation build_request := (Client.build_request cfg).
Abbreviation _make_request :=
  (Client._make_request W session_request base_url).
Abbreviation get_paginated_data :=
  (Client.get_paginated_data W session_request base_url cfg).
Abbreviation answer st w :=
  (snd (fst (_make_request "GET" (fst (build_request st))
               (snd (build_request st)) w))).

(** The run of one pass whose page is read without error. *)
Lemma loop_one_pass (fuel : nat) (st : State) (w : World W) (data : json)
  (c : Ctl) :
  answer st w = Body data ->
  process_page data (set_endpoint (fst (build_request st)) st) = inr c ->
  outcome W (loop (S fuel) st w)
  = match c with
    | Break why st' => Returned (all_data st') why
    | Continue st' =>
        outcome W (loop fuel st'
                     (snd (_make_request "GET" (fst (build_request st))
                             (snd (build_request st)) w)))
    end.
Proof.
  intros Hans Hpage. rewrite (loop_S W session_request base_url cfg).
  cbv zeta. rewrite Hans, Hpage. now destruct c.
Qed.

Lemma loop_one_raise (fuel : nat) (st : State) (w : World W) (data : json)
  (e : exn) :
  answer st w = Body data ->
  process_page data (set_endpoint (fst (build_request st)) st) = inl e ->
  outcome W (loop (S fuel) st w) = Raised e
  /\ List.length (requests (loop (S fuel) st w)) = 1%nat.
Proof.
  intros Hans Hpage. unfold requests.
  rewrite (loop_S W session_request base_url cfg).
  cbv zeta. rewrite Hans, Hpage. split; reflexivity.
Qed.

(** [stop_condition] is asked about every page that holds items, after
    the page has been appended and before the strategy looks at it: when
    it holds for an object body and no page limit is set, the call
    returns what it has collected, that page included, and sends
    nothing more, whatever the strategy and whatever the page says about
    a next one. *)
Theorem stop_condition_ends_run (fuel : nat) (st : State) (w : World W)
  (d : dict) (elems : list json) (f : json -> bool)
  (Hanswer : answer st w = Body (JDict d))
  (Hitems : extract_items (data_key cfg) (JDict d) = inr (JList elems))
  (Hsome : elems <> [])
  (Hmax : opt_int_truthy (max_pages cfg) = false)
  (Hstop : stop_condition cfg = Some f)
  (Hholds : f (JDict d) = true) :
  outcome W (loop (S fuel) st w)
  = Returned (all_data st ++ elems) StopConditionMet
  /\ List.length (requests (loop (S fuel) st w)) = 1%nat.
Proof.
  assert (Htr : truthy (JList elems) = true)
    by (destruct elems; [contradiction | reflexivity]).
  destruct (record_total_object cfg d
              (add_page elems (set_endpoint (fst (build_request st)) st)))
    as (st1 & Hrec).
  assert (Hpage : process_page (JDict d)
                    (set_endpoint (fst (build_request st)) st)
                  = inr (Break StopConditionMet st1)).
  { rewrite (process_page_items base_url cfg _ _ elems _ Hitems Htr eq_refl).
    rewrite Hrec. cbn [bind]. rewrite Hmax, Hstop, Hholds. reflexivity. }
  apply record_total_frame in Hrec as (Hall & _). cbn in Hall.
  unfold requests. rewrite (loop_S W session_request base_url cfg).
  cbv zeta. rewrite Hanswer, Hpage. cbn. rewrite Hall.
  split; reflexivity.
Qed.

(** In the URL strategy the next-link has to be a string: a page whose
    value under [next_page_key] is truthy but not a string (an object
    with the link inside, a number) makes the call raise
    [AttributeError], from [next_url.startswith], and the items
    collected so far are not returned. *)
Theorem next_link_must_be_string (fuel : nat) (st : State) (w : World W)
  (d : dict) (elems : list json) (v : json)
  (Hty : pagination_type cfg = "url")
  (Hanswer : answer st w = Body (JDict d))
  (Hitems : extract_items (data_key cfg) (JDict d) = inr (JList elems))
  (Hsome : elems <> [])
  (Hmax : opt_int_truthy (max_pages cfg) = false)
  (Hstop : stop_condition cfg = None)
  (Hnext : truthy_entry (JDict d) (next_page_key cfg) = inr (Some v))
  (Hnot : forall s, v <> JStr s) :
  outcome W (loop (S fuel) st w) = Raised AttributeError
  /\ List.length (requests (loop (S fuel) st w)) = 1%nat.
Proof.
  assert (Htr : truthy (JList elems) = true)
    by (destruct elems; [contradiction | reflexivity]).
  destruct (record_total_object cfg d
              (add_page elems (set_endpoint (fst (build_request st)) st)))
    as (st1 & Hrec).
  apply (loop_one_raise fuel st w (JDict d)); [exact Hanswer|].
  rewrite (process_page_items base_url cfg _ _ elems _ Hitems Htr eq_refl).
  rewrite Hrec. cbn [bind]. rewrite Hmax, Hstop. cbn [andb].
  rewrite (prepare_next_url base_url cfg) by exact Hty.
  rewrite Hnext. cbn [bind].
  destruct v; try reflexivity. now destruct (Hnot s).
Qed.

(** ** The chain of cursors *)

Lemma truthy_entry_truthy (data : json) (k : option string) (v : json) :
  truthy_entry data k = inr (Some v) -> truthy v = true.
Proof.
  unfold truthy_entry, bind, ret. intros H.
  destruct (contains_key data k) as [e|[|]]; try discriminate H.
  destruct (subscript_key data k) as [e|x]; [discriminate H|].
  destruct (truthy x) eqn:Hx; [|discriminate H].
  injection H as <-. exact Hx.
Qed.

Lemma process_page_cursor (data : json) (st st' : State) :
  pagination_type cfg = "cursor" ->
  process_page data st = inr (Continue st') ->
  truthy_entry data (next_page_key cfg) = inr (Some (cursor st'))
  /\ st_endpoint st' = st_endpoint st.
Proof.
  intros Hty H. unfold Client.process_page in H.
  destruct (extract_items (data_key cfg) data) as [e|items];
    [discriminate H|].
  cbn [bind] in H. destruct (truthy items); cbn [negb] in H;
    [|discriminate H].
  destruct (iterate items) as [e|elems]; [discriminate H|].
  cbn [bind] in H.
  destruct (Client.record_total cfg data (add_page elems st))
    as [e|st1] eqn:Htot; [discriminate H|].
  apply record_total_frame in Htot as (_ & _ & Hep & _).
  cbn [bind] in H. cbn in Hep.
  destruct (_ && _); [discriminate H|].
  destruct (match stop_condition cfg with Some _ => _ | None => _ end);
    [discriminate H|].
  rewrite (prepare_next_cursor base_url cfg) in H by exact Hty.
  destruct (truthy_entry data (next_page_key cfg)) as [e|[v|]];
    cbn [bind ret] in H; try discriminate H.
  injection H as <-. cbn. auto.
Qed.

Lemma loop_head_request (fuel : nat) (st : State) (w : World W)
  (req : Request) (resp : Response) :
  nth_error (exchanges W (loop fuel st w)) 0 = Some (req, resp) ->
  req = {| method := "GET";
           url := Urllib.urljoin base_url (fst (build_request st));
           params := snd (build_request st) |}.
Proof.
  destruct fuel as [|fuel]; [discriminate|].
  pose proof (make_request_sent W session_request base_url "GET"
                (fst (build_request st)) (snd (build_request st)) w)
    as Hsent.
  rewrite (loop_S W session_request base_url cfg). cbv zeta.
  cbn [after exchanges nth_error]. intros H. injection H as <- _.
  exact Hsent.
Qed.

Lemma loop_cursor_chain (fuel : nat) :
  forall st w k req body req' resp',
    pagination_type cfg = "cursor" ->
    st_endpoint st = endpoint cfg ->
    nth_error (exchanges W (loop fuel st w)) k = Some (req, Body body) ->
    nth_error (exchanges W (loop fuel st w)) (S k) = Some (req', resp') ->
    exists tok,
      truthy_entry body (next_page_key cfg) = inr (Some tok)
      /\ req' = cursor_request base_url cfg tok.
Proof.
  induction fuel as [|fuel IH]; intros st w k req body req' resp' Hty Hep
    Hk Hk'.
  { destruct k; discriminate. }
  rewrite (loop_S W session_request base_url cfg) in Hk, Hk'.
  cbv zeta in Hk, Hk'.
  rewrite (build_request_cursor cfg st Hty) in Hk, Hk'.
  cbn [fst snd] in Hk, Hk'. rewrite set_endpoint_same in Hk, Hk'.
  destruct (_make_request "GET" _ _ w) as [[req0 resp0] w1].
  cbn [fst snd after exchanges nth_error] in Hk, Hk'.
  destruct resp0 as [msg| |body0]; cbn [exchanges] in Hk, Hk';
    try (destruct k; discriminate).
  destruct (process_page body0 st) as [e|[stop st'|st']] eqn:Hpage;
    cbn [exchanges] in Hk, Hk'; try (destruct k; discriminate).
  destruct (process_page_cursor _ _ _ Hty Hpage) as (Hnext & Hep').
  destruct k as [|k]; cbn [nth_error] in Hk.
  - injection Hk as _ <-. exists (cursor st'). split; [exact Hnext|].
    apply loop_head_request in Hk'. rewrite Hk'.
    rewrite (build_request_cursor cfg st' Hty). cbn [fst snd].
    rewrite (truthy_entry_truthy _ _ _ Hnext), Hep', Hep. reflexivity.
  - apply (IH st' w1 k req body req' resp' Hty); try assumption.
    congruence.
Qed.

(** In the cursor strategy the first request carries no cursor of the
    client's, and every later request carries, as [cursor], exactly the
    value the page before it gave under [next_page_key], with
    [size_param = page_size]. *)
Theorem cursor_requests_chain (fuel : nat) (w : World W)
  (Hty : pagination_type cfg = "cursor") :
  (forall req resp,
      nth_error (exchanges W (get_paginated_data fuel w)) 0
      = Some (req, resp) ->
      req = first_cursor_request base_url cfg)
  /\ (forall k req body req' resp',
        nth_error (exchanges W (get_paginated_data fuel w)) k
        = Some (req, Body body) ->
        nth_error (exchanges W (get_paginated_data fuel w)) (S k)
        = Some (req', resp') ->
        exists tok,
          truthy_entry body (next_page_key cfg) = inr (Some tok)
          /\ req' = cursor_request base_url cfg tok).
Proof.
  split.
  - intros req resp H. apply loop_head_request in H. rewrite H.
    rewrite (build_request_cursor cfg _ Hty). reflexivity.
  - intros k req body req' resp' Hk Hk'.
    exact (loop_cursor_chain fuel (initial_state cfg) w k req body req'
             resp' Hty eq_refl Hk Hk').
Qed.

End Strategies.

(** ** The URL strategy without links *)

Section NoLinks.

Context {U : Urllib.Api}.
Variable W : Type.
Variable session_request : Request -> W -> Response * W.
Variable base_url : string.
Variable cfg : Config.

Hypothesis Hty : pagination_type cfg = "url".
Hypothesis Hnone : forall req n body n',
    session_request req n = (Body body, n') ->
    truthy_entry body (next_page_key cfg) = inr None.

Abbreviation as_page := (with_pagination_type "page" cfg).

Lemma build_request_as_page (st : State) :
  opt_str_truthy (next_url st) = false ->
  build_request cfg st = build_request as_page st.
Proof.
  intros Hnu. rewrite (build_request_url_first cfg st Hty Hnu).
  now rewrite (build_request_page as_page st eq_refl).
Qed.

Lemma process_page_as_page (data : json) (st : State) :
  truthy_entry data (next_page_key cfg) = inr None ->
  process_page base_url cfg data st = process_page base_url as_page data st.
Proof.
  intros Hnext. unfold process_page, Client.record_total.
  cbn [data_key total_key max_pages stop_condition with_pagination_type].
  destruct (extract_items (data_key cfg) data) as [e|items]; [reflexivity|].
  cbn [bind]. destruct (negb (truthy items)); [reflexivity|].
  destruct (iterate items) as [e|elems]; [reflexivity|]. cbn [bind].
  destruct (if opt_str_truthy (total_key cfg) && _ then _ else _)
    as [e|st1]; [reflexivity|].
  cbn [bind]. destruct (_ && _); [reflexivity|].
  destruct (match stop_condition cfg with Some _ => _ | None => _ end);
    [reflexivity|].
  rewrite (prepare_next_url base_url cfg) by exact Hty.
  rewrite (prepare_next_page base_url as_page) by reflexivity.
  rewrite Hnext. reflexivity.
Qed.

Lemma process_page_no_link (data : json) (st st' : State) :
  truthy_entry data (next_page_key cfg) = inr None ->
  process_page base_url cfg data st = inr (Continue st') ->
  next_url st' = next_url st.
Proof.
  intros Hnext H. unfold process_page in H.
  destruct (extract_items (data_key cfg) data) as [e|items];
    [discriminate H|].
  cbn [bind] in H. destruct (truthy items); cbn [negb] in H;
    [|discriminate H].
  destruct (iterate items) as [e|elems]; [discriminate H|].
  cbn [bind] in H.
  destruct (Client.record_total cfg data (add_page elems st))
    as [e|st1] eqn:Htot; [discriminate H|].
  apply record_total_frame in Htot as (_ & _ & _ & _ & _ & _ & Hnu).
  cbn [bind] in H. cbn in Hnu.
  destruct (_ && _); [discriminate H|].
  destruct (match stop_condition cfg with Some _ => _ | None => _ end);
    [discriminate H|].
  rewrite (prepare_next_url base_url cfg) in H by exact Hty.
  rewrite Hnext in H. unfold bind, ret in H.
  split_matches H; finish_ctl H. exact Hnu.
Qed.

Lemma loop_as_page (fuel : nat) :
  forall st w,
    opt_str_truthy (next_url st) = false ->
    Client.loop W session_request base_url cfg fuel st w
    = Client.loop W session_request base_url as_page fuel st w.
Proof.
  induction fuel as [|fuel IH]; intros st w Hnu; [reflexivity|].
  rewrite !loop_S. cbv zeta. rewrite <- (build_request_as_page st Hnu).
  destruct (Client._make_request W session_request base_url "GET"
              (fst (build_request cfg st)) (snd (build_request cfg st)) w)
    as [[req resp] w1] eqn:Hsent.
  cbn [fst snd]. destruct resp as [msg| |body]; try reflexivity.
  assert (Hnext : truthy_entry body (next_page_key cfg) = inr None).
  { unfold Client._make_request in Hsent.
    destruct (RateLimiter.wait_if_needed _ _) as [rl clk].
    destruct (session_request _ _) as [resp n'] eqn:Hsr.
    injection Hsent as _ -> _. exact (Hnone _ _ _ _ Hsr). }
  rewrite <- (process_page_as_page body _ Hnext).
  destruct (process_page base_url cfg body _) as [e|[stop st'|st']] eqn:Hp;
    try reflexivity.
  f_equal. apply IH.
  apply (process_page_no_link _ _ _ Hnext) in Hp.
  cbn [next_url set_endpoint] in Hp. now rewrite Hp.
Qed.

(** Against an endpoint that never gives a next-link, the URL strategy
    is the page strategy: the same requests, the same result and the
    same stop, pass for pass. *)
Theorem url_without_links_is_page_strategy (fuel : nat) (w : World W) :
  get_paginated_data W session_request base_url cfg fuel w
  = get_paginated_data W session_request base_url as_page fuel w.
Proof.
  unfold get_paginated_data.
  assert (E : initial_state as_page = initial_state cfg).
  { unfold initial_state. cbn [with_pagination_type pagination_type
                                start_page endpoint].
    now rewrite Hty. }
  rewrite E. now apply loop_as_page.
Qed.

End NoLinks.

End StrategyFacts.

(* ================================================================== *)
(** * The strategies on concrete endpoints *)
(* ================================================================== *)

Module StrategyScenarios.
Import Py Client Sim StrategyFacts.
Local Open Scope list_scope.

(** [page_endpoint] never gives a next-link. *)
Lemma page_endpoint_no_links (db : list json) (req : Request) (n : unit)
  (body : json) (n' : unit) :
  stateless (page_endpoint db "page" "page_size") req n = (Body body, n') ->
  truthy_entry body (Some "next") = inr None.
Proof.
  unfold stateless, page_endpoint, page_of. intros H.
  destruct (dict_get (params req) "page") as [[]|]; try discriminate H;
    destruct (dict_get (params req) "page_size") as [[]|];
    try discriminate H.
  injection H as <- _. reflexivity.
Qed.

(** The first cursor page holds the item 1 and names a next cursor: the
    caller's condition ends the run there. *)
Lemma stop_condition_ends_run_witness :
  outcome _ (run scripted cursor_cfg_stop 5 cursor_pages)
  = Returned (synthetic 0 2) StopConditionMet
  /\ List.length (requests (run scripted cursor_cfg_stop 5 cursor_pages))
     = 1%nat.
Proof.
  exact (stop_condition_ends_run (U := Urllib.model) (list Response)
           scripted base_url cursor_cfg_stop 4%nat
           (initial_state cursor_cfg_stop) (world cursor_pages)
           [("items", JList (synthetic 0 2)); ("next", JStr "tok1")]
           (synthetic 0 2) holds_one eq_refl eq_refl ltac:(discriminate)
           eq_refl eq_refl eq_refl).
Defined.

(** A next-link wrapped in an object. *)
Lemma next_link_must_be_string_witness :
  outcome _ (run scripted url_cfg_open 5 link_as_object)
  = Raised AttributeError
  /\ List.length (requests (run scripted url_cfg_open 5 link_as_object))
     = 1%nat.
Proof.
  exact (next_link_must_be_string (U := Urllib.model) (list Response)
           scripted base_url url_cfg_open 4%nat
           (initial_state url_cfg_open) (world link_as_object)
           [("items", JList (synthetic 0 2));
            ("next", JDict [("href", JStr "/api/items?page=2")])]
           (synthetic 0 2)
           (JDict [("href", JStr "/api/items?page=2")])
           eq_refl eq_refl eq_refl ltac:(discriminate) eq_refl eq_refl
           eq_refl ltac:(discriminate)).
Defined.

(** The second request of the two cursor pages carries ["tok1"]. *)
Lemma cursor_requests_chain_witness :
  exists req' resp',
    nth_error (exchanges _ (run scripted cursor_cfg 5 cursor_pages)) 1
    = Some (req', resp')
    /\ req' = cursor_request (U := Urllib.model) base_url cursor_cfg
                (JStr "tok1").
Proof.
  destruct (nth_error (exchanges _ (run scripted cursor_cfg 5 cursor_pages))
              1) as [[req' resp']|] eqn:H1; [|discriminate H1].
  exists req', resp'. split; [reflexivity|].
  destruct (proj2 (cursor_requests_chain (U := Urllib.model)
                     (list Response) scripted base_url cursor_cfg 5%nat
                     (world cursor_pages) eq_refl)
              0%nat (first_cursor_request (U := Urllib.model) base_url
                       cursor_cfg)
              (JDict [("items", JList (synthetic 0 2));
                      ("next", JStr "tok1")])
              req' resp' eq_refl H1) as (tok & Htok & Hreq).
  injection Htok as <-. exact Hreq.
Defined.

(** Five items, two to a page, asked for with the URL strategy. *)
Lemma url_without_links_is_page_strategy_witness :
  run (stateless (page_endpoint (synthetic 0 5) "page" "page_size"))
    url_cfg_open 5 tt
  = run (stateless (page_endpoint (synthetic 0 5) "page" "page_size"))
      (with_pagination_type "page" url_cfg_open) 5 tt.
Proof.
  exact (url_without_links_is_page_strategy (U := Urllib.model) unit
           (stateless (page_endpoint (synthetic 0 5) "page" "page_size"))
           base_url url_cfg_open eq_refl
           (page_endpoint_no_links (synthetic 0 5)) 5%nat (world tt)).
Defined.

End StrategyScenarios.
